(** * Performance-monitoring engine: correlation, aggregation and session model

    A shallow embedding of the TypeScript monitors
    (APICorrelationMonitor, TanStackQueryMonitor, LoAFMonitor,
    ResourceTimingMonitor, WebVitalsMonitor and the PerformanceMonitor
    facade of index.ts) together with the properties the specification
    states about them.

    Conventions of the embedding:
    - a JavaScript [number] is an exact rational ([Q]); rounding, NaN and
      the infinities of IEEE doubles are outside the model;
    - an optional field ([x?: T], [T | null], [undefined]) is an [option];
    - a record object that is mutated after it was stored (the blocking
      flags) lives in an object store ([heap]), and the monitor's array
      holds references (indices) into it, so that identity and aliasing
      are the ones of the source;
    - [Date.now()] and [performance.now()] readings are arguments of the
      operation that reads the clock;
    - user callbacks ([onAPICall], [onQuery], ...) are foreign code and are
      not part of the state: they are invoked after the record is stored
      and the monitors never read anything back from them. *)

From Stdlib Require Import QArith Qminmax Lqa ZArith Lia.
From Stdlib Require Import Sorting.Sorted Sorting.Permutation.
From stdpp Require Import base list strings gmap.

Local Open Scope Q_scope.

(** ** JavaScript primitives used by the monitors *)

Module JS.

(** [a < b] on numbers. *)
Definition ltb (a b : Q) : bool := negb (Qle_bool b a).

(** Truthiness of a number: [0] is falsy. *)
Definition truthy (x : Q) : bool := negb (Qeq_bool x 0).

(** Truthiness of an optional number: [undefined] and [0] are falsy. *)
Definition truthy_opt (o : option Q) : bool :=
  match o with
  | Some x => truthy x
  | None => false
  end.

(** [o || d] where [o] is an optional number. *)
Definition or_default (o : option Q) (d : Q) : Q :=
  match o with
  | Some x => if truthy x then x else d
  | None => d
  end.

(** [!b] where [b] is an optional boolean ([!undefined] is [true]). *)
Definition not_opt (b : option bool) : bool :=
  match b with
  | Some true => false
  | _ => true
  end.

(** Truthiness of an optional boolean. *)
Definition truthy_bool (b : option bool) : bool :=
  match b with
  | Some true => true
  | _ => false
  end.

(** [Math.max(0, x)]. *)
Definition max0 (x : Q) : Q := Qmax 0 x.

(** [arr.reduce((sum, x) => sum + f(x), 0)]. *)
Definition sum_by {A : Type} (f : A -> Q) (l : list A) : Q :=
  fold_left (fun sum x => sum + f x) l 0.

(** [Map.prototype.set(k, true)] on a [Map<number, boolean>], kept as the
    list of its keys in insertion order: an existing key keeps its place. *)
Definition map_set_key (k : Q) (keys : list Q) : list Q :=
  if existsb (Qeq_bool k) keys then keys else keys ++ [k].

(** [Array.prototype.sort(cmp)]: the language requires a stable sort that
    orders [a] before [b] when [cmp(a, b) < 0] and keeps the input order
    when [cmp(a, b) = 0].  Modelled by a stable insertion sort. *)
Fixpoint sort_insert {A : Type} (cmp : A -> A -> Q) (x : A) (l : list A)
  : list A :=
  match l with
  | [] => [x]
  | y :: ys =>
      if Qle_bool (cmp x y) 0 then x :: y :: ys
      else y :: sort_insert cmp x ys
  end.

Fixpoint sort {A : Type} (cmp : A -> A -> Q) (l : list A) : list A :=
  match l with
  | [] => []
  | x :: xs => sort_insert cmp x (sort cmp xs)
  end.

(** [arr.slice(0, count)] for an integral [count]: a negative [count]
    counts from the end of the array. *)
Definition slice0 {A : Type} (count : Z) (l : list A) : list A :=
  if (count <? 0)%Z
  then firstn (Z.to_nat (Z.of_nat (length l) + count)) l
  else firstn (Z.to_nat count) l.

(** [s.includes(sub)]. *)
Fixpoint includes (sub s : string) : bool :=
  if String.prefix sub s then true
  else match s with
       | EmptyString => false
       | String _ rest => includes sub rest
       end.

(** [s.endsWith(suffix)]. *)
Fixpoint ends_with (suffix s : string) : bool :=
  if String.eqb suffix s then true
  else match s with
       | EmptyString => false
       | String _ rest => ends_with suffix rest
       end.

End JS.

(** ** Object store shared by the monitors that mutate stored records *)

Module Store.

(** [refs.forEach(r => { heap[r] = f(heap[r]) })]: the records are visited
    through their references, in array order, and updated in place. *)
Definition for_each {A : Type} (f : A -> A) (refs : list nat)
    (heap : list A) : list A :=
  foldl (fun h r => alter f r h) heap refs.

(** The records an array of references denotes. *)
Definition deref {A : Type} (heap : list A) (refs : list nat) : list A :=
  omap (fun r => heap !! r) refs.

End Store.

(** ** APICorrelationMonitor *)

Module API.

Record PendingRequest := {
  p_url : string;
  p_method : string;
  p_startTime : Q;
}.

Record APICallMetric := {
  url : string;
  method : string;
  startTime : Q;
  duration : Q;
  ttfb : Q;
  status : Z;
  size : Z;
  blockedLCP : bool;
  blockedINP : bool;
}.

(** [Omit<APICallMetric, 'blockedLCP' | 'blockedINP' | 'associatedMetricId'>] *)
Record CallData := {
  c_url : string;
  c_method : string;
  c_startTime : Q;
  c_duration : Q;
  c_ttfb : Q;
  c_status : Z;
  c_size : Z;
}.

Record state := {
  heap : list APICallMetric;
  apiCalls : list nat;
  pendingRequests : gmap string PendingRequest;
  initialized : bool;
  lcpTime : option Q;
  inpEvents : list Q;
}.

Definition init : state :=
  {| heap := []; apiCalls := []; pendingRequests := ∅;
     initialized := false; lcpTime := None; inpEvents := [] |}.

Definition set_blockedLCP (b : bool) (c : APICallMetric) : APICallMetric :=
  {| url := url c; method := method c; startTime := startTime c;
     duration := duration c; ttfb := ttfb c; status := status c;
     size := size c; blockedLCP := b; blockedINP := blockedINP c |}.

Definition set_blockedINP (b : bool) (c : APICallMetric) : APICallMetric :=
  {| url := url c; method := method c; startTime := startTime c;
     duration := duration c; ttfb := ttfb c; status := status c;
     size := size c; blockedLCP := blockedLCP c; blockedINP := b |}.

Definition with_heap (h : list APICallMetric) (s : state) : state :=
  {| heap := h; apiCalls := apiCalls s;
     pendingRequests := pendingRequests s; initialized := initialized s;
     lcpTime := lcpTime s; inpEvents := inpEvents s |}.

Definition with_pending (p : gmap string PendingRequest) (s : state)
  : state :=
  {| heap := heap s; apiCalls := apiCalls s; pendingRequests := p;
     initialized := initialized s; lcpTime := lcpTime s;
     inpEvents := inpEvents s |}.

(** The records currently in [this.apiCalls], in log order. *)
Definition calls (s : state) : list APICallMetric :=
  Store.deref (heap s) (apiCalls s).

Definition initialize (s : state) : state :=
  if initialized s then s
  else {| heap := heap s; apiCalls := apiCalls s;
          pendingRequests := pendingRequests s; initialized := true;
          lcpTime := lcpTime s; inpEvents := inpEvents s |}.

Definition checkLCPBlocking (s : state) (startTime duration : Q) : bool :=
  match lcpTime s with
  | None => false
  | Some lcp =>
      let endTime := startTime + duration in
      JS.ltb startTime lcp && JS.ltb lcp endTime
  end.

Definition checkINPBlocking (s : state) (startTime duration : Q) : bool :=
  let endTime := startTime + duration in
  existsb (fun inpTime => JS.ltb startTime inpTime && JS.ltb inpTime endTime)
          (inpEvents s).

Definition correlateWithLCP (s : state) : state :=
  match lcpTime s with
  | None => s
  | Some _ =>
      with_heap
        (Store.for_each
           (fun call =>
              if negb (blockedLCP call)
              then set_blockedLCP
                     (checkLCPBlocking s (startTime call) (duration call))
                     call
              else call)
           (apiCalls s) (heap s))
        s
  end.

Definition correlateWithINP (s : state) : state :=
  with_heap
    (Store.for_each
       (fun call =>
          if negb (blockedINP call)
          then set_blockedINP
                 (checkINPBlocking s (startTime call) (duration call))
                 call
          else call)
       (apiCalls s) (heap s))
    s.

Definition setLCPTime (time : Q) (s : state) : state :=
  correlateWithLCP
    {| heap := heap s; apiCalls := apiCalls s;
       pendingRequests := pendingRequests s; initialized := initialized s;
       lcpTime := Some time; inpEvents := inpEvents s |}.

Definition recordINPEvent (time : Q) (s : state) : state :=
  correlateWithINP
    {| heap := heap s; apiCalls := apiCalls s;
       pendingRequests := pendingRequests s; initialized := initialized s;
       lcpTime := lcpTime s;
       inpEvents := JS.map_set_key time (inpEvents s) |}.

Definition mk_metric (s : state) (callData : CallData) : APICallMetric :=
  {| url := c_url callData; method := c_method callData;
     startTime := c_startTime callData; duration := c_duration callData;
     ttfb := c_ttfb callData; status := c_status callData;
     size := c_size callData;
     blockedLCP :=
       checkLCPBlocking s (c_startTime callData) (c_duration callData);
     blockedINP :=
       checkINPBlocking s (c_startTime callData) (c_duration callData) |}.

(** [this.apiCalls.push(metric)]: the new object is allocated at the end
    of the store and its reference appended to the log. *)
Definition recordAPICall (callData : CallData) (s : state) : state :=
  {| heap := heap s ++ [mk_metric s callData];
     apiCalls := apiCalls s ++ [length (heap s)];
     pendingRequests := pendingRequests s; initialized := initialized s;
     lcpTime := lcpTime s; inpEvents := inpEvents s |}.

Definition getAPICalls (s : state) : list APICallMetric := calls s.

Definition getLCPBlockingCalls (s : state) : list APICallMetric :=
  filter (fun call => blockedLCP call = true) (calls s).

Definition getINPBlockingCalls (s : state) : list APICallMetric :=
  filter (fun call => blockedINP call = true) (calls s).

Definition getAverageLatency (s : state) : Q :=
  if Nat.eqb (length (calls s)) 0 then 0
  else JS.sum_by duration (calls s) / inject_Z (Z.of_nat (length (calls s))).

Definition getSlowestCalls (count : Z) (s : state) : list APICallMetric :=
  JS.slice0 count
    (JS.sort (fun a b => duration b - duration a) (calls s)).

Definition clear (s : state) : state :=
  {| heap := heap s; apiCalls := []; pendingRequests := ∅;
     initialized := initialized s; lcpTime := lcpTime s;
     inpEvents := inpEvents s |}.

(** The intercepted [fetch]: the call registers a pending request; the
    [then] and [catch] continuations record the call and drop the
    pending entry.  [endTime] is the [performance.now()] reading of the
    continuation. *)
Definition fetch_begin (requestId : string) (p : PendingRequest)
    (s : state) : state :=
  with_pending (<[requestId := p]> (pendingRequests s)) s.

Definition fetch_then (requestId : string) (p : PendingRequest)
    (endTime : Q) (status size : Z) (s : state) : state :=
  let s1 :=
    recordAPICall
      {| c_url := p_url p; c_method := p_method p;
         c_startTime := p_startTime p;
         c_duration := endTime - p_startTime p;
         c_ttfb := endTime - p_startTime p;
         c_status := status; c_size := size |} s in
  with_pending (delete requestId (pendingRequests s1)) s1.

Definition fetch_catch (requestId : string) (p : PendingRequest)
    (endTime : Q) (s : state) : state :=
  let s1 :=
    recordAPICall
      {| c_url := p_url p; c_method := p_method p;
         c_startTime := p_startTime p;
         c_duration := endTime - p_startTime p;
         c_ttfb := endTime - p_startTime p;
         c_status := 0; c_size := 0 |} s in
  with_pending (delete requestId (pendingRequests s1)) s1.

(** The [loadend] listener of the intercepted [XMLHttpRequest]. *)
Definition xhr_loadend (p : PendingRequest) (ttfb : option Q)
    (endTime : Q) (status size : Z) (s : state) : state :=
  recordAPICall
    {| c_url := p_url p; c_method := p_method p;
       c_startTime := p_startTime p;
       c_duration := endTime - p_startTime p;
       c_ttfb := JS.or_default ttfb (endTime - p_startTime p);
       c_status := status; c_size := size |} s.

(** The operations the outside world can trigger on the monitor. *)
Inductive op :=
| Initialize
| SetLCPTime (time : Q)
| RecordINPEvent (time : Q)
| Clear
| FetchBegin (requestId : string) (p : PendingRequest)
| FetchThen (requestId : string) (p : PendingRequest) (endTime : Q)
            (status size : Z)
| FetchCatch (requestId : string) (p : PendingRequest) (endTime : Q)
| XhrLoadEnd (p : PendingRequest) (ttfb : option Q) (endTime : Q)
             (status size : Z).

Definition step (s : state) (o : op) : state :=
  match o with
  | Initialize => initialize s
  | SetLCPTime t => setLCPTime t s
  | RecordINPEvent t => recordINPEvent t s
  | Clear => clear s
  | FetchBegin id p => fetch_begin id p s
  | FetchThen id p e st sz => fetch_then id p e st sz s
  | FetchCatch id p e => fetch_catch id p e s
  | XhrLoadEnd p t e st sz => xhr_loadend p t e st sz s
  end.

Definition run (ops : list op) (s : state) : state := foldl step s ops.

(** The open interval of a call strictly contains the instant [t]. *)
Definition overlaps (c : APICallMetric) (t : Q) : Prop :=
  startTime c < t /\ t < startTime c + duration c.

(** [c'] is a later state of the record object [c]: the same call, with
    blocking flags that were only ever raised. *)
Definition evolves (c c' : APICallMetric) : Prop :=
  url c' = url c /\ method c' = method c /\
  startTime c' = startTime c /\ duration c' = duration c /\
  ttfb c' = ttfb c /\ status c' = status c /\ size c' = size c /\
  (blockedLCP c = true -> blockedLCP c' = true) /\
  (blockedINP c = true -> blockedINP c' = true).

(** Every record of the log carries the verdict for every instant the
    monitor currently knows. *)
Definition correlated (s : state) : Prop :=
  forall r, In r (apiCalls s) ->
    exists c, heap s !! r = Some c /\
      (forall t, lcpTime s = Some t -> overlaps c t ->
                 blockedLCP c = true) /\
      (forall t, In t (inpEvents s) -> overlaps c t ->
                 blockedINP c = true).

End API.

(** ** TanStackQueryMonitor *)

Module Query.

Inductive Status := pending | error | success.
Inductive FetchStatus := fetching | paused | idle.

Definition Status_eqb (a b : Status) : bool :=
  match a, b with
  | pending, pending | error, error | success, success => true
  | _, _ => false
  end.

Definition FetchStatus_eqb (a b : FetchStatus) : bool :=
  match a, b with
  | fetching, fetching | paused, paused | idle, idle => true
  | _, _ => false
  end.

Record QueryCacheMetric := {
  queryKey : string;
  status : Status;
  fetchStatus : FetchStatus;
  dataUpdatedAt : Q;
  errorUpdatedAt : Q;
  fetchDuration : option Q;
  cacheTime : Q;
  staleTime : Q;
  blockedLCP : option bool;
  blockedINP : option bool;
}.

(** The part of a cache entry ([query]) the monitor reads.  [q_key] is
    the key as [serializeQueryKey] renders it. *)
Record RawQuery := {
  q_key : string;
  q_fetchStartTime : option Q;
  q_status : Status;
  q_fetchStatus : FetchStatus;
  q_dataUpdatedAt : Q;
  q_errorUpdatedAt : Q;
  q_cacheTime : option Q;
  q_staleTime : option Q;
}.

(** A cache notification: [{ type, query }]. *)
Record Event := {
  e_type : string;
  e_query : option RawQuery;
}.

Record ExecStat := {
  count : nat;
  totalDuration : Q;
}.

Record QueryCacheStats := {
  totalQueries : nat;
  activeQueries : nat;
  staleQueries : nat;
  erroredQueries : nat;
  averageFetchDuration : Q;
  cacheHitRate : Q;
  slowestQueries : list QueryCacheMetric;
  mostFrequentQueries : list (string * nat);
}.

(** [queryExecutions] is a [Map<string, ...>]: an association list in
    insertion order with one entry per key. *)
Record state := {
  heap : list QueryCacheMetric;
  queryMetrics : list nat;
  queryExecutions : list (string * ExecStat);
  initialized : bool;
  lcpTime : option Q;
  inpEvents : list Q;
}.

Definition init : state :=
  {| heap := []; queryMetrics := []; queryExecutions := [];
     initialized := false; lcpTime := None; inpEvents := [] |}.

Definition set_blockedLCP (b : option bool) (m : QueryCacheMetric)
  : QueryCacheMetric :=
  {| queryKey := queryKey m; status := status m;
     fetchStatus := fetchStatus m; dataUpdatedAt := dataUpdatedAt m;
     errorUpdatedAt := errorUpdatedAt m; fetchDuration := fetchDuration m;
     cacheTime := cacheTime m; staleTime := staleTime m;
     blockedLCP := b; blockedINP := blockedINP m |}.

Definition set_blockedINP (b : option bool) (m : QueryCacheMetric)
  : QueryCacheMetric :=
  {| queryKey := queryKey m; status := status m;
     fetchStatus := fetchStatus m; dataUpdatedAt := dataUpdatedAt m;
     errorUpdatedAt := errorUpdatedAt m; fetchDuration := fetchDuration m;
     cacheTime := cacheTime m; staleTime := staleTime m;
     blockedLCP := blockedLCP m; blockedINP := b |}.

Definition with_heap (h : list QueryCacheMetric) (s : state) : state :=
  {| heap := h; queryMetrics := queryMetrics s;
     queryExecutions := queryExecutions s; initialized := initialized s;
     lcpTime := lcpTime s; inpEvents := inpEvents s |}.

(** The records currently in [this.queryMetrics], in log order. *)
Definition metrics (s : state) : list QueryCacheMetric :=
  Store.deref (heap s) (queryMetrics s).

(** [Map.get] and [Map.set] on [queryExecutions]. *)
Fixpoint exec_get (k : string) (m : list (string * ExecStat))
  : option ExecStat :=
  match m with
  | [] => None
  | (k', v) :: rest => if String.eqb k k' then Some v else exec_get k rest
  end.

Fixpoint exec_set (k : string) (v : ExecStat) (m : list (string * ExecStat))
  : list (string * ExecStat) :=
  match m with
  | [] => [(k, v)]
  | (k', v') :: rest =>
      if String.eqb k k' then (k', v) :: rest
      else (k', v') :: exec_set k v rest
  end.

Definition checkLCPBlocking (s : state) (startTime duration : Q) : bool :=
  match lcpTime s with
  | None => false
  | Some lcp =>
      let endTime := startTime + duration in
      JS.ltb startTime lcp && JS.ltb lcp endTime
  end.

Definition checkINPBlocking (s : state) (startTime duration : Q) : bool :=
  let endTime := startTime + duration in
  existsb (fun inpTime => JS.ltb startTime inpTime && JS.ltb inpTime endTime)
          (inpEvents s).

(** The body of the [forEach] in [correlateWithLCP]. *)
Definition correlate_lcp_one (s : state) (metric : QueryCacheMetric)
  : QueryCacheMetric :=
  match fetchDuration metric with
  | Some d =>
      if JS.truthy d && JS.not_opt (blockedLCP metric)
      then set_blockedLCP
             (Some (checkLCPBlocking s (dataUpdatedAt metric - d) d)) metric
      else metric
  | None => metric
  end.

Definition correlate_inp_one (s : state) (metric : QueryCacheMetric)
  : QueryCacheMetric :=
  match fetchDuration metric with
  | Some d =>
      if JS.truthy d && JS.not_opt (blockedINP metric)
      then set_blockedINP
             (Some (checkINPBlocking s (dataUpdatedAt metric - d) d)) metric
      else metric
  | None => metric
  end.

Definition correlateWithLCP (s : state) : state :=
  match lcpTime s with
  | None => s
  | Some _ =>
      with_heap
        (Store.for_each (correlate_lcp_one s) (queryMetrics s) (heap s)) s
  end.

Definition correlateWithINP (s : state) : state :=
  with_heap
    (Store.for_each (correlate_inp_one s) (queryMetrics s) (heap s)) s.

Definition setLCPTime (time : Q) (s : state) : state :=
  correlateWithLCP
    {| heap := heap s; queryMetrics := queryMetrics s;
       queryExecutions := queryExecutions s; initialized := initialized s;
       lcpTime := Some time; inpEvents := inpEvents s |}.

Definition recordINPEvent (time : Q) (s : state) : state :=
  correlateWithINP
    {| heap := heap s; queryMetrics := queryMetrics s;
       queryExecutions := queryExecutions s; initialized := initialized s;
       lcpTime := lcpTime s;
       inpEvents := JS.map_set_key time (inpEvents s) |}.

(** [startTime] and [fetchDuration] as [handleQueryEvent] computes them;
    [now1] is the clock reading of the first [Date.now()] (only read when
    [_fetchStartTime] is falsy), [now2] that of the second. *)
Definition event_startTime (now1 : Q) (query : RawQuery) : Q :=
  JS.or_default (q_fetchStartTime query) now1.

Definition event_fetchDuration (now1 now2 : Q) (query : RawQuery)
  : option Q :=
  if JS.ltb 0 (q_dataUpdatedAt query)
  then Some (now2 - event_startTime now1 query)
  else None.

Definition mk_metric (now1 now2 : Q) (s : state) (query : RawQuery)
  : QueryCacheMetric :=
  let startTime := event_startTime now1 query in
  let fetchDuration := event_fetchDuration now1 now2 query in
  {| queryKey := q_key query;
     status := q_status query;
     fetchStatus := q_fetchStatus query;
     dataUpdatedAt := q_dataUpdatedAt query;
     errorUpdatedAt := q_errorUpdatedAt query;
     fetchDuration := fetchDuration;
     cacheTime := JS.or_default (q_cacheTime query) 300000;
     staleTime := JS.or_default (q_staleTime query) 0;
     blockedLCP :=
       Some (checkLCPBlocking s startTime (JS.or_default fetchDuration 0));
     blockedINP :=
       Some (checkINPBlocking s startTime (JS.or_default fetchDuration 0)) |}.

Definition handleQueryEvent (now1 now2 : Q) (event : Event) (s : state)
  : state :=
  if negb (String.eqb (e_type event) "updated") then s
  else
    match e_query event with
    | None => s
    | Some query =>
        let queryKey := q_key query in
        let fetchDuration := event_fetchDuration now1 now2 query in
        let existing :=
          match exec_get queryKey (queryExecutions s) with
          | Some e => e
          | None => {| count := 0; totalDuration := 0 |}
          end in
        {| heap := heap s ++ [mk_metric now1 now2 s query];
           queryMetrics := queryMetrics s ++ [length (heap s)];
           queryExecutions :=
             exec_set queryKey
               {| count := count existing + 1;
                  totalDuration :=
                    totalDuration existing + JS.or_default fetchDuration 0 |}
               (queryExecutions s);
           initialized := initialized s;
           lcpTime := lcpTime s; inpEvents := inpEvents s |}
    end.

(** The record [snapshotCurrentQueries] builds: no fetch duration and no
    blocking flags. *)
Definition snapshot_metric (query : RawQuery) : QueryCacheMetric :=
  {| queryKey := q_key query;
     status := q_status query;
     fetchStatus := q_fetchStatus query;
     dataUpdatedAt := q_dataUpdatedAt query;
     errorUpdatedAt := q_errorUpdatedAt query;
     fetchDuration := None;
     cacheTime := JS.or_default (q_cacheTime query) 300000;
     staleTime := JS.or_default (q_staleTime query) 0;
     blockedLCP := None;
     blockedINP := None |}.

Definition snapshotCurrentQueries (queries : list RawQuery) (s : state)
  : state :=
  {| heap := heap s ++ map snapshot_metric queries;
     queryMetrics :=
       queryMetrics s ++ seq (length (heap s)) (length queries);
     queryExecutions := queryExecutions s; initialized := initialized s;
     lcpTime := lcpTime s; inpEvents := inpEvents s |}.

(** [initialize(queryClient)]; [queries] is what
    [queryClient.getQueryCache().getAll()] returns at that moment. *)
Definition initialize (queries : list RawQuery) (s : state) : state :=
  if initialized s then s
  else
    let s1 := snapshotCurrentQueries queries s in
    {| heap := heap s1; queryMetrics := queryMetrics s1;
       queryExecutions := queryExecutions s1; initialized := true;
       lcpTime := lcpTime s1; inpEvents := inpEvents s1 |}.

Definition disconnect (s : state) : state :=
  {| heap := heap s; queryMetrics := queryMetrics s;
     queryExecutions := queryExecutions s; initialized := false;
     lcpTime := lcpTime s; inpEvents := inpEvents s |}.

Definition clear (s : state) : state :=
  {| heap := heap s; queryMetrics := []; queryExecutions := [];
     initialized := initialized s; lcpTime := lcpTime s;
     inpEvents := inpEvents s |}.

Definition getQueryMetrics (s : state) : list QueryCacheMetric := metrics s.

Definition has_duration (q : QueryCacheMetric) : bool :=
  match fetchDuration q with Some _ => true | None => false end.

(** [Array.from(this.queryExecutions.values()).reduce(... + stat.count, 0)] *)
Definition totalExecutions (s : state) : nat :=
  fold_left (fun sum kv => (sum + count (snd kv))%nat) (queryExecutions s) 0%nat.

Definition nat_to_Q (n : nat) : Q := inject_Z (Z.of_nat n).

(** [getQueryCacheStats()]; [now] is the [Date.now()] reading. *)
Definition getQueryCacheStats (now : Q) (s : state) : QueryCacheStats :=
  let allQueries := metrics s in
  let totalQueries := length allQueries in
  let queriesWithDuration := List.filter has_duration allQueries in
  let totalExecutions := totalExecutions s in
  {| totalQueries := totalQueries;
     activeQueries :=
       length (List.filter
                 (fun q => FetchStatus_eqb (fetchStatus q) fetching)
                 allQueries);
     staleQueries :=
       length (List.filter
                 (fun q => JS.ltb 0 (dataUpdatedAt q)
                           && JS.ltb (staleTime q) (now - dataUpdatedAt q))
                 allQueries);
     erroredQueries :=
       length (List.filter (fun q => Status_eqb (status q) error)
                           allQueries);
     averageFetchDuration :=
       if (0 <? length queriesWithDuration)%nat
       then JS.sum_by (fun q => JS.or_default (fetchDuration q) 0)
                      queriesWithDuration
            / nat_to_Q (length queriesWithDuration)
       else 0;
     cacheHitRate :=
       if (0 <? totalExecutions)%nat
       then (nat_to_Q totalExecutions - nat_to_Q totalQueries)
            / nat_to_Q totalExecutions
       else 0;
     slowestQueries :=
       JS.slice0 10
         (JS.sort
            (fun a b => JS.or_default (fetchDuration b) 0
                        - JS.or_default (fetchDuration a) 0)
            (List.filter has_duration allQueries));
     mostFrequentQueries :=
       JS.slice0 10
         (JS.sort
            (fun a b => nat_to_Q (snd b) - nat_to_Q (snd a))
            (map (fun kv => (fst kv, count (snd kv)))
                 (queryExecutions s))) |}.

Inductive op :=
| Initialize (queries : list RawQuery)
| Disconnect
| SetLCPTime (time : Q)
| RecordINPEvent (time : Q)
| Clear
| HandleQueryEvent (now1 now2 : Q) (event : Event).

Definition step (s : state) (o : op) : state :=
  match o with
  | Initialize qs => initialize qs s
  | Disconnect => disconnect s
  | SetLCPTime t => setLCPTime t s
  | RecordINPEvent t => recordINPEvent t s
  | Clear => clear s
  | HandleQueryEvent n1 n2 e => handleQueryEvent n1 n2 e s
  end.

Definition run (ops : list op) (s : state) : state := foldl step s ops.

(** [m'] is a later state of the record object [m]: blocking flags that
    were true stay true, everything else is untouched. *)
Definition evolves (m m' : QueryCacheMetric) : Prop :=
  queryKey m' = queryKey m /\ status m' = status m /\
  fetchStatus m' = fetchStatus m /\
  dataUpdatedAt m' = dataUpdatedAt m /\
  errorUpdatedAt m' = errorUpdatedAt m /\
  fetchDuration m' = fetchDuration m /\
  cacheTime m' = cacheTime m /\ staleTime m' = staleTime m /\
  (blockedLCP m = Some true -> blockedLCP m' = Some true) /\
  (blockedINP m = Some true -> blockedINP m' = Some true).

(** The interval [correlateWithLCP] and [correlateWithINP] attribute to a
    stored record, [(dataUpdatedAt - fetchDuration, dataUpdatedAt -
    fetchDuration + fetchDuration)], strictly contains [t]. *)
Definition overlaps (m : QueryCacheMetric) (t : Q) : Prop :=
  match fetchDuration m with
  | Some d => dataUpdatedAt m - d < t /\ t < (dataUpdatedAt m - d) + d
  | None => False
  end.

End Query.

(** ** LoAFMonitor *)

Module LoAF.

Record ScriptAttribution := {
  invoker : string;
  invokerType : string;
  sourceURL : string;
  sourceFunctionName : string;
  sourceCharPosition : Q;
  executionStart : Q;
  s_duration : Q;
  forcedStyleAndLayoutDuration : Q;
}.

Record LongAnimationFrameEntry := {
  name : string;
  entryType : string;
  startTime : Q;
  duration : Q;
  renderStart : Q;
  styleAndLayoutStart : Q;
  firstUIEventTimestamp : Q;
  blockingDuration : Q;
  scripts : list ScriptAttribution;
}.

(** A [PerformanceLongAnimationFrameTiming] as the platform delivers it;
    [r_scripts] holds the scripts as [extractScripts] returns them. *)
Record RawLoAF := {
  r_name : option string;
  r_startTime : Q;
  r_duration : Q;
  r_renderStart : option Q;
  r_styleAndLayoutStart : option Q;
  r_firstUIEventTimestamp : option Q;
  r_blockingDuration : option Q;
  r_scripts : list ScriptAttribution;
}.

(** A [longtask] entry. *)
Record RawLongTask := {
  t_name : string;
  t_startTime : Q;
  t_duration : Q;
}.

Record state := {
  frames : list LongAnimationFrameEntry;
  initialized : bool;
}.

Definition init : state := {| frames := []; initialized := false |}.

Definition str_or_default (o : option string) (d : string) : string :=
  match o with
  | Some EmptyString | None => d
  | Some s => s
  end.

Definition push (frame : LongAnimationFrameEntry) (s : state) : state :=
  {| frames := frames s ++ [frame]; initialized := initialized s |}.

Definition handleLoAFEntry (entry : RawLoAF) (s : state) : state :=
  push
    {| name := str_or_default (r_name entry) "long-animation-frame";
       entryType := "long-animation-frame";
       startTime := r_startTime entry;
       duration := r_duration entry;
       renderStart := JS.or_default (r_renderStart entry) 0;
       styleAndLayoutStart := JS.or_default (r_styleAndLayoutStart entry) 0;
       firstUIEventTimestamp :=
         JS.or_default (r_firstUIEventTimestamp entry) 0;
       blockingDuration := JS.or_default (r_blockingDuration entry) 0;
       scripts := r_scripts entry |}
    s.

Definition handleLongTaskEntry (entry : RawLongTask) (s : state) : state :=
  push
    {| name := t_name entry;
       entryType := "long-animation-frame";
       startTime := t_startTime entry;
       duration := t_duration entry;
       renderStart := 0;
       styleAndLayoutStart := 0;
       firstUIEventTimestamp := 0;
       blockingDuration := JS.max0 (t_duration entry - 50);
       scripts :=
         [ {| invoker := "unknown";
              invokerType := "unknown";
              sourceURL := "unknown (longtask fallback)";
              sourceFunctionName := "unknown";
              sourceCharPosition := 0;
              executionStart := t_startTime entry;
              s_duration := t_duration entry;
              forcedStyleAndLayoutDuration := 0 |} ] |}
    s.

Definition getFrames (s : state) : list LongAnimationFrameEntry := frames s.

Definition getFramesAboveThreshold (thresholdMs : Q) (s : state)
  : list LongAnimationFrameEntry :=
  List.filter (fun f => Qle_bool thresholdMs (duration f)) (frames s).

Definition getTotalBlockingTime (s : state) : Q :=
  fold_left
    (fun sum frame =>
       let blockingTime := JS.max0 (duration frame - 50) in
       sum + blockingTime)
    (frames s) 0.

Definition clear (s : state) : state :=
  {| frames := []; initialized := initialized s |}.

End LoAF.

(** ** ResourceTimingMonitor *)

Module Resource.

Inductive RenderBlocking := blocking | non_blocking.

Definition RenderBlocking_eqb (a b : RenderBlocking) : bool :=
  match a, b with
  | blocking, blocking | non_blocking, non_blocking => true
  | _, _ => false
  end.

Record ResourceTimingEntry := {
  name : string;
  entryType : string;
  startTime : Q;
  duration : Q;
  initiatorType : string;
  nextHopProtocol : string;
  renderBlockingStatus : RenderBlocking;
  fetchStart : Q;
  domainLookupStart : Q;
  domainLookupEnd : Q;
  connectStart : Q;
  connectEnd : Q;
  secureConnectionStart : Q;
  requestStart : Q;
  responseStart : Q;
  responseEnd : Q;
  transferSize : Q;
  encodedBodySize : Q;
  decodedBodySize : Q;
  compressionRatio : option Q;
}.

(** A [PerformanceResourceTiming] entry; [e_renderBlockingStatus] is
    [None] when the entry has no such property (older browsers). *)
Record RawEntry := {
  e_name : string;
  e_entryType : string;
  e_startTime : Q;
  e_duration : Q;
  e_initiatorType : string;
  e_nextHopProtocol : string;
  e_renderBlockingStatus : option string;
  e_fetchStart : Q;
  e_domainLookupStart : Q;
  e_domainLookupEnd : Q;
  e_connectStart : Q;
  e_connectEnd : Q;
  e_secureConnectionStart : Q;
  e_requestStart : Q;
  e_responseStart : Q;
  e_responseEnd : Q;
  e_transferSize : Q;
  e_encodedBodySize : Q;
  e_decodedBodySize : Q;
}.

Record state := {
  resources : list ResourceTimingEntry;
  initialized : bool;
}.

Definition init : state := {| resources := []; initialized := false |}.

Definition getRenderBlockingStatus (entry : RawEntry) : RenderBlocking :=
  match e_renderBlockingStatus entry with
  | Some v => if String.eqb v "blocking" then blocking else non_blocking
  | None =>
      let isStylesheet :=
        String.eqb (e_initiatorType entry) "link"
        && JS.includes ".css" (e_name entry) in
      let isBlockingScript :=
        String.eqb (e_initiatorType entry) "script"
        && negb (JS.includes "async" (e_name entry))
        && negb (JS.includes "defer" (e_name entry)) in
      let isFont :=
        String.eqb (e_initiatorType entry) "css"
        || JS.ends_with ".woff" (e_name entry)
        || JS.ends_with ".woff2" (e_name entry)
        || JS.ends_with ".ttf" (e_name entry)
        || JS.ends_with ".otf" (e_name entry)
        || JS.ends_with ".eot" (e_name entry) in
      let isEarlyLoad := JS.ltb (e_startTime entry) 1000 in
      if (isStylesheet || isBlockingScript || isFont) && isEarlyLoad
      then blocking else non_blocking
  end.

Definition convertToResourceTiming (entry : RawEntry) : ResourceTimingEntry :=
  let compressionRatio :=
    if JS.ltb 0 (e_encodedBodySize entry)
    then Some (e_decodedBodySize entry / e_encodedBodySize entry)
    else None in
  {| name := e_name entry;
     entryType := e_entryType entry;
     startTime := e_startTime entry;
     duration := e_duration entry;
     initiatorType := e_initiatorType entry;
     nextHopProtocol := e_nextHopProtocol entry;
     renderBlockingStatus := getRenderBlockingStatus entry;
     fetchStart := e_fetchStart entry;
     domainLookupStart := e_domainLookupStart entry;
     domainLookupEnd := e_domainLookupEnd entry;
     connectStart := e_connectStart entry;
     connectEnd := e_connectEnd entry;
     secureConnectionStart := e_secureConnectionStart entry;
     requestStart := e_requestStart entry;
     responseStart := e_responseStart entry;
     responseEnd := e_responseEnd entry;
     transferSize := e_transferSize entry;
     encodedBodySize := e_encodedBodySize entry;
     decodedBodySize := e_decodedBodySize entry;
     compressionRatio := compressionRatio |}.

Definition handleResourceEntry (entry : RawEntry) (s : state) : state :=
  {| resources := resources s ++ [convertToResourceTiming entry];
     initialized := initialized s |}.

Definition getResources (s : state) : list ResourceTimingEntry :=
  resources s.

Definition getBlockingResources (s : state) : list ResourceTimingEntry :=
  List.filter
    (fun r => RenderBlocking_eqb (renderBlockingStatus r) blocking)
    (resources s).

Definition getLargestResources (count : Z) (s : state)
  : list ResourceTimingEntry :=
  JS.slice0 count
    (JS.sort (fun a b => transferSize b - transferSize a) (resources s)).

Definition getSlowestResources (count : Z) (s : state)
  : list ResourceTimingEntry :=
  JS.slice0 count
    (JS.sort (fun a b => duration b - duration a) (resources s)).

Definition getTotalTransferSize (s : state) : Q :=
  JS.sum_by transferSize (resources s).

(** [.map(r => r.compressionRatio).filter(r => r !== undefined && r > 0)] *)
Definition positive_ratios (s : state) : list Q :=
  omap (fun r =>
          match compressionRatio r with
          | Some x => if JS.ltb 0 x then Some x else None
          | None => None
          end)
       (resources s).

Definition getAverageCompressionRatio (s : state) : Q :=
  let ratios := positive_ratios s in
  if Nat.eqb (length ratios) 0 then 0
  else JS.sum_by (fun r => r) ratios / inject_Z (Z.of_nat (length ratios)).

Definition clear (s : state) : state :=
  {| resources := []; initialized := initialized s |}.

End Resource.

(** ** WebVitalsMonitor *)

Module WebVitals.

Inductive MetricName := LCP | CLS | INP | FCP | TTFB.

Definition MetricName_eqb (a b : MetricName) : bool :=
  match a, b with
  | LCP, LCP | CLS, CLS | INP, INP | FCP, FCP | TTFB, TTFB => true
  | _, _ => false
  end.

(** The attribution payload; only the paint metric's carries an
    [element] selector. *)
Inductive Attribution :=
| LCPAttribution (element url : option string)
    (timeToFirstByte resourceLoadDelay resourceLoadDuration
     elementRenderDelay : Q)
| CLSAttribution (largestShiftTarget : option string)
    (largestShiftValue largestShiftTime : Q) (loadState : string)
| INPAttribution (interactionTarget eventTarget interactionType
                  eventType : option string)
    (interactionTime eventTime inputDelay processingStart
     processingDuration processingEnd presentationDelay
     presentationTime : option Q).

(** [(attribution as any).element] *)
Definition attribution_element (a : Attribution) : option string :=
  match a with
  | LCPAttribution element _ _ _ _ _ => element
  | _ => None
  end.

Record EnhancedWebVitalsMetric := {
  name : MetricName;
  value : Q;
  rating : string;
  delta : Q;
  id : string;
  navigationType : string;
  timestamp : Q;
  url : string;
  userAgent : string;
  attribution : option Attribution;
}.

Record state := {
  metrics : list EnhancedWebVitalsMetric;
  initialized : bool;
}.

Definition init : state := {| metrics := []; initialized := false |}.

Definition storeMetric (metric : EnhancedWebVitalsMetric) (s : state)
  : state :=
  {| metrics := metrics s ++ [metric]; initialized := initialized s |}.

Definition getMetrics (s : state) : list EnhancedWebVitalsMetric :=
  metrics s.

Definition getLatestMetric (n : MetricName) (s : state)
  : option EnhancedWebVitalsMetric :=
  let filtered :=
    List.filter (fun m => MetricName_eqb (name m) n) (metrics s) in
  if (0 <? length filtered)%nat
  then filtered !! (length filtered - 1)%nat
  else None.

Definition clear (s : state) : state :=
  {| metrics := []; initialized := initialized s |}.

End WebVitals.

(** ** PerformanceMonitor (index.ts) *)

Module Session.

Inductive Framework := react | vue | other.

Record NavigationTiming := {
  t_type : string;
  t_fetchStart : Q;
  t_domainLookupStart : Q;
  t_domainLookupEnd : Q;
  t_connectStart : Q;
  t_connectEnd : Q;
  t_requestStart : Q;
  t_responseStart : Q;
  t_responseEnd : Q;
  t_domInteractive : Q;
  t_domContentLoadedEventStart : Q;
  t_domContentLoadedEventEnd : Q;
  t_domComplete : Q;
  t_loadEventStart : Q;
  t_loadEventEnd : Q;
}.

Record NavigationMetric := {
  navigationType : string;
  domainLookupStart : Q;
  domainLookupEnd : Q;
  connectStart : Q;
  connectEnd : Q;
  requestStart : Q;
  responseStart : Q;
  responseEnd : Q;
  domInteractive : Q;
  domContentLoadedEventStart : Q;
  domContentLoadedEventEnd : Q;
  domComplete : Q;
  loadEventStart : Q;
  loadEventEnd : Q;
  dnsTime : Q;
  tcpTime : Q;
  ttfb : Q;
  downloadTime : Q;
  domProcessingTime : Q;
  pageLoadTime : Q;
}.

Record HydrationMetric := {
  startTime : Q;
  endTime : Q;
  duration : Q;
  componentsHydrated : Q;
  h_framework : Framework;
  lcpBeforeHydration : option Q;
  lcpAfterHydration : option Q;
  lcpElement : option string;
}.

Record PerformanceSummary := {
  totalResources : nat;
  blockingResources : nat;
  totalTransferSize : Q;
  averageCompressionRatio : Q;
  apiCallCount : nat;
  averageApiLatency : Q;
  longFrameCount : nat;
  totalBlockingTime : Q;
  queryCount : option nat;
  queryCacheHitRate : option Q;
  averageQueryDuration : option Q;
}.

Record PerformanceSession := {
  s_sessionId : string;
  s_url : string;
  s_timestamp : Q;
  s_userAgent : string;
  s_framework : Framework;
  webVitals : list WebVitals.EnhancedWebVitalsMetric;
  navigation : option NavigationMetric;
  hydration : option HydrationMetric;
  resources : list Resource.ResourceTimingEntry;
  longFrames : list LoAF.LongAnimationFrameEntry;
  apiCalls : list API.APICallMetric;
  queryCache : option Query.QueryCacheStats;
  summary : PerformanceSummary;
}.

(** What the page exposes to the facade: [window.location.href],
    [navigator.userAgent] and the first navigation-timing entry. *)
Record Env := {
  href : string;
  env_userAgent : string;
  navTiming : option NavigationTiming;
}.

(** The module-level singletons every [PerformanceMonitor] shares
    ([getWebVitalsMonitor()], [getResourceTimingMonitor()], ...). *)
Record Globals := {
  webVitalsMonitor : WebVitals.state;
  resourceMonitor : Resource.state;
  loafMonitor : LoAF.state;
  apiMonitor : API.state;
  queryMonitor : Query.state;
}.

(** The fields of one [PerformanceMonitor] instance. *)
Record PerformanceMonitor := {
  sessionId : string;
  sessionStartTime : Q;
  framework : Framework;
  hydrationStartTime : option Q;
  hydrationMetric : option HydrationMetric;
  queryClientInitialized : bool;
}.

Definition globals_init : Globals :=
  {| webVitalsMonitor := WebVitals.init;
     resourceMonitor := Resource.init;
     loafMonitor := LoAF.init;
     apiMonitor := API.init;
     queryMonitor := Query.init |}.

(** [new PerformanceMonitor(framework)]; [id] is the generated session
    identifier and [now] the [Date.now()] reading. *)
Definition constructor (id : string) (now : Q) (fw : Framework)
  : PerformanceMonitor :=
  {| sessionId := id;
     sessionStartTime := now;
     framework := fw;
     hydrationStartTime := None;
     hydrationMetric := None;
     queryClientInitialized := false |}.

Definition with_hydration (start : option Q) (m : option HydrationMetric)
    (p : PerformanceMonitor) : PerformanceMonitor :=
  {| sessionId := sessionId p;
     sessionStartTime := sessionStartTime p;
     framework := framework p;
     hydrationStartTime := start;
     hydrationMetric := m;
     queryClientInitialized := queryClientInitialized p |}.

(** [initializeQueryClient(queryClient)]; [queries] is the content of the
    client's cache. *)
Definition initializeQueryClient (queries : list Query.RawQuery)
    (w : Globals * PerformanceMonitor) : Globals * PerformanceMonitor :=
  let (g, p) := w in
  if queryClientInitialized p then w
  else
    ({| webVitalsMonitor := webVitalsMonitor g;
        resourceMonitor := resourceMonitor g;
        loafMonitor := loafMonitor g;
        apiMonitor := apiMonitor g;
        queryMonitor := Query.initialize queries (queryMonitor g) |},
     {| sessionId := sessionId p;
        sessionStartTime := sessionStartTime p;
        framework := framework p;
        hydrationStartTime := hydrationStartTime p;
        hydrationMetric := hydrationMetric p;
        queryClientInitialized := true |}).

(** [markHydrationStart()]; [now] is the [performance.now()] reading. *)
Definition markHydrationStart (now : Q) (p : PerformanceMonitor)
  : PerformanceMonitor :=
  with_hydration (Some now) (hydrationMetric p) p.

(** [markHydrationEnd(componentCount?)]; [now] is the [performance.now()]
    reading taken after the guard. *)
Definition markHydrationEnd (now : Q) (componentCount : option Q)
    (g : Globals) (p : PerformanceMonitor) : PerformanceMonitor :=
  match hydrationStartTime p with
  | None => p
  | Some start =>
      let endTime := now in
      let duration := endTime - start in
      let lcpMetric :=
        WebVitals.getLatestMetric WebVitals.LCP (webVitalsMonitor g) in
      with_hydration (Some start)
        (Some
           {| startTime := start;
              endTime := endTime;
              duration := duration;
              componentsHydrated := JS.or_default componentCount 0;
              h_framework := framework p;
              lcpBeforeHydration :=
                match lcpMetric with
                | Some m =>
                    if JS.ltb (WebVitals.timestamp m) endTime
                    then Some (WebVitals.value m) else None
                | None => None
                end;
              lcpAfterHydration :=
                match lcpMetric with
                | Some m =>
                    if Qle_bool endTime (WebVitals.timestamp m)
                    then Some (WebVitals.value m) else None
                | None => None
                end;
              lcpElement :=
                match lcpMetric with
                | Some m =>
                    match WebVitals.attribution m with
                    | Some a => WebVitals.attribution_element a
                    | None => None
                    end
                | None => None
                end |})
        p
  end.

Definition getNavigationMetric (env : Env) : option NavigationMetric :=
  match navTiming env with
  | None => None
  | Some n =>
      Some
        {| navigationType := t_type n;
           domainLookupStart := t_domainLookupStart n;
           domainLookupEnd := t_domainLookupEnd n;
           connectStart := t_connectStart n;
           connectEnd := t_connectEnd n;
           requestStart := t_requestStart n;
           responseStart := t_responseStart n;
           responseEnd := t_responseEnd n;
           domInteractive := t_domInteractive n;
           domContentLoadedEventStart := t_domContentLoadedEventStart n;
           domContentLoadedEventEnd := t_domContentLoadedEventEnd n;
           domComplete := t_domComplete n;
           loadEventStart := t_loadEventStart n;
           loadEventEnd := t_loadEventEnd n;
           dnsTime := t_domainLookupEnd n - t_domainLookupStart n;
           tcpTime := t_connectEnd n - t_connectStart n;
           ttfb := t_responseStart n - t_requestStart n;
           downloadTime := t_responseEnd n - t_responseStart n;
           domProcessingTime := t_domComplete n - t_domInteractive n;
           pageLoadTime := t_loadEventEnd n - t_fetchStart n |}
  end.

(** [getPerformanceSession()]; [now] is the [Date.now()] reading of
    [getQueryCacheStats]. *)
Definition getPerformanceSession (env : Env) (now : Q) (g : Globals)
    (p : PerformanceMonitor) : PerformanceSession :=
  let webVitals := WebVitals.getMetrics (webVitalsMonitor g) in
  let resources := Resource.getResources (resourceMonitor g) in
  let longFrames := LoAF.getFrames (loafMonitor g) in
  let apiCalls := API.getAPICalls (apiMonitor g) in
  let navigation := getNavigationMetric env in
  let queryCache :=
    if queryClientInitialized p
    then Some (Query.getQueryCacheStats now (queryMonitor g))
    else None in
  let summary :=
    {| totalResources := length resources;
       blockingResources :=
         length (Resource.getBlockingResources (resourceMonitor g));
       totalTransferSize :=
         Resource.getTotalTransferSize (resourceMonitor g);
       averageCompressionRatio :=
         Resource.getAverageCompressionRatio (resourceMonitor g);
       apiCallCount := length apiCalls;
       averageApiLatency := API.getAverageLatency (apiMonitor g);
       longFrameCount := length longFrames;
       totalBlockingTime := LoAF.getTotalBlockingTime (loafMonitor g);
       queryCount := Query.totalQueries <$> queryCache;
       queryCacheHitRate := Query.cacheHitRate <$> queryCache;
       averageQueryDuration := Query.averageFetchDuration <$> queryCache |} in
  {| s_sessionId := sessionId p;
     s_url := href env;
     s_timestamp := sessionStartTime p;
     s_userAgent := env_userAgent env;
     s_framework := framework p;
     webVitals := webVitals;
     navigation := navigation;
     hydration := hydrationMetric p;
     resources := resources;
     longFrames := longFrames;
     apiCalls := apiCalls;
     queryCache := queryCache;
     summary := summary |}.

Definition clear (w : Globals * PerformanceMonitor)
  : Globals * PerformanceMonitor :=
  let (g, p) := w in
  ({| webVitalsMonitor := WebVitals.clear (webVitalsMonitor g);
      resourceMonitor := Resource.clear (resourceMonitor g);
      loafMonitor := LoAF.clear (loafMonitor g);
      apiMonitor := API.clear (apiMonitor g);
      queryMonitor :=
        if queryClientInitialized p
        then Query.clear (queryMonitor g)
        else queryMonitor g |},
   with_hydration None None p).

(** The listener [setupCorrelations] registers on the vitals monitor. *)
Definition on_web_vital (p : PerformanceMonitor)
    (metric : WebVitals.EnhancedWebVitalsMetric) (g : Globals) : Globals :=
  match WebVitals.name metric with
  | WebVitals.LCP =>
      {| webVitalsMonitor := webVitalsMonitor g;
         resourceMonitor := resourceMonitor g;
         loafMonitor := loafMonitor g;
         apiMonitor := API.setLCPTime (WebVitals.value metric) (apiMonitor g);
         queryMonitor :=
           if queryClientInitialized p
           then Query.setLCPTime (WebVitals.value metric) (queryMonitor g)
           else queryMonitor g |}
  | WebVitals.INP =>
      {| webVitalsMonitor := webVitalsMonitor g;
         resourceMonitor := resourceMonitor g;
         loafMonitor := loafMonitor g;
         apiMonitor :=
           API.recordINPEvent (WebVitals.value metric) (apiMonitor g);
         queryMonitor :=
           if queryClientInitialized p
           then Query.recordINPEvent (WebVitals.value metric)
                                     (queryMonitor g)
           else queryMonitor g |}
  | _ => g
  end.

(** What can happen to one facade instance and the singletons it shares.
    [External] stands for everything that reaches the singletons without
    going through this instance: platform events, the registered
    listeners, another instance of the facade. *)
Inductive op :=
| InitializeQueryClient (queries : list Query.RawQuery)
| MarkHydrationStart (now : Q)
| MarkHydrationEnd (now : Q) (componentCount : option Q)
| Clear
| External (g' : Globals).

Definition step (w : Globals * PerformanceMonitor) (o : op)
  : Globals * PerformanceMonitor :=
  match o with
  | InitializeQueryClient qs => initializeQueryClient qs w
  | MarkHydrationStart now => (fst w, markHydrationStart now (snd w))
  | MarkHydrationEnd now c => (fst w, markHydrationEnd now c (fst w) (snd w))
  | Clear => clear w
  | External g' => (g', snd w)
  end.

Definition run (ops : list op) (w : Globals * PerformanceMonitor)
  : Globals * PerformanceMonitor :=
  foldl step w ops.

Definition is_start (o : op) : bool :=
  match o with MarkHydrationStart _ => true | _ => false end.

Definition is_clear (o : op) : bool :=
  match o with Clear => true | _ => false end.

(** No [markHydrationStart] is in effect at the end of [ops]: none was
    ever called, or none since the last [clear]. *)
Fixpoint start_in_effect (acc : bool) (ops : list op) : bool :=
  match ops with
  | [] => acc
  | o :: rest =>
      start_in_effect
        (if is_start o then true else if is_clear o then false else acc)
        rest
  end.

End Session.

(** ** Concrete inputs used by the scenarios below *)

Module Scenario.

(** An API call that starts at 100ms and ends at 400ms. *)
Definition call_100 : API.PendingRequest :=
  {| API.p_url := "/api/items"; API.p_method := "GET";
     API.p_startTime := 100 |}.

(** An API call that starts at 500ms and ends at 550ms. *)
Definition call_500 : API.PendingRequest :=
  {| API.p_url := "/api/user"; API.p_method := "GET";
     API.p_startTime := 500 |}.

(** The monitor after the first call completed, no instant known yet. *)
Definition api_after_call : API.state :=
  API.xhr_loadend call_100 None 400 200 0 API.init.

(** ... and after the paint instant 250ms was reported. *)
Definition api_after_paint : API.state :=
  API.setLCPTime 250 api_after_call.

(** The first call as it is stored once the paint instant is known. *)
Definition stored_call_100 : API.APICallMetric :=
  {| API.url := "/api/items"; API.method := "GET";
     API.startTime := 100; API.duration := 400 - 100;
     API.ttfb := 400 - 100; API.status := 200; API.size := 0;
     API.blockedLCP := true; API.blockedINP := false |}.

(** A cache notification for a refetch that began at 1000ms and is
    reported at 1300ms, on an entry whose data dates from 400ms. *)
Definition refetch_event : Query.Event :=
  {| Query.e_type := "updated";
     Query.e_query :=
       Some {| Query.q_key := "todos";
               Query.q_fetchStartTime := Some 1000;
               Query.q_status := Query.error;
               Query.q_fetchStatus := Query.idle;
               Query.q_dataUpdatedAt := 400;
               Query.q_errorUpdatedAt := 1300;
               Query.q_cacheTime := None;
               Query.q_staleTime := None |} |}.

(** A cache notification for a refetch that began at 100ms and is
    reported at 400ms, on an entry whose data dates from 50ms. *)
Definition early_refetch_event : Query.Event :=
  {| Query.e_type := "updated";
     Query.e_query :=
       Some {| Query.q_key := "todos";
               Query.q_fetchStartTime := Some 100;
               Query.q_status := Query.error;
               Query.q_fetchStatus := Query.idle;
               Query.q_dataUpdatedAt := 50;
               Query.q_errorUpdatedAt := 400;
               Query.q_cacheTime := None;
               Query.q_staleTime := None |} |}.

(** The query monitor when the paint instant 250ms is known before the
    notification arrives. *)
Definition query_paint_then_event : Query.state :=
  Query.run [Query.SetLCPTime 250;
             Query.HandleQueryEvent 1300 1300 refetch_event]
            Query.init.

(** The query monitor when the interaction instant 250ms is known before
    the notification arrives. *)
Definition query_interaction_then_event : Query.state :=
  Query.run [Query.RecordINPEvent 250;
             Query.HandleQueryEvent 1300 1300 refetch_event]
            Query.init.

(** The query monitor when the notification arrives first and the paint
    instant 250ms afterwards. *)
Definition query_event_then_paint : Query.state :=
  Query.run [Query.HandleQueryEvent 400 400 early_refetch_event;
             Query.SetLCPTime 250]
            Query.init.

(** A query record whose paint flag is already raised. *)
Definition flagged_query : Query.QueryCacheMetric :=
  {| Query.queryKey := "todos"; Query.status := Query.success;
     Query.fetchStatus := Query.idle; Query.dataUpdatedAt := 400;
     Query.errorUpdatedAt := 0; Query.fetchDuration := Some 300;
     Query.cacheTime := 300000; Query.staleTime := 0;
     Query.blockedLCP := Some true; Query.blockedINP := Some false |}.

Definition query_with_flagged : Query.state :=
  {| Query.heap := [flagged_query]; Query.queryMetrics := [0%nat];
     Query.queryExecutions := []; Query.initialized := true;
     Query.lcpTime := Some 250; Query.inpEvents := [] |}.

(** A resource-timing entry with the given encoded and decoded sizes. *)
Definition resource_entry (name : string) (encoded decoded : Q)
  : Resource.RawEntry :=
  {| Resource.e_name := name;
     Resource.e_entryType := "resource";
     Resource.e_startTime := 10;
     Resource.e_duration := 20;
     Resource.e_initiatorType := "fetch";
     Resource.e_nextHopProtocol := "h2";
     Resource.e_renderBlockingStatus := Some "non-blocking";
     Resource.e_fetchStart := 10;
     Resource.e_domainLookupStart := 10;
     Resource.e_domainLookupEnd := 10;
     Resource.e_connectStart := 10;
     Resource.e_connectEnd := 10;
     Resource.e_secureConnectionStart := 0;
     Resource.e_requestStart := 12;
     Resource.e_responseStart := 20;
     Resource.e_responseEnd := 30;
     Resource.e_transferSize := encoded + 300;
     Resource.e_encodedBodySize := encoded;
     Resource.e_decodedBodySize := decoded |}.

(** Two resources with ratios 3 and 1 and one without encoded size. *)
Definition resources_3_1_none : Resource.state :=
  Resource.handleResourceEntry (resource_entry "/c.bin" 0 0)
    (Resource.handleResourceEntry (resource_entry "/b.js" 100 100)
       (Resource.handleResourceEntry (resource_entry "/a.js" 100 300)
          Resource.init)).

(** A resource with ratio 3 and a compressed empty body: 20 encoded
    bytes that decode to nothing. *)
Definition resources_3_empty : Resource.state :=
  Resource.handleResourceEntry (resource_entry "/empty.json" 20 0)
    (Resource.handleResourceEntry (resource_entry "/a.js" 100 300)
       Resource.init).

(** A long animation frame of 120ms for which the platform supplies no
    blocking duration. *)
Definition frame_120 : LoAF.RawLoAF :=
  {| LoAF.r_name := None;
     LoAF.r_startTime := 1000;
     LoAF.r_duration := 120;
     LoAF.r_renderStart := None;
     LoAF.r_styleAndLayoutStart := None;
     LoAF.r_firstUIEventTimestamp := None;
     LoAF.r_blockingDuration := None;
     LoAF.r_scripts := [] |}.

(** The page of the scenarios: no navigation-timing entry. *)
Definition page : Session.Env :=
  {| Session.href := "https://app.example/";
     Session.env_userAgent := "test-agent";
     Session.navTiming := None |}.

(** A session of the React flavour on which a query client (with an
    empty cache) has been initialized. *)
Definition world_with_query_client
  : Session.Globals * Session.PerformanceMonitor :=
  Session.initializeQueryClient []
    (Session.globals_init, Session.constructor "session_1" 1000 Session.react).

(** The monitor with both scenario calls recorded. *)
Definition api_two_calls : API.state :=
  API.xhr_loadend call_500 None 550 200 0 api_after_call.

End Scenario.

(** ** Reference notions the properties are stated against *)

Module Ref.

(** The sum of a list of numbers. *)
Fixpoint Qsum (l : list Q) : Q :=
  match l with
  | [] => 0
  | x :: xs => x + Qsum xs
  end.

(** The arithmetic mean of a list of numbers, [0] for the empty list. *)
Definition mean (l : list Q) : Q :=
  match l with
  | [] => 0
  | _ => Qsum l / inject_Z (Z.of_nat (length l))
  end.

(** The compression ratios that are defined, in log order. *)
Definition defined_ratios (s : Resource.state) : list Q :=
  omap Resource.compressionRatio (Resource.resources s).

(** The mean compression ratio as the specification words it: over
    exactly the records where the ratio is defined. *)
Definition mean_of_defined_ratios (s : Resource.state) : Q :=
  mean (defined_ratios s).

(** The per-key execution counter of the query monitor. *)
Definition exec_count (k : string) (s : Query.state) : nat :=
  match Query.exec_get k (Query.queryExecutions s) with
  | Some e => Query.count e
  | None => 0%nat
  end.

(** The sum over all keys of the per-key execution counter. *)
Definition executions (s : Query.state) : nat :=
  list_sum (map (fun kv => Query.count (snd kv)) (Query.queryExecutions s)).

(** A long-frame record with another platform-reported blocking
    duration. *)
Definition with_blockingDuration (b : Q) (f : LoAF.LongAnimationFrameEntry)
  : LoAF.LongAnimationFrameEntry :=
  {| LoAF.name := LoAF.name f;
     LoAF.entryType := LoAF.entryType f;
     LoAF.startTime := LoAF.startTime f;
     LoAF.duration := LoAF.duration f;
     LoAF.renderStart := LoAF.renderStart f;
     LoAF.styleAndLayoutStart := LoAF.styleAndLayoutStart f;
     LoAF.firstUIEventTimestamp := LoAF.firstUIEventTimestamp f;
     LoAF.blockingDuration := b;
     LoAF.scripts := LoAF.scripts f |}.

(** [out] is a top-[count] selection of [log] by [key]: a prefix of the
    log sorted by descending [key], records of equal [key] in log order;
    the whole sorted log when [count] is at least its length. *)
Definition top_k {A : Type} (key : A -> Q) (count : Z) (log out : list A)
  : Prop :=
  exists sorted : list A,
    Permutation sorted log /\
    StronglySorted (fun a b => key b <= key a) sorted /\
    (forall d : Q,
       List.filter (fun x => Qeq_bool (key x) d) sorted =
       List.filter (fun x => Qeq_bool (key x) d) log) /\
    out = firstn (if (count <? 0)%Z
                  then Z.to_nat (Z.of_nat (length log) + count)
                  else Z.to_nat count) sorted /\
    StronglySorted (fun a b => key b <= key a) out /\
    ((Z.of_nat (length log) <= count)%Z -> out = sorted) /\
    JS.sort (fun a b => key b - key a) out = out.

(** The query-cache statistics of an empty query log. *)
Definition empty_query_stats : Query.QueryCacheStats :=
  {| Query.totalQueries := 0;
     Query.activeQueries := 0;
     Query.staleQueries := 0;
     Query.erroredQueries := 0;
     Query.averageFetchDuration := 0;
     Query.cacheHitRate := 0;
     Query.slowestQueries := [];
     Query.mostFrequentQueries := [] |}.

(** The snapshot of a session that has observed nothing: empty logs, no
    hydration record, every count, total and rate at 0, and no
    query-cache section. *)
Definition empty_session (env : Session.Env) (id : string) (start : Q)
    (fw : Session.Framework) : Session.PerformanceSession :=
  {| Session.s_sessionId := id;
     Session.s_url := Session.href env;
     Session.s_timestamp := start;
     Session.s_userAgent := Session.env_userAgent env;
     Session.s_framework := fw;
     Session.webVitals := [];
     Session.navigation := Session.getNavigationMetric env;
     Session.hydration := None;
     Session.resources := [];
     Session.longFrames := [];
     Session.apiCalls := [];
     Session.queryCache := None;
     Session.summary :=
       {| Session.totalResources := 0;
          Session.blockingResources := 0;
          Session.totalTransferSize := 0;
          Session.averageCompressionRatio := 0;
          Session.apiCallCount := 0;
          Session.averageApiLatency := 0;
          Session.longFrameCount := 0;
          Session.totalBlockingTime := 0;
          Session.queryCount := None;
          Session.queryCacheHitRate := None;
          Session.averageQueryDuration := None |} |}.

(** The same snapshot with a query-cache section: the statistics [q] and
    the three summary figures taken from them. *)
Definition with_query_cache (q : Query.QueryCacheStats)
    (x : Session.PerformanceSession) : Session.PerformanceSession :=
  let sm := Session.summary x in
  {| Session.s_sessionId := Session.s_sessionId x;
     Session.s_url := Session.s_url x;
     Session.s_timestamp := Session.s_timestamp x;
     Session.s_userAgent := Session.s_userAgent x;
     Session.s_framework := Session.s_framework x;
     Session.webVitals := Session.webVitals x;
     Session.navigation := Session.navigation x;
     Session.hydration := Session.hydration x;
     Session.resources := Session.resources x;
     Session.longFrames := Session.longFrames x;
     Session.apiCalls := Session.apiCalls x;
     Session.queryCache := Some q;
     Session.summary :=
       {| Session.totalResources := Session.totalResources sm;
          Session.blockingResources := Session.blockingResources sm;
          Session.totalTransferSize := Session.totalTransferSize sm;
          Session.averageCompressionRatio :=
            Session.averageCompressionRatio sm;
          Session.apiCallCount := Session.apiCallCount sm;
          Session.averageApiLatency := Session.averageApiLatency sm;
          Session.longFrameCount := Session.longFrameCount sm;
          Session.totalBlockingTime := Session.totalBlockingTime sm;
          Session.queryCount := Some (Query.totalQueries q);
          Session.queryCacheHitRate := Some (Query.cacheHitRate q);
          Session.averageQueryDuration :=
            Some (Query.averageFetchDuration q) |} |}.

End Ref.

(** ** Well-formed stores and the bodies of the correlation passes *)

Module Pass.

(** Every reference of the API-call log points into the store. *)
Definition api_wf (s : API.state) : Prop :=
  forall r, In r (API.apiCalls s) -> (r < length (API.heap s))%nat.

(** Every reference of the query log points into the store. *)
Definition query_wf (s : Query.state) : Prop :=
  forall r, In r (Query.queryMetrics s) -> (r < length (Query.heap s))%nat.

(** The [forEach] body of [correlateWithLCP] when [lcpTime] is [t]. *)
Definition lcp_body (t : Q) (call : API.APICallMetric) : API.APICallMetric :=
  if negb (API.blockedLCP call)
  then API.set_blockedLCP
         (JS.ltb (API.startTime call) t
          && JS.ltb t (API.startTime call + API.duration call)) call
  else call.

(** The [forEach] body of [correlateWithINP] when the keys of [inpEvents]
    are [inp]. *)
Definition inp_body (inp : list Q) (call : API.APICallMetric)
  : API.APICallMetric :=
  if negb (API.blockedINP call)
  then API.set_blockedINP
         (existsb
            (fun inpTime =>
               JS.ltb (API.startTime call) inpTime
               && JS.ltb inpTime (API.startTime call + API.duration call))
            inp) call
  else call.

(** The paint instants a sequence of operations reports, oldest first. *)
Definition reported_lcp (ops : list API.op) : list Q :=
  omap (fun o => match o with API.SetLCPTime t => Some t | _ => None end) ops.

End Pass.

Module QueryPass.

(** The [forEach] body of the query monitor's [correlateWithLCP] when
    [lcpTime] is [t]. *)
Definition lcp_body (t : Q) (metric : Query.QueryCacheMetric)
  : Query.QueryCacheMetric :=
  match Query.fetchDuration metric with
  | Some d =>
      if JS.truthy d && JS.not_opt (Query.blockedLCP metric)
      then Query.set_blockedLCP
             (Some (JS.ltb (Query.dataUpdatedAt metric - d) t
                    && JS.ltb t (Query.dataUpdatedAt metric - d + d)))
             metric
      else metric
  | None => metric
  end.

(** The [forEach] body of the query monitor's [correlateWithINP] when the
    keys of [inpEvents] are [inp]. *)
Definition inp_body (inp : list Q) (metric : Query.QueryCacheMetric)
  : Query.QueryCacheMetric :=
  match Query.fetchDuration metric with
  | Some d =>
      if JS.truthy d && JS.not_opt (Query.blockedINP metric)
      then Query.set_blockedINP
             (Some (existsb
                      (fun inpTime =>
                         JS.ltb (Query.dataUpdatedAt metric - d) inpTime
                         && JS.ltb inpTime
                              (Query.dataUpdatedAt metric - d + d))
                      inp))
             metric
      else metric
  | None => metric
  end.

End QueryPass.

(** ** LoAFMonitor: the worst-scripts ranking *)

Module LoAFScripts.








(** [getFramesByScript(scriptUrl)] *)
Definition getFramesByScript (scriptUrl : string) (s : LoAF.state)
  : list LoAF.LongAnimationFrameEntry :=
  List.filter
    (fun frame =>
       existsb (fun script => JS.includes scriptUrl (LoAF.sourceURL script))
               (LoAF.scripts frame))
    (LoAF.frames s).


End LoAFScripts.

(** ** The registry of facade instances (index.ts) *)

Module Registry.

(** The key under which an instance is registered. *)
Definition key (fw : Session.Framework) : string :=
  match fw with
  | Session.react => "react"
  | Session.vue => "vue"
  | Session.other => "other"
  end.

(** [getPerformanceMonitor(framework)]: the instance registered for the
    framework, created on first use.  [id] and [now] are the session
    identifier and the clock reading the constructor would take. *)
Definition getPerformanceMonitor (id : string) (now : Q)
    (fw : Session.Framework)
    (instances : gmap string Session.PerformanceMonitor)
  : gmap string Session.PerformanceMonitor * Session.PerformanceMonitor :=
  match instances !! key fw with
  | Some p => (instances, p)
  | None =>
      let p := Session.constructor id now fw in
      (<[key fw := p]> instances, p)
  end.

End Registry.

(** ** MarkdownReporter *)

Module Reporter.

Record ReportOptions := {
  includeResources : option bool;
  includeLongFrames : option bool;
  includeApiCalls : option bool;
  includeQueryCache : option bool;
  maxResources : option Z;
  maxLongFrames : option Z;
  maxApiCalls : option Z;
  customTitle : option string;
}.

Definition defaultOptions : ReportOptions :=
  {| includeResources := Some true;
     includeLongFrames := Some true;
     includeApiCalls := Some true;
     includeQueryCache := Some true;
     maxResources := Some 20%Z;
     maxLongFrames := Some 10%Z;
     maxApiCalls := Some 20%Z;
     customTitle := None |}.

(** One property of [{ ...a, ...b }]: [b]'s when [b] has it. *)
Definition spread {A : Type} (a b : option A) : option A :=
  match b with
  | Some _ => b
  | None => a
  end.

(** [{ ...this.defaultOptions, ...options }]; [options] may be absent. *)
Definition merge (options : option ReportOptions) : ReportOptions :=
  match options with
  | None => defaultOptions
  | Some o =>
      {| includeResources :=
           spread (includeResources defaultOptions) (includeResources o);
         includeLongFrames :=
           spread (includeLongFrames defaultOptions) (includeLongFrames o);
         includeApiCalls :=
           spread (includeApiCalls defaultOptions) (includeApiCalls o);
         includeQueryCache :=
           spread (includeQueryCache defaultOptions) (includeQueryCache o);
         maxResources := spread (maxResources defaultOptions) (maxResources o);
         maxLongFrames :=
           spread (maxLongFrames defaultOptions) (maxLongFrames o);
         maxApiCalls := spread (maxApiCalls defaultOptions) (maxApiCalls o);
         customTitle := spread (customTitle defaultOptions) (customTitle o) |}
  end.

(** The section generators.  They format numbers with [toFixed] and dates
    with [toISOString], which belong to the platform; the assembly of the
    report is stated for any generators. *)
Record Generators := {
  generateHeader : Session.PerformanceSession -> option string -> string;
  generateSummary : Session.PerformanceSession -> string;
  generateWebVitals : list WebVitals.EnhancedWebVitalsMetric -> string;
  generateNavigationTiming : Session.NavigationMetric -> string;
  generateHydration : Session.HydrationMetric -> string;
  generateResources : list Resource.ResourceTimingEntry -> Z -> string;
  generateLongFrames : list LoAF.LongAnimationFrameEntry -> Z -> string;
  generateApiCalls : list API.APICallMetric -> Z -> string;
  generateQueryCache : Query.QueryCacheStats -> string;
  generateFooter : string;
}.

Definition is_true (b : option bool) : bool :=
  match b with Some true => true | _ => false end.

Definition non_empty {A : Type} (l : list A) : bool :=
  (0 <? length l)%nat.

(** [opts.maxResources!] and the like. *)
Definition the (z : option Z) : Z :=
  match z with Some v => v | None => 0%Z end.

(** [sections] at the end of [generateReport], in push order. *)
Definition sections (G : Generators) (session : Session.PerformanceSession)
    (options : option ReportOptions) : list string :=
  let opts := merge options in
  [generateHeader G session (customTitle opts)]
  ++ [generateSummary G session]
  ++ [generateWebVitals G (Session.webVitals session)]
  ++ match Session.navigation session with
     | Some nav => [generateNavigationTiming G nav]
     | None => []
     end
  ++ match Session.hydration session with
     | Some h => [generateHydration G h]
     | None => []
     end
  ++ (if is_true (includeResources opts)
         && non_empty (Session.resources session)
      then [generateResources G (Session.resources session)
              (the (maxResources opts))]
      else [])
  ++ (if is_true (includeLongFrames opts)
         && non_empty (Session.longFrames session)
      then [generateLongFrames G (Session.longFrames session)
              (the (maxLongFrames opts))]
      else [])
  ++ (if is_true (includeApiCalls opts)
         && non_empty (Session.apiCalls session)
      then [generateApiCalls G (Session.apiCalls session)
              (the (maxApiCalls opts))]
      else [])
  ++ match Session.queryCache session with
     | Some q =>
         if is_true (includeQueryCache opts)
         then [generateQueryCache G q] else []
     | None => []
     end
  ++ [generateFooter G].

(** Two line feeds. *)
Definition blank_line : string :=
  String (Ascii.ascii_of_nat 10) (String (Ascii.ascii_of_nat 10) EmptyString).

Definition generateReport (G : Generators)
    (session : Session.PerformanceSession) (options : option ReportOptions)
  : string :=
  String.concat blank_line (sections G session options).

(** [truncateUrl(url, maxLength)].  [parseUrl] stands for [new URL(url)]:
    the pathname and the search part, or nothing when the constructor
    throws.  Lengths count the characters of the string as stored. *)
Definition truncateUrl (parseUrl : string -> option (string * string))
    (url : string) (maxLength : Z) : string :=
  if (Z.of_nat (String.length url) <=? maxLength)%Z then url
  else
    match parseUrl url with
    | Some (pathname, search) =>
        let path := String.append pathname search in
        if (Z.of_nat (String.length path) <=? maxLength)%Z then path
        else String.append
               (String.substring 0 (Z.to_nat (maxLength - 3)) path) "..."
    | None =>
        String.append (String.substring 0 (Z.to_nat (maxLength - 3)) url) "..."
    end.

(** The [latest] map of [generateWebVitals]: a [Map] keyed by metric
    name, in insertion order. *)
Fixpoint latest_get (k : WebVitals.MetricName)
    (m : list (WebVitals.MetricName * WebVitals.EnhancedWebVitalsMetric))
  : option WebVitals.EnhancedWebVitalsMetric :=
  match m with
  | [] => None
  | (k', v) :: rest =>
      if WebVitals.MetricName_eqb k k' then Some v else latest_get k rest
  end.

Fixpoint latest_set (k : WebVitals.MetricName)
    (v : WebVitals.EnhancedWebVitalsMetric)
    (m : list (WebVitals.MetricName * WebVitals.EnhancedWebVitalsMetric))
  : list (WebVitals.MetricName * WebVitals.EnhancedWebVitalsMetric) :=
  match m with
  | [] => [(k, v)]
  | (k', v') :: rest =>
      if WebVitals.MetricName_eqb k k' then (k', v) :: rest
      else (k', v') :: latest_set k v rest
  end.

(** [metrics.forEach(m => latest.set(m.name, m))] *)
Definition latest (metrics : list WebVitals.EnhancedWebVitalsMetric)
  : list (WebVitals.MetricName * WebVitals.EnhancedWebVitalsMetric) :=
  fold_left (fun m x => latest_set (WebVitals.name x) x m) metrics [].

(** The options with every optional section switched on. *)
Definition include_all (options : option ReportOptions) : option ReportOptions :=
  let o := merge options in
  Some {| includeResources := Some true;
          includeLongFrames := Some true;
          includeApiCalls := Some true;
          includeQueryCache := Some true;
          maxResources := maxResources o;
          maxLongFrames := maxLongFrames o;
          maxApiCalls := maxApiCalls o;
          customTitle := customTitle o |}.

End Reporter.

(** ** Concrete inputs for the reporter *)

Module ReportScenario.

(** Generators that render each section as its title. *)
Definition titles : Reporter.Generators :=
  {| Reporter.generateHeader := fun _ _ => "# Performance Report";
     Reporter.generateSummary := fun _ => "## Summary";
     Reporter.generateWebVitals := fun _ => "## Core Web Vitals";
     Reporter.generateNavigationTiming := fun _ => "## Navigation Timing";
     Reporter.generateHydration := fun _ => "## Framework Hydration";
     Reporter.generateResources := fun _ _ => "## Resource Timing";
     Reporter.generateLongFrames := fun _ _ => "## Long Animation Frames";
     Reporter.generateApiCalls := fun _ _ => "## API Calls";
     Reporter.generateQueryCache := fun _ => "## TanStack Query Cache";
     Reporter.generateFooter := "---" |}.

(** The snapshot of a session that has observed nothing. *)
Definition empty_snapshot : Session.PerformanceSession :=
  Ref.empty_session Scenario.page "session_1" 1000 Session.react.

(** A URL parser that knows one URL. *)
Definition parse_example (url : string) : option (string * string) :=
  if String.eqb url "https://cdn.example.com/assets/app.js?v=1"
  then Some ("/assets/app.js", "?v=1")
  else None.

(** A paint metric of 250ms that arrived at wall-clock time 1700. *)
Definition lcp_metric : WebVitals.EnhancedWebVitalsMetric :=
  {| WebVitals.name := WebVitals.LCP;
     WebVitals.value := 250;
     WebVitals.rating := "good";
     WebVitals.delta := 250;
     WebVitals.id := "v3-1";
     WebVitals.navigationType := "navigate";
     WebVitals.timestamp := 1700;
     WebVitals.url := "https://app.example/";
     WebVitals.userAgent := "test-agent";
     WebVitals.attribution := None |}.

(** The first scenario call once an interaction at 250ms is known. *)
Definition call_100_after_interaction : API.APICallMetric :=
  {| API.url := "/api/items"; API.method := "GET";
     API.startTime := 100; API.duration := 400 - 100;
     API.ttfb := 400 - 100; API.status := 200; API.size := 0;
     API.blockedLCP := false; API.blockedINP := true |}.

End ReportScenario.

(** * Properties *)

(** ** Numbers *)

Lemma ltb_lt (a b : Q) : JS.ltb a b = true <-> a < b.
Proof.
  unfold JS.ltb. rewrite negb_true_iff.
  split.
  - intros H. apply Qnot_le_lt. intros Hle.
    apply Qle_bool_iff in Hle. congruence.
  - intros H. destruct (Qle_bool b a) eqn:E; [|reflexivity].
    apply Qle_bool_iff in E. lra.
Qed.

Lemma ltb_ge (a b : Q) : JS.ltb a b = false <-> b <= a.
Proof.
  unfold JS.ltb. rewrite negb_false_iff. apply Qle_bool_iff.
Qed.

Lemma in_map_set_key (k : Q) (keys : list Q) :
  exists k', In k' (JS.map_set_key k keys) /\ k' == k.
Proof.
  unfold JS.map_set_key. destruct (existsb (Qeq_bool k) keys) eqn:E.
  - apply existsb_exists in E as (k' & Hin & Heq).
    exists k'. split; [assumption|].
    apply Qeq_bool_iff in Heq. symmetry. assumption.
  - exists k. split; [|reflexivity].
    apply in_or_app. right. left. reflexivity.
Qed.

Lemma map_set_key_incl (k t : Q) (keys : list Q) :
  In t keys -> In t (JS.map_set_key k keys).
Proof.
  unfold JS.map_set_key. destruct (existsb _ _); [auto|].
  intros H. apply in_or_app. left. assumption.
Qed.

(** ** The object store *)

Section StoreFacts.
Context {A : Type} (f : A -> A).

Lemma for_each_length (refs : list nat) (heap : list A) :
  length (Store.for_each f refs heap) = length heap.
Proof.
  revert heap. induction refs as [|r refs IH]; intros heap; simpl.
  - reflexivity.
  - unfold Store.for_each in *. simpl. rewrite IH.
    apply length_alter.
Qed.

(** A property the loop body preserves survives the whole pass, at every
    cell of the store. *)
Lemma for_each_preserves (P : A -> Prop) :
  (forall x, P x -> P (f x)) ->
  forall (refs : list nat) (heap : list A) (r : nat) (x : A),
    heap !! r = Some x -> P x ->
    exists y, Store.for_each f refs heap !! r = Some y /\ P y.
Proof.
  intros Hf refs. induction refs as [|r0 refs IH]; intros heap r x Hx HP.
  - exists x. split; assumption.
  - unfold Store.for_each in *. simpl.
    destruct (decide (r0 = r)) as [->|Hne].
    + apply (IH _ r (f x)); [|auto].
      rewrite list_lookup_alter_eq, Hx. reflexivity.
    + apply (IH _ r x); [|assumption].
      rewrite list_lookup_alter_ne by assumption. assumption.
Qed.

(** A property the loop body establishes and preserves holds, after the
    pass, of every record the array references. *)
Lemma for_each_establishes (P : A -> Prop) :
  (forall x, P (f x)) ->
  forall (refs : list nat) (heap : list A) (r : nat) (x : A),
    In r refs -> heap !! r = Some x ->
    exists y, Store.for_each f refs heap !! r = Some y /\ P y.
Proof.
  intros Hf refs. induction refs as [|r0 refs IH]; intros heap r x Hin Hx.
  - destruct Hin.
  - destruct (decide (r0 = r)) as [->|Hne].
    + unfold Store.for_each. simpl.
      apply (for_each_preserves P (fun y _ => Hf y) refs _ r (f x)).
      * rewrite list_lookup_alter_eq, Hx. reflexivity.
      * apply Hf.
    + destruct Hin as [->|Hin]; [congruence|].
      unfold Store.for_each in *. simpl.
      apply (IH _ r x Hin).
      rewrite list_lookup_alter_ne by assumption. assumption.
Qed.
End StoreFacts.

Lemma deref_weaken {A : Type} (heap : list A) (refs : list nat) (x : A) :
  (forall r, In r refs -> r < length heap)%nat ->
  Store.deref (heap ++ [x]) refs = Store.deref heap refs.
Proof.
  intros Hb. unfold Store.deref.
  induction refs as [|r refs IH]; [reflexivity|].
  cbn [omap list_omap].
  rewrite lookup_app_l by (apply Hb; left; reflexivity).
  rewrite IH by (intros r' Hr'; apply Hb; right; assumption).
  reflexivity.
Qed.

Lemma deref_snoc {A : Type} (heap : list A) (refs : list nat) (x : A) :
  (forall r, In r refs -> r < length heap)%nat ->
  Store.deref (heap ++ [x]) (refs ++ [length heap]) =
  Store.deref heap refs ++ [x].
Proof.
  intros Hb. unfold Store.deref. rewrite omap_app.
  fold (Store.deref (heap ++ [x]) refs). rewrite deref_weaken by assumption.
  f_equal. cbn [omap list_omap].
  rewrite list_lookup_middle by reflexivity. reflexivity.
Qed.

(** ** APICorrelationMonitor: overlap checks *)

Lemma api_checkLCPBlocking_true (s : API.state) (start dur : Q) :
  API.checkLCPBlocking s start dur = true <->
  exists t, API.lcpTime s = Some t /\ start < t /\ t < start + dur.
Proof.
  unfold API.checkLCPBlocking. destruct (API.lcpTime s) as [lcp|].
  - rewrite andb_true_iff, !ltb_lt. split.
    + intros H. exists lcp. auto.
    + intros (t & [= ->] & H). exact H.
  - split; [discriminate|]. intros (t & [=] & _).
Qed.

Lemma api_checkINPBlocking_true (s : API.state) (start dur : Q) :
  API.checkINPBlocking s start dur = true <->
  exists t, In t (API.inpEvents s) /\ start < t /\ t < start + dur.
Proof.
  unfold API.checkINPBlocking. rewrite existsb_exists.
  split; intros (t & Hin & H); exists t; split; try assumption.
  - apply andb_true_iff in H. rewrite !ltb_lt in H. exact H.
  - apply andb_true_iff. rewrite !ltb_lt. exact H.
Qed.

Lemma api_evolves_refl (c : API.APICallMetric) : API.evolves c c.
Proof. unfold API.evolves. tauto. Qed.

Lemma api_evolves_trans (a b c : API.APICallMetric) :
  API.evolves a b -> API.evolves b c -> API.evolves a c.
Proof.
  unfold API.evolves. intros H1 H2.
  destruct H1 as (?&?&?&?&?&?&?&?&?), H2 as (?&?&?&?&?&?&?&?&?).
  repeat split; try congruence; auto.
Qed.

Lemma api_lcp_body_evolves (s : API.state) (c x : API.APICallMetric) :
  API.evolves c x ->
  API.evolves c
    (if negb (API.blockedLCP x)
     then API.set_blockedLCP
            (API.checkLCPBlocking s (API.startTime x) (API.duration x)) x
     else x).
Proof.
  intros H. destruct (API.blockedLCP x) eqn:E; simpl; [exact H|].
  eapply api_evolves_trans; [exact H|].
  unfold API.evolves. simpl. repeat split; try reflexivity; try tauto.
  congruence.
Qed.

Lemma api_inp_body_evolves (s : API.state) (c x : API.APICallMetric) :
  API.evolves c x ->
  API.evolves c
    (if negb (API.blockedINP x)
     then API.set_blockedINP
            (API.checkINPBlocking s (API.startTime x) (API.duration x)) x
     else x).
Proof.
  intros H. destruct (API.blockedINP x) eqn:E; simpl; [exact H|].
  eapply api_evolves_trans; [exact H|].
  unfold API.evolves. simpl. repeat split; try reflexivity; try tauto.
  congruence.
Qed.

Lemma api_recordAPICall_evolves (d : API.CallData) (s : API.state) r c :
  API.heap s !! r = Some c ->
  exists c', API.heap (API.recordAPICall d s) !! r = Some c'
             /\ API.evolves c c'.
Proof.
  intros H. exists c. split; [|apply api_evolves_refl].
  simpl. rewrite lookup_app_l; [assumption|].
  eapply lookup_lt_Some; eassumption.
Qed.

(** Whatever the operation, every record object ever allocated is still
    there afterwards, unchanged but for flags that went from false to
    true. *)
Lemma api_step_evolves (s : API.state) (o : API.op) (r : nat)
    (c : API.APICallMetric) :
  API.heap s !! r = Some c ->
  exists c', API.heap (API.step s o) !! r = Some c' /\ API.evolves c c'.
Proof.
  intros H. destruct o; simpl.
  - unfold API.initialize. destruct (API.initialized s); simpl;
      (exists c; split; [assumption|apply api_evolves_refl]).
  - unfold API.setLCPTime, API.correlateWithLCP. simpl.
    eapply (for_each_preserves _ (API.evolves c)); [|eassumption|].
    + intros x. apply api_lcp_body_evolves.
    + apply api_evolves_refl.
  - unfold API.recordINPEvent, API.correlateWithINP. simpl.
    eapply (for_each_preserves _ (API.evolves c)); [|eassumption|].
    + intros x. apply api_inp_body_evolves.
    + apply api_evolves_refl.
  - exists c. split; [assumption|apply api_evolves_refl].
  - exists c. split; [assumption|apply api_evolves_refl].
  - unfold API.fetch_then. simpl. rewrite lookup_app_l.
    + exists c. split; [assumption|apply api_evolves_refl].
    + eapply lookup_lt_Some; eassumption.
  - unfold API.fetch_catch. simpl. rewrite lookup_app_l.
    + exists c. split; [assumption|apply api_evolves_refl].
    + eapply lookup_lt_Some; eassumption.
  - unfold API.xhr_loadend. apply api_recordAPICall_evolves. assumption.
Qed.

Lemma api_run_evolves (ops : list API.op) (s : API.state) (r : nat)
    (c : API.APICallMetric) :
  API.heap s !! r = Some c ->
  exists c', API.heap (API.run ops s) !! r = Some c' /\ API.evolves c c'.
Proof.
  revert s c. induction ops as [|o ops IH]; intros s c H.
  - exists c. split; [assumption|apply api_evolves_refl].
  - unfold API.run in *. simpl.
    destruct (api_step_evolves s o r c H) as (c1 & H1 & E1).
    destruct (IH _ _ H1) as (c2 & H2 & E2).
    exists c2. split; [assumption|].
    eapply api_evolves_trans; eassumption.
Qed.

(** ** APICorrelationMonitor: every stored call is correlated *)

Lemma api_overlaps_evolves (c c' : API.APICallMetric) (t : Q) :
  API.evolves c c' -> API.overlaps c' t -> API.overlaps c t.
Proof.
  unfold API.evolves, API.overlaps.
  intros (_ & _ & -> & -> & _) H. exact H.
Qed.

Lemma api_correlated_init : API.correlated API.init.
Proof. intros r []. Qed.

Lemma api_correlated_recordAPICall (d : API.CallData) (s : API.state) :
  API.correlated s -> API.correlated (API.recordAPICall d s).
Proof.
  intros Hc r Hin. simpl in Hin. apply in_app_or in Hin as [Hin|Hin].
  - destruct (Hc r Hin) as (c & Hl & Hlcp & Hinp).
    exists c. split; [|split; assumption].
    simpl. rewrite lookup_app_l; [assumption|].
    eapply lookup_lt_Some; eassumption.
  - destruct Hin as [<-|[]].
    exists (API.mk_metric s d). split; [|split].
    + simpl. rewrite list_lookup_middle; reflexivity.
    + simpl. intros t Ht (H1 & H2).
      apply api_checkLCPBlocking_true. exists t. auto.
    + simpl. intros t Ht (H1 & H2).
      apply api_checkINPBlocking_true. exists t. auto.
Qed.

Lemma api_correlated_with_pending p (s : API.state) :
  API.correlated s -> API.correlated (API.with_pending p s).
Proof. intros H. exact H. Qed.

Lemma api_correlated_setLCPTime (t : Q) (s : API.state) :
  API.correlated s -> API.correlated (API.setLCPTime t s).
Proof.
  intros Hc r Hin.
  assert (Hin' : In r (API.apiCalls s)) by exact Hin.
  destruct (Hc r Hin') as (c & Hl & _ & Hinp).
  destruct (api_step_evolves s (API.SetLCPTime t) r c Hl) as (c' & Hl' & He).
  exists c'. split; [exact Hl'|]. split.
  - intros t' Ht' Hov.
    assert (t' = t) as -> by (simpl in Ht'; congruence).
    simpl in Hl'. unfold API.setLCPTime, API.correlateWithLCP in Hl'.
    simpl in Hl'.
    edestruct (for_each_establishes
                 (fun call =>
                    if negb (API.blockedLCP call)
                    then API.set_blockedLCP
                           (API.checkLCPBlocking
                              {| API.heap := API.heap s;
                                 API.apiCalls := API.apiCalls s;
                                 API.pendingRequests := API.pendingRequests s;
                                 API.initialized := API.initialized s;
                                 API.lcpTime := Some t;
                                 API.inpEvents := API.inpEvents s |}
                              (API.startTime call) (API.duration call))
                           call
                    else call)
                 (fun y => API.overlaps y t -> API.blockedLCP y = true))
      as (y & Hy & Py); [| exact Hin' | exact Hl |].
    + intros x. destruct (API.blockedLCP x) eqn:E; simpl; [auto|].
      intros (H1 & H2). simpl in H1, H2.
      apply api_checkLCPBlocking_true. exists t. auto.
    + rewrite Hy in Hl'. injection Hl' as ->. auto.
  - intros t' Ht' Hov. apply He. apply (Hinp t').
    + exact Ht'.
    + eapply api_overlaps_evolves; eassumption.
Qed.

Lemma api_correlated_recordINPEvent (t : Q) (s : API.state) :
  API.correlated s -> API.correlated (API.recordINPEvent t s).
Proof.
  intros Hc r Hin.
  assert (Hin' : In r (API.apiCalls s)) by exact Hin.
  destruct (Hc r Hin') as (c & Hl & Hlcp & _).
  destruct (api_step_evolves s (API.RecordINPEvent t) r c Hl)
    as (c' & Hl' & He).
  exists c'. split; [exact Hl'|]. split.
  - intros t' Ht' Hov. apply He. apply (Hlcp t').
    + exact Ht'.
    + eapply api_overlaps_evolves; eassumption.
  - intros t' Ht' Hov.
    simpl in Hl'. unfold API.recordINPEvent, API.correlateWithINP in Hl'.
    simpl in Hl'.
    set (s1 := {| API.heap := API.heap s;
                  API.apiCalls := API.apiCalls s;
                  API.pendingRequests := API.pendingRequests s;
                  API.initialized := API.initialized s;
                  API.lcpTime := API.lcpTime s;
                  API.inpEvents := JS.map_set_key t (API.inpEvents s) |})
      in *.
    edestruct (for_each_establishes
                 (fun call =>
                    if negb (API.blockedINP call)
                    then API.set_blockedINP
                           (API.checkINPBlocking s1
                              (API.startTime call) (API.duration call))
                           call
                    else call)
                 (fun y => forall u, In u (API.inpEvents s1) ->
                                     API.overlaps y u ->
                                     API.blockedINP y = true))
      as (y & Hy & Py); [| exact Hin' | exact Hl |].
    + intros x. destruct (API.blockedINP x) eqn:E; simpl; [auto|].
      intros u Hu (H1 & H2). simpl in H1, H2.
      apply api_checkINPBlocking_true. exists u. auto.
    + rewrite Hy in Hl'. injection Hl' as ->. apply (Py t'); assumption.
Qed.

Lemma api_correlated_step (s : API.state) (o : API.op) :
  API.correlated s -> API.correlated (API.step s o).
Proof.
  intros Hc. destruct o; simpl.
  - unfold API.initialize. destruct (API.initialized s); exact Hc.
  - apply api_correlated_setLCPTime, Hc.
  - apply api_correlated_recordINPEvent, Hc.
  - intros r [].
  - exact Hc.
  - apply api_correlated_with_pending, api_correlated_recordAPICall, Hc.
  - apply api_correlated_with_pending, api_correlated_recordAPICall, Hc.
  - apply api_correlated_recordAPICall, Hc.
Qed.

Lemma api_correlated_run (ops : list API.op) (s : API.state) :
  API.correlated s -> API.correlated (API.run ops s).
Proof.
  revert s. induction ops as [|o ops IH]; intros s Hc; [exact Hc|].
  apply IH, api_correlated_step, Hc.
Qed.

(** Interaction instants are never forgotten: whatever was reported is
    (up to numeric equality) a key of [inpEvents] from then on. *)
Lemma api_inp_kept_step (s : API.state) (o : API.op) (t : Q) :
  In t (API.inpEvents s) -> In t (API.inpEvents (API.step s o)).
Proof.
  intros H. destruct o; simpl; try exact H.
  - unfold API.initialize. destruct (API.initialized s); exact H.
  - apply map_set_key_incl, H.
Qed.

Lemma api_inp_kept_run (ops : list API.op) (s : API.state) (t : Q) :
  In t (API.inpEvents s) -> In t (API.inpEvents (API.run ops s)).
Proof.
  revert s. induction ops as [|o ops IH]; intros s H; [exact H|].
  apply IH, api_inp_kept_step, H.
Qed.

Lemma api_inp_reported (ops : list API.op) (s : API.state) (t : Q) :
  In (API.RecordINPEvent t) ops ->
  exists t', In t' (API.inpEvents (API.run ops s)) /\ t' == t.
Proof.
  revert s. induction ops as [|o ops IH]; intros s Hin; [destruct Hin|].
  destruct Hin as [->|Hin].
  - destruct (in_map_set_key t (API.inpEvents s)) as (t' & Hin & Heq).
    exists t'. split; [|exact Heq].
    unfold API.run. simpl. apply api_inp_kept_run. exact Hin.
  - unfold API.run. simpl. apply IH, Hin.
Qed.

Lemma api_overlaps_Qeq (c : API.APICallMetric) (t t' : Q) :
  t' == t -> API.overlaps c t -> API.overlaps c t'.
Proof. unfold API.overlaps. intros E (H1 & H2). rewrite E. auto. Qed.

(** The eventual-correctness guarantee, for the API-call log: after any
    interleaving of calls and instants from a fresh monitor, every stored
    call whose open interval contains the stored paint instant, or any
    interaction instant that was ever reported, carries the flag. *)
Lemma api_eventually_correlated (ops : list API.op) (r : nat) :
  let s := API.run ops API.init in
  In r (API.apiCalls s) ->
  exists c, API.heap s !! r = Some c /\
    (forall t, API.lcpTime s = Some t -> API.overlaps c t ->
               API.blockedLCP c = true) /\
    (forall t, In (API.RecordINPEvent t) ops -> API.overlaps c t ->
               API.blockedINP c = true).
Proof.
  intros s Hin.
  destruct (api_correlated_run ops API.init api_correlated_init r Hin)
    as (c & Hl & Hlcp & Hinp).
  exists c. split; [exact Hl|]. split; [exact Hlcp|].
  intros t Ht Hov.
  destruct (api_inp_reported ops API.init t Ht) as (t' & Hin' & Heq).
  apply (Hinp t' Hin'). eapply api_overlaps_Qeq; eassumption.
Qed.

(** ** TanStackQueryMonitor: record objects only gain flags *)

Lemma query_evolves_refl (m : Query.QueryCacheMetric) : Query.evolves m m.
Proof. unfold Query.evolves. tauto. Qed.

Lemma query_evolves_trans (a b c : Query.QueryCacheMetric) :
  Query.evolves a b -> Query.evolves b c -> Query.evolves a c.
Proof.
  unfold Query.evolves. intros H1 H2.
  destruct H1 as (?&?&?&?&?&?&?&?&?&?), H2 as (?&?&?&?&?&?&?&?&?&?).
  repeat split; try congruence; auto.
Qed.

Lemma query_lcp_body_evolves (s : Query.state)
    (m x : Query.QueryCacheMetric) :
  Query.evolves m x -> Query.evolves m (Query.correlate_lcp_one s x).
Proof.
  intros H. unfold Query.correlate_lcp_one.
  destruct (Query.fetchDuration x) as [d|]; [|exact H].
  destruct (JS.truthy d); simpl; [|exact H].
  destruct (Query.blockedLCP x) as [[|]|] eqn:E; simpl; try exact H;
    (eapply query_evolves_trans; [exact H|]);
    unfold Query.evolves; simpl; repeat split; try reflexivity;
    try tauto; congruence.
Qed.

Lemma query_inp_body_evolves (s : Query.state)
    (m x : Query.QueryCacheMetric) :
  Query.evolves m x -> Query.evolves m (Query.correlate_inp_one s x).
Proof.
  intros H. unfold Query.correlate_inp_one.
  destruct (Query.fetchDuration x) as [d|]; [|exact H].
  destruct (JS.truthy d); simpl; [|exact H].
  destruct (Query.blockedINP x) as [[|]|] eqn:E; simpl; try exact H;
    (eapply query_evolves_trans; [exact H|]);
    unfold Query.evolves; simpl; repeat split; try reflexivity;
    try tauto; congruence.
Qed.

Lemma query_step_evolves (s : Query.state) (o : Query.op) (r : nat)
    (m : Query.QueryCacheMetric) :
  Query.heap s !! r = Some m ->
  exists m', Query.heap (Query.step s o) !! r = Some m'
             /\ Query.evolves m m'.
Proof.
  intros H.
  assert (Hlt : (r < length (Query.heap s))%nat)
    by (eapply lookup_lt_Some; eassumption).
  destruct o; simpl.
  - unfold Query.initialize. destruct (Query.initialized s); simpl.
    + exists m. split; [assumption|apply query_evolves_refl].
    + rewrite lookup_app_l by assumption.
      exists m. split; [assumption|apply query_evolves_refl].
  - exists m. split; [assumption|apply query_evolves_refl].
  - unfold Query.setLCPTime, Query.correlateWithLCP. simpl.
    eapply (for_each_preserves _ (Query.evolves m)); [|eassumption|].
    + intros x. apply query_lcp_body_evolves.
    + apply query_evolves_refl.
  - unfold Query.recordINPEvent, Query.correlateWithINP. simpl.
    eapply (for_each_preserves _ (Query.evolves m)); [|eassumption|].
    + intros x. apply query_inp_body_evolves.
    + apply query_evolves_refl.
  - exists m. split; [assumption|apply query_evolves_refl].
  - unfold Query.handleQueryEvent.
    destruct (negb _); [exists m; split;
                        [assumption|apply query_evolves_refl]|].
    destruct (Query.e_query event) as [q|]; simpl.
    + rewrite lookup_app_l by assumption.
      exists m. split; [assumption|apply query_evolves_refl].
    + exists m. split; [assumption|apply query_evolves_refl].
Qed.

Lemma query_run_evolves (ops : list Query.op) (s : Query.state) (r : nat)
    (m : Query.QueryCacheMetric) :
  Query.heap s !! r = Some m ->
  exists m', Query.heap (Query.run ops s) !! r = Some m'
             /\ Query.evolves m m'.
Proof.
  revert s m. induction ops as [|o ops IH]; intros s m H.
  - exists m. split; [assumption|apply query_evolves_refl].
  - unfold Query.run in *. simpl.
    destruct (query_step_evolves s o r m H) as (m1 & H1 & E1).
    destruct (IH _ _ H1) as (m2 & H2 & E2).
    exists m2. split; [assumption|].
    eapply query_evolves_trans; eassumption.
Qed.

(** ** C2: blocking flags are monotone *)

(** C2.  For every sequence of operations on the API-call monitor and on
    the query monitor, started in any state, every record object keeps its
    place in the store, and a blocked-largest-paint or blocked-interaction
    flag that is true before the sequence is true after it: no operation
    resets a flag. *)
Theorem blocking_flags_never_reset
    (aops : list API.op) (sa : API.state) (ra : nat) (c : API.APICallMetric)
    (qops : list Query.op) (sq : Query.state) (rq : nat)
    (m : Query.QueryCacheMetric)
    (Ha : API.heap sa !! ra = Some c)
    (Hq : Query.heap sq !! rq = Some m) :
  (exists c', API.heap (API.run aops sa) !! ra = Some c' /\
     (API.blockedLCP c = true -> API.blockedLCP c' = true) /\
     (API.blockedINP c = true -> API.blockedINP c' = true)) /\
  (exists m', Query.heap (Query.run qops sq) !! rq = Some m' /\
     (Query.blockedLCP m = Some true -> Query.blockedLCP m' = Some true) /\
     (Query.blockedINP m = Some true -> Query.blockedINP m' = Some true)).
Proof.
  split.
  - destruct (api_run_evolves aops sa ra c Ha) as (c' & Hl & He).
    exists c'. split; [exact Hl|].
    destruct He as (_&_&_&_&_&_&_&H1&H2). split; assumption.
  - destruct (query_run_evolves qops sq rq m Hq) as (m' & Hl & He).
    exists m'. split; [exact Hl|].
    destruct He as (_&_&_&_&_&_&_&_&H1&H2). split; assumption.
Qed.

Lemma blocking_flags_never_reset_witness :
  API.heap Scenario.api_after_paint !! 0%nat = Some Scenario.stored_call_100
  /\ Query.heap Scenario.query_with_flagged !! 0%nat
     = Some Scenario.flagged_query
  /\ (exists c',
        API.heap
          (API.run [API.Clear;
                    API.XhrLoadEnd Scenario.call_500 None 550 200 0;
                    API.SetLCPTime 1000; API.RecordINPEvent 5]
                   Scenario.api_after_paint) !! 0%nat = Some c' /\
        (API.blockedLCP Scenario.stored_call_100 = true ->
         API.blockedLCP c' = true) /\
        (API.blockedINP Scenario.stored_call_100 = true ->
         API.blockedINP c' = true))
  /\ (exists m',
        Query.heap
          (Query.run [Query.SetLCPTime 9000; Query.RecordINPEvent 1;
                      Query.HandleQueryEvent 1300 1300 Scenario.refetch_event;
                      Query.Clear]
                     Scenario.query_with_flagged) !! 0%nat = Some m' /\
        (Query.blockedLCP Scenario.flagged_query = Some true ->
         Query.blockedLCP m' = Some true) /\
        (Query.blockedINP Scenario.flagged_query = Some true ->
         Query.blockedINP m' = Some true)).
Proof.
  split; [reflexivity|]. split; [reflexivity|].
  apply (blocking_flags_never_reset
           [API.Clear; API.XhrLoadEnd Scenario.call_500 None 550 200 0;
            API.SetLCPTime 1000; API.RecordINPEvent 5]
           Scenario.api_after_paint 0%nat Scenario.stored_call_100
           [Query.SetLCPTime 9000; Query.RecordINPEvent 1;
            Query.HandleQueryEvent 1300 1300 Scenario.refetch_event;
            Query.Clear]
           Scenario.query_with_flagged 0%nat Scenario.flagged_query);
    reflexivity.
Defined.

(** ** C1: eventual correlation *)

(** C1.  The query monitor does not reach the verdict the claim promises.
    With the paint instant 250ms (respectively the interaction instant
    250ms) already known, a cache notification creates a record whose
    stored interval, [(dataUpdatedAt - fetchDuration, dataUpdatedAt)] =
    (100ms, 400ms), strictly contains the instant; the record is evaluated
    at creation on the fetch window (1000ms, 1300ms) instead and its flag
    stays false although every instant has been reported.  Reporting the
    same instant once more raises the flag: the verdict depends on the
    order of arrival. *)
Theorem query_record_left_unflagged :
  (Query.lcpTime Scenario.query_paint_then_event = Some 250 /\
   exists m,
     Query.metrics Scenario.query_paint_then_event = [m] /\
     Query.overlaps m 250 /\
     Query.blockedLCP m = Some false /\
     map Query.blockedLCP
       (Query.metrics (Query.setLCPTime 250 Scenario.query_paint_then_event))
     = [Some true]) /\
  (Query.inpEvents Scenario.query_interaction_then_event = [250] /\
   exists m,
     Query.metrics Scenario.query_interaction_then_event = [m] /\
     Query.overlaps m 250 /\
     Query.blockedINP m = Some false /\
     map Query.blockedINP
       (Query.metrics
          (Query.recordINPEvent 250 Scenario.query_interaction_then_event))
     = [Some true]).
Proof.
  split; (split; [reflexivity|]); eexists;
    (split; [reflexivity|]); (split; [split; reflexivity|]);
    split; reflexivity.
Qed.

(** The same defect seen from the fetch window: a refetch that ran from
    100ms to 400ms is recorded before the paint instant 250ms arrives; the
    later pass evaluates the record on (-250ms, 50ms) and never flags
    it. *)
Lemma query_fetch_window_missed :
  exists m,
    Query.metrics Scenario.query_event_then_paint = [m] /\
    Query.fetchDuration m = Some (400 - 100) /\
    Query.lcpTime Scenario.query_event_then_paint = Some 250 /\
    Query.blockedLCP m = Some false.
Proof. eexists. repeat split; reflexivity. Qed.

(** ** C3: the paint-instant verdict *)

Lemma api_setLCPTime_heap (t : Q) (s : API.state) :
  API.heap (API.setLCPTime t s) =
  Store.for_each
    (fun call =>
       if negb (API.blockedLCP call)
       then API.set_blockedLCP
              (JS.ltb (API.startTime call) t
               && JS.ltb t (API.startTime call + API.duration call)) call
       else call)
    (API.apiCalls s) (API.heap s).
Proof. reflexivity. Qed.

(** C3.  Recording the paint instant [t] marks a stored call that was not
    yet blocking exactly when [startTime < t] and [t < startTime +
    duration].  In the scenario, the call from 100ms lasting 300ms is not
    blocking before the instant 250ms is recorded and is blocking after;
    the call from 500ms lasting 50ms is not blocking for that instant,
    whether it completes before or after the instant is recorded. *)
Theorem paint_instant_marks_overlapping_calls
    (s : API.state) (t : Q) (r : nat) (c : API.APICallMetric)
    (Hin : In r (API.apiCalls s))
    (Hl : API.heap s !! r = Some c)
    (Hf : API.blockedLCP c = false) :
  (exists c', API.heap (API.setLCPTime t s) !! r = Some c' /\
     API.startTime c' = API.startTime c /\
     API.duration c' = API.duration c /\
     (API.blockedLCP c' = true <->
      API.startTime c < t /\ t < API.startTime c + API.duration c)) /\
  (forall startTime duration : Q,
     API.checkLCPBlocking (API.setLCPTime t s) startTime duration = true <->
     startTime < t /\ t < startTime + duration) /\
  map API.blockedLCP (API.getAPICalls Scenario.api_after_call) = [false] /\
  map API.blockedLCP (API.getAPICalls Scenario.api_after_paint) = [true] /\
  map API.blockedLCP
    (API.getAPICalls
       (API.xhr_loadend Scenario.call_500 None 550 200 0
          Scenario.api_after_paint)) = [true; false] /\
  map API.blockedLCP
    (API.getAPICalls
       (API.setLCPTime 250
          (API.xhr_loadend Scenario.call_500 None 550 200 0
             Scenario.api_after_call))) = [true; false].
Proof.
  split; [|split; [|repeat split; reflexivity]].
  2: { intros startTime duration.
       rewrite api_checkLCPBlocking_true. split.
       - intros (t' & [= <-] & H). exact H.
       - intros H. exists t. split; [reflexivity|exact H]. }
  set (P := fun y : API.APICallMetric =>
              API.evolves c y /\
              (API.blockedLCP y = true ->
               API.startTime c < t /\
               t < API.startTime c + API.duration c)).
  set (R := fun y : API.APICallMetric =>
              API.startTime y < t /\
              t < API.startTime y + API.duration y ->
              API.blockedLCP y = true).
  rewrite api_setLCPTime_heap.
  match goal with
  | |- context [Store.for_each ?f _ _] => set (body := f)
  end.
  assert (HP : forall x, P x -> P (body x)).
  { intros x [He Hx]. unfold body.
    destruct (API.blockedLCP x) eqn:E; simpl.
    { split; [exact He|]. intros _. apply Hx. reflexivity. }
    split.
    - eapply api_evolves_trans; [exact He|].
      unfold API.evolves. simpl. repeat split; try reflexivity; try tauto.
      congruence.
    - simpl. rewrite andb_true_iff, !ltb_lt.
      destruct He as (_ & _ & -> & -> & _). tauto. }
  assert (HR : forall x, R (body x)).
  { intros x. unfold R, body.
    destruct (API.blockedLCP x) eqn:E; simpl; [auto|].
    intros H. rewrite andb_true_iff, !ltb_lt. exact H. }
  destruct (for_each_preserves body P HP (API.apiCalls s) (API.heap s) r c Hl)
    as (y & Hy & He & Hy1).
  { split; [apply api_evolves_refl|]. congruence. }
  destruct (for_each_establishes body R HR (API.apiCalls s) (API.heap s) r c
              Hin Hl) as (y' & Hy' & Hy2).
  assert (y' = y) as -> by congruence.
  exists y. split; [exact Hy|].
  destruct He as (_ & _ & Es & Ed & _).
  split; [exact Es|]. split; [exact Ed|].
  split; [exact Hy1|].
  intros H. apply Hy2. rewrite Es, Ed. exact H.
Qed.

Lemma paint_instant_marks_overlapping_calls_witness :
  In 0%nat (API.apiCalls Scenario.api_after_call) /\
  API.blockedLCP (API.set_blockedLCP false Scenario.stored_call_100) = false /\
  exists c',
    API.heap (API.setLCPTime 250 Scenario.api_after_call) !! 0%nat = Some c' /\
    (API.blockedLCP c' = true <->
     API.startTime Scenario.stored_call_100 < 250 /\
     250 < API.startTime Scenario.stored_call_100
           + API.duration Scenario.stored_call_100).
Proof.
  split; [left; reflexivity|]. split; [reflexivity|].
  destruct (paint_instant_marks_overlapping_calls
              Scenario.api_after_call 250 0%nat
              (API.set_blockedLCP false Scenario.stored_call_100)
              (or_introl eq_refl) eq_refl eq_refl)
    as ((c' & Hl & _ & _ & Hiff) & _).
  exists c'. split; [exact Hl|exact Hiff].
Defined.

(** ** C10: what [clear()] keeps *)

(** C10.  [clear()] on the API-call monitor empties the log and the
    pending-request map and keeps the paint instant and the interaction
    instants; a call recorded next is the only record of the log and its
    flags are the verdicts against the instants known before the
    [clear()].  The query monitor's [clear()] behaves alike. *)
Theorem clear_keeps_instants :
  (forall (s : API.state),
     API.apiCalls (API.clear s) = [] /\
     API.pendingRequests (API.clear s) = ∅ /\
     API.lcpTime (API.clear s) = API.lcpTime s /\
     API.inpEvents (API.clear s) = API.inpEvents s /\
     forall d : API.CallData,
     exists c,
       API.getAPICalls (API.recordAPICall d (API.clear s)) = [c] /\
       API.startTime c = API.c_startTime d /\
       API.duration c = API.c_duration d /\
       (API.blockedLCP c = true <->
        exists t, API.lcpTime s = Some t /\
                  API.c_startTime d < t /\
                  t < API.c_startTime d + API.c_duration d) /\
       (API.blockedINP c = true <->
        exists t, In t (API.inpEvents s) /\
                  API.c_startTime d < t /\
                  t < API.c_startTime d + API.c_duration d)) /\
  (forall (s : Query.state),
     Query.queryMetrics (Query.clear s) = [] /\
     Query.queryExecutions (Query.clear s) = [] /\
     Query.lcpTime (Query.clear s) = Query.lcpTime s /\
     Query.inpEvents (Query.clear s) = Query.inpEvents s /\
     forall (now1 now2 : Q) (q : Query.RawQuery),
     exists m,
       Query.getQueryMetrics
         (Query.handleQueryEvent now1 now2
            {| Query.e_type := "updated"; Query.e_query := Some q |}
            (Query.clear s)) = [m] /\
       Query.blockedLCP m =
         Some (Query.checkLCPBlocking s
                 (Query.event_startTime now1 q)
                 (JS.or_default (Query.event_fetchDuration now1 now2 q) 0)) /\
       Query.blockedINP m =
         Some (Query.checkINPBlocking s
                 (Query.event_startTime now1 q)
                 (JS.or_default (Query.event_fetchDuration now1 now2 q) 0))).
Proof.
  split.
  - intros s. repeat split; try reflexivity.
    intros d. exists (API.mk_metric (API.clear s) d).
    split; [|split; [reflexivity|split; [reflexivity|split]]].
    + unfold API.getAPICalls, API.calls, Store.deref. simpl.
      rewrite list_lookup_middle by reflexivity. reflexivity.
    + apply (api_checkLCPBlocking_true (API.clear s)).
    + apply (api_checkINPBlocking_true (API.clear s)).
  - intros s. repeat split; try reflexivity.
    intros now1 now2 q.
    exists (Query.mk_metric now1 now2 (Query.clear s) q).
    split; [|split; reflexivity].
    unfold Query.getQueryMetrics, Query.metrics, Store.deref. simpl.
    rewrite list_lookup_middle by reflexivity. reflexivity.
Qed.

(** ** Sums and means *)

Lemma fold_left_Qplus_acc {A : Type} (f : A -> Q) (l : list A) (acc : Q) :
  fold_left (fun sum x => sum + f x) l acc == acc + Ref.Qsum (map f l).
Proof.
  revert acc. induction l as [|x l IH]; intros acc; simpl.
  - lra.
  - rewrite IH. lra.
Qed.

Lemma sum_by_Qsum {A : Type} (f : A -> Q) (l : list A) :
  JS.sum_by f l == Ref.Qsum (map f l).
Proof. unfold JS.sum_by. rewrite fold_left_Qplus_acc. lra. Qed.

Lemma fold_left_count_acc (l : list (string * Query.ExecStat)) (acc : nat) :
  fold_left (fun sum kv => (sum + Query.count (snd kv))%nat) l acc =
  (acc + list_sum (map (fun kv => Query.count (snd kv)) l))%nat.
Proof.
  revert acc. induction l as [|x l IH]; intros acc; simpl.
  - lia.
  - rewrite IH. lia.
Qed.

(** ** C6: total blocking time *)

(** C6.  [getTotalBlockingTime] is the sum over the stored frames of
    [max(0, duration - 50)]; replacing the stored platform-reported
    blocking durations by anything else does not change it; one frame of
    120ms without a platform-supplied blocking duration contributes 70ms,
    on the long-animation-frame path and on the long-task path. *)
Theorem total_blocking_time_from_durations :
  (forall s : LoAF.state,
     LoAF.getTotalBlockingTime s ==
     Ref.Qsum (map (fun f => Qmax 0 (LoAF.duration f - 50)) (LoAF.frames s))) /\
  (forall (s : LoAF.state) (g : LoAF.LongAnimationFrameEntry -> Q),
     LoAF.getTotalBlockingTime
       {| LoAF.frames :=
            map (fun f => Ref.with_blockingDuration (g f) f) (LoAF.frames s);
          LoAF.initialized := LoAF.initialized s |}
     = LoAF.getTotalBlockingTime s) /\
  map LoAF.blockingDuration
    (LoAF.getFrames (LoAF.handleLoAFEntry Scenario.frame_120 LoAF.init))
  = [0] /\
  LoAF.getTotalBlockingTime
    (LoAF.handleLoAFEntry Scenario.frame_120 LoAF.init) = 70 /\
  LoAF.getTotalBlockingTime
    (LoAF.handleLongTaskEntry
       {| LoAF.t_name := "self"; LoAF.t_startTime := 1000;
          LoAF.t_duration := 120 |} LoAF.init) = 70.
Proof.
  split; [|split; [|repeat split; reflexivity]].
  - intros s. unfold LoAF.getTotalBlockingTime, JS.max0.
    rewrite (fold_left_Qplus_acc
               (fun f => Qmax 0 (LoAF.duration f - 50)) (LoAF.frames s) 0).
    lra.
  - intros s g. unfold LoAF.getTotalBlockingTime. simpl.
    generalize 0. induction (LoAF.frames s) as [|f fs IH]; intros acc.
    + reflexivity.
    + simpl. apply IH.
Qed.

(** ** C5: cache-hit rate *)

Lemma exec_get_set (k k' : string) (v : Query.ExecStat)
    (m : list (string * Query.ExecStat)) :
  Query.exec_get k' (Query.exec_set k v m) =
  if String.eqb k' k then Some v else Query.exec_get k' m.
Proof.
  induction m as [|[k0 v0] m IH]; simpl.
  - destruct (String.eqb k' k); reflexivity.
  - destruct (String.eqb k k0) eqn:E; simpl.
    + apply String.eqb_eq in E. subst k0.
      destruct (String.eqb k' k); reflexivity.
    + destruct (String.eqb k' k0) eqn:E'.
      * apply String.eqb_eq in E'. subst k0.
        rewrite String.eqb_sym, E. reflexivity.
      * exact IH.
Qed.

Lemma exec_set_sum (k : string) (v : Query.ExecStat)
    (m : list (string * Query.ExecStat)) :
  (list_sum (map (fun kv => Query.count (snd kv)) (Query.exec_set k v m))
   + match Query.exec_get k m with
     | Some e => Query.count e
     | None => 0
     end
   = list_sum (map (fun kv => Query.count (snd kv)) m) + Query.count v)%nat.
Proof.
  induction m as [|[k0 v0] m IH]; simpl.
  - lia.
  - destruct (String.eqb k k0); simpl; lia.
Qed.

(** C5.  The cache-hit rate is [(E - N) / E], with [E] the sum over all
    keys of the per-key execution counter and [N] the number of stored
    records, and [0] when [E = 0].  An 'updated' notification that carries
    a query raises the counter of its key by one and no other counter;
    any other notification leaves the counters alone. *)
Theorem cache_hit_rate_formula :
  (forall (now : Q) (s : Query.state),
     Query.cacheHitRate (Query.getQueryCacheStats now s) =
     if (0 <? Ref.executions s)%nat
     then (Query.nat_to_Q (Ref.executions s)
           - Query.nat_to_Q (length (Query.getQueryMetrics s)))
          / Query.nat_to_Q (Ref.executions s)
     else 0) /\
  (forall (now1 now2 : Q) (q : Query.RawQuery) (s : Query.state) (k : string),
     let s' := Query.handleQueryEvent now1 now2
                 {| Query.e_type := "updated"; Query.e_query := Some q |} s in
     Ref.exec_count k s' =
       (Ref.exec_count k s
        + if String.eqb k (Query.q_key q) then 1 else 0)%nat /\
     Ref.executions s' = (Ref.executions s + 1)%nat) /\
  (forall (now1 now2 : Q) (ty : string) (s : Query.state),
     Query.queryExecutions
       (Query.handleQueryEvent now1 now2
          {| Query.e_type := ty; Query.e_query := None |} s)
     = Query.queryExecutions s) /\
  (forall (now1 now2 : Q) (q : option Query.RawQuery) (s : Query.state),
     Query.queryExecutions
       (Query.handleQueryEvent now1 now2
          {| Query.e_type := "added"; Query.e_query := q |} s)
     = Query.queryExecutions s).
Proof.
  split; [|split; [|split]].
  - intros now s. unfold Query.getQueryCacheStats. simpl.
    assert (E : Query.totalExecutions s = Ref.executions s).
    { unfold Query.totalExecutions, Ref.executions.
      rewrite fold_left_count_acc. reflexivity. }
    rewrite E. reflexivity.
  - intros now1 now2 q s k s'. subst s'. split.
    + unfold Ref.exec_count, Query.handleQueryEvent. simpl.
      rewrite exec_get_set.
      destruct (String.eqb k (Query.q_key q)) eqn:E.
      * apply String.eqb_eq in E. subst k. simpl.
        destruct (Query.exec_get _ _); simpl; lia.
      * lia.
    + unfold Ref.executions, Query.handleQueryEvent. simpl.
      match goal with
      | |- context [Query.exec_set ?k ?v ?m] =>
          pose proof (exec_set_sum k v m) as H
      end.
      simpl in H.
      destruct (Query.exec_get (Query.q_key q) (Query.queryExecutions s));
        simpl in H |- *; lia.
  - intros now1 now2 ty s. unfold Query.handleQueryEvent. simpl.
    destruct (negb _); reflexivity.
  - intros now1 now2 q s. reflexivity.
Qed.

(** ** C4: mean compression ratio *)

Lemma positive_ratios_filter (s : Resource.state) :
  Resource.positive_ratios s =
  List.filter (fun x => JS.ltb 0 x) (Ref.defined_ratios s).
Proof.
  unfold Resource.positive_ratios, Ref.defined_ratios.
  induction (Resource.resources s) as [|r rs IH]; [reflexivity|].
  cbn [omap list_omap].
  destruct (Resource.compressionRatio r) as [x|]; simpl.
  - destruct (JS.ltb 0 x); simpl; rewrite IH; reflexivity.
  - exact IH.
Qed.

(** C4, as stated, fails.  A resource of ratio 3 and a compressed empty
    body (20 encoded bytes decoding to 0 bytes, ratio 0) both have a defined
    ratio; their mean is 3/2, but [getAverageCompressionRatio] answers 3:
    the zero ratio is dropped from numerator and denominator. *)
Lemma mean_ratio_skips_zero_ratio :
  map Resource.encodedBodySize (Resource.resources Scenario.resources_3_empty)
  = [100; 20] /\
  length (Ref.defined_ratios Scenario.resources_3_empty) = 2%nat /\
  Ref.mean_of_defined_ratios Scenario.resources_3_empty == 3 # 2 /\
  Resource.getAverageCompressionRatio Scenario.resources_3_empty == 3 /\
  ~ (Resource.getAverageCompressionRatio Scenario.resources_3_empty ==
     Ref.mean_of_defined_ratios Scenario.resources_3_empty).
Proof.
  repeat split; try reflexivity.
  intros H. vm_compute in H. discriminate H.
Qed.

(** C4, amended.  [getAverageCompressionRatio] is the arithmetic mean of
    the compression ratios that are defined and strictly positive; a
    record without a ratio (no encoded size) or with ratio zero counts
    neither in the sum nor in the divisor; without any such record the
    result is 0.  Ratios 3 and 1 together with a record of encoded size 0
    average to 2. *)
Theorem mean_ratio_over_positive_ratios :
  (forall s : Resource.state,
     Resource.getAverageCompressionRatio s ==
     Ref.mean (List.filter (fun x => JS.ltb 0 x) (Ref.defined_ratios s))) /\
  (forall e : Resource.RawEntry,
     Resource.compressionRatio (Resource.convertToResourceTiming e) =
     if JS.ltb 0 (Resource.e_encodedBodySize e)
     then Some (Resource.e_decodedBodySize e / Resource.e_encodedBodySize e)
     else None) /\
  Resource.getAverageCompressionRatio Resource.init = 0 /\
  Resource.getAverageCompressionRatio
    (Resource.handleResourceEntry (Scenario.resource_entry "/c.bin" 0 0)
       Resource.init) = 0 /\
  length (Ref.defined_ratios Scenario.resources_3_1_none) = 2%nat /\
  Resource.getAverageCompressionRatio Scenario.resources_3_1_none == 2.
Proof.
  split; [|repeat split; reflexivity].
  intros s. rewrite <- positive_ratios_filter.
  unfold Resource.getAverageCompressionRatio, Ref.mean.
  destruct (Resource.positive_ratios s) as [|x l] eqn:E.
  - reflexivity.
  - cbn [length Nat.eqb].
    rewrite (sum_by_Qsum (fun r => r) (x :: l)), map_id. reflexivity.
Qed.

(** ** C7: top-k selections *)

Section TopK.
Context {A : Type} (key : A -> Q).

Let cmp : A -> A -> Q := fun a b => key b - key a.
Let desc : A -> A -> Prop := fun a b => key b <= key a.
Let same (d : Q) : A -> bool := fun x => Qeq_bool (key x) d.

Lemma cmp_le (x y : A) : Qle_bool (cmp x y) 0 = true <-> desc x y.
Proof. unfold cmp, desc. rewrite Qle_bool_iff. split; intros; lra. Qed.

Lemma cmp_gt (x y : A) : Qle_bool (cmp x y) 0 = false -> key x < key y.
Proof.
  intros E. apply Qnot_le_lt. intros H.
  apply cmp_le in H. congruence.
Qed.

Lemma sort_insert_perm (x : A) (l : list A) :
  Permutation (JS.sort_insert cmp x l) (x :: l).
Proof.
  induction l as [|y ys IH]; simpl.
  - reflexivity.
  - destruct (Qle_bool (cmp x y) 0).
    + reflexivity.
    + rewrite IH. apply perm_swap.
Qed.

Lemma sort_perm (l : list A) : Permutation (JS.sort cmp l) l.
Proof.
  induction l as [|x xs IH]; simpl.
  - reflexivity.
  - rewrite sort_insert_perm, IH. reflexivity.
Qed.

Lemma sort_insert_sorted (x : A) (l : list A) :
  StronglySorted desc l -> StronglySorted desc (JS.sort_insert cmp x l).
Proof.
  induction 1 as [|y ys Hs IH Hall]; simpl.
  - constructor; constructor.
  - destruct (Qle_bool (cmp x y) 0) eqn:E.
    + apply cmp_le in E. constructor.
      * constructor; assumption.
      * constructor; [exact E|].
        eapply Forall_impl; [exact Hall|].
        unfold desc in *. intros z Hz. simpl in Hz. lra.
    + apply cmp_gt in E. constructor; [exact IH|].
      rewrite sort_insert_perm. constructor; [|exact Hall].
      unfold desc. lra.
Qed.

Lemma sort_sorted (l : list A) : StronglySorted desc (JS.sort cmp l).
Proof.
  induction l as [|x xs IH]; simpl.
  - constructor.
  - apply sort_insert_sorted, IH.
Qed.

(** Stability: the insertion only moves [x] past records of strictly
    larger key, so the records of any one key stay in log order. *)
Lemma sort_insert_stable (d : Q) (x : A) (l : list A) :
  List.filter (same d) (JS.sort_insert cmp x l) =
  List.filter (same d) (x :: l).
Proof.
  induction l as [|y ys IH]; [reflexivity|].
  cbn [JS.sort_insert].
  destruct (Qle_bool (cmp x y) 0) eqn:E; [reflexivity|].
  apply cmp_gt in E.
  cbn [List.filter]. rewrite IH. cbn [List.filter].
  destruct (same d x) eqn:Ex, (same d y) eqn:Ey; try reflexivity.
  unfold same in Ex, Ey. apply Qeq_bool_iff in Ex, Ey. lra.
Qed.

Lemma sort_stable (d : Q) (l : list A) :
  List.filter (same d) (JS.sort cmp l) = List.filter (same d) l.
Proof.
  induction l as [|x xs IH]; [reflexivity|].
  cbn [JS.sort]. rewrite sort_insert_stable.
  cbn [List.filter]. rewrite IH. reflexivity.
Qed.

(** Sorting a list that is already in order returns it unchanged. *)
Lemma sort_fixpoint (l : list A) :
  StronglySorted desc l -> JS.sort cmp l = l.
Proof.
  induction 1 as [|x xs Hs IH Hall]; [reflexivity|].
  cbn [JS.sort]. rewrite IH.
  destruct Hall as [|y ys Hy _]; [reflexivity|].
  cbn [JS.sort_insert].
  apply cmp_le in Hy. rewrite Hy. reflexivity.
Qed.

Lemma firstn_sorted (n : nat) (l : list A) :
  StronglySorted desc l -> StronglySorted desc (firstn n l).
Proof.
  intros H. revert n. induction H as [|x xs Hs IH Hall]; intros n.
  - rewrite firstn_nil. constructor.
  - destruct n as [|n]; [constructor|].
    cbn [firstn]. constructor; [apply IH|].
    apply Forall_take, Hall.
Qed.

Lemma slice_sort_top_k (count : Z) (log : list A) :
  Ref.top_k key count log (JS.slice0 count (JS.sort cmp log)).
Proof.
  assert (Hlen : length (JS.sort cmp log) = length log)
    by (apply Permutation_length, sort_perm).
  exists (JS.sort cmp log).
  split; [apply sort_perm|].
  split; [apply sort_sorted|].
  split; [intros d; apply sort_stable|].
  assert (Hout : JS.slice0 count (JS.sort cmp log) =
                 firstn (if (count <? 0)%Z
                         then Z.to_nat (Z.of_nat (length log) + count)
                         else Z.to_nat count) (JS.sort cmp log)).
  { unfold JS.slice0. rewrite Hlen.
    destruct (count <? 0)%Z; reflexivity. }
  split; [exact Hout|].
  assert (Hs : StronglySorted desc (JS.slice0 count (JS.sort cmp log)))
    by (rewrite Hout; apply firstn_sorted, sort_sorted).
  split; [exact Hs|].
  split; [|apply sort_fixpoint, Hs].
  intros Hk. rewrite Hout.
  destruct (count <? 0)%Z eqn:E; [lia|].
  apply firstn_all2. lia.
Qed.
End TopK.

(** C7.  Each top-k selection returns a prefix of the log sorted by
    descending key (call duration, transfer size, resource duration),
    records of equal key in log order; it is the whole sorted log when the
    requested count is at least the log length; sorting its output again
    changes nothing; and it depends on the log alone, so that two calls
    between which the log did not change agree. *)
Theorem top_k_selection_sorted_stable
    (count : Z) (sa sa' : API.state) (sr sr' : Resource.state)
    (Ha : API.getAPICalls sa' = API.getAPICalls sa)
    (Hr : Resource.getResources sr' = Resource.getResources sr) :
  Ref.top_k API.duration count
    (API.getAPICalls sa) (API.getSlowestCalls count sa) /\
  Ref.top_k Resource.transferSize count
    (Resource.getResources sr) (Resource.getLargestResources count sr) /\
  Ref.top_k Resource.duration count
    (Resource.getResources sr) (Resource.getSlowestResources count sr) /\
  API.getSlowestCalls count sa' = API.getSlowestCalls count sa /\
  Resource.getLargestResources count sr'
  = Resource.getLargestResources count sr /\
  Resource.getSlowestResources count sr'
  = Resource.getSlowestResources count sr.
Proof.
  split; [apply slice_sort_top_k|].
  split; [apply slice_sort_top_k|].
  split; [apply slice_sort_top_k|].
  unfold API.getSlowestCalls, Resource.getLargestResources,
    Resource.getSlowestResources.
  unfold API.getAPICalls in Ha. unfold Resource.getResources in Hr.
  rewrite Ha, Hr. repeat split; reflexivity.
Qed.

Lemma top_k_selection_sorted_stable_witness :
  API.getAPICalls
    (API.fetch_begin "req_1" Scenario.call_100 Scenario.api_two_calls)
  = API.getAPICalls Scenario.api_two_calls /\
  Resource.getResources
    {| Resource.resources := Resource.resources Scenario.resources_3_1_none;
       Resource.initialized := true |}
  = Resource.getResources Scenario.resources_3_1_none /\
  map API.startTime (API.getSlowestCalls 10 Scenario.api_two_calls)
  = [100; 500] /\
  map API.startTime (API.getSlowestCalls 1 Scenario.api_two_calls) = [100] /\
  Ref.top_k API.duration 10
    (API.getAPICalls Scenario.api_two_calls)
    (API.getSlowestCalls 10 Scenario.api_two_calls) /\
  API.getSlowestCalls 10
    (API.fetch_begin "req_1" Scenario.call_100 Scenario.api_two_calls)
  = API.getSlowestCalls 10 Scenario.api_two_calls.
Proof.
  split; [reflexivity|]. split; [reflexivity|].
  split; [reflexivity|]. split; [reflexivity|].
  destruct (top_k_selection_sorted_stable 10
              Scenario.api_two_calls
              (API.fetch_begin "req_1" Scenario.call_100
                               Scenario.api_two_calls)
              Scenario.resources_3_1_none
              {| Resource.resources :=
                   Resource.resources Scenario.resources_3_1_none;
                 Resource.initialized := true |}
              eq_refl eq_refl) as (H1 & _ & _ & H4 & _).
  split; [exact H1|exact H4].
Defined.

(** ** C8: the snapshot after [clear()] *)

(** C8, as stated, fails.  On a session whose query client was
    initialized, the snapshot taken after [clear()] carries a query-cache
    section (all statistics at their empty value) and query figures 0 in
    the summary, where the snapshot of a freshly constructed session has
    neither. *)
Lemma cleared_snapshot_keeps_query_section :
  let w := Session.clear Scenario.world_with_query_client in
  let cleared :=
    Session.getPerformanceSession Scenario.page 2000 (fst w) (snd w) in
  let fresh :=
    Session.getPerformanceSession Scenario.page 2000 (fst w)
      (Session.constructor "session_1" 1000 Session.react) in
  Session.queryCache cleared = Some Ref.empty_query_stats /\
  Session.queryCache fresh = None /\
  Session.queryCount (Session.summary cleared) = Some 0%nat /\
  Session.queryCount (Session.summary fresh) = None /\
  cleared <> fresh.
Proof.
  repeat split; try reflexivity.
  intros H. apply (f_equal Session.queryCache) in H. discriminate H.
Qed.

(** C8, amended.  After [clear()] the snapshot has empty logs, no
    hydration record and every count, total and rate at 0.  It is the
    snapshot of a freshly constructed session with the same identifier,
    start time and framework when no query client was initialized on the
    cleared session; when one was, it is that snapshot with a query-cache
    section whose statistics are all at their empty value. *)
Theorem cleared_snapshot_is_empty
    (env : Session.Env) (now : Q) (g : Session.Globals)
    (p : Session.PerformanceMonitor) :
  let w := Session.clear (g, p) in
  let fresh :=
    Session.constructor (Session.sessionId p) (Session.sessionStartTime p)
                        (Session.framework p) in
  Session.getPerformanceSession env now (fst w) fresh
  = Ref.empty_session env (Session.sessionId p) (Session.sessionStartTime p)
                      (Session.framework p) /\
  Session.getPerformanceSession env now Session.globals_init fresh
  = Ref.empty_session env (Session.sessionId p) (Session.sessionStartTime p)
                      (Session.framework p) /\
  Session.getPerformanceSession env now (fst w) (snd w)
  = if Session.queryClientInitialized p
    then Ref.with_query_cache Ref.empty_query_stats
           (Session.getPerformanceSession env now (fst w) fresh)
    else Session.getPerformanceSession env now (fst w) fresh.
Proof.
  destruct p as [id start fw hs hm qi]. simpl.
  split; [reflexivity|]. split; [reflexivity|].
  destruct qi; reflexivity.
Qed.

(** ** C9: hydration end without hydration start *)

Lemma no_start_no_hydration (ops : list Session.op) :
  forall (acc : bool) (w : Session.Globals * Session.PerformanceMonitor),
    (acc = false ->
     Session.hydrationStartTime (snd w) = None /\
     Session.hydrationMetric (snd w) = None) ->
    Session.start_in_effect acc ops = false ->
    Session.hydrationStartTime (snd (Session.run ops w)) = None /\
    Session.hydrationMetric (snd (Session.run ops w)) = None.
Proof.
  induction ops as [|o ops IH]; intros acc w Hw Hacc.
  - simpl in Hacc. apply Hw, Hacc.
  - unfold Session.run in *. simpl in Hacc |- *.
    refine (IH _ _ _ Hacc). clear IH Hacc.
    destruct w as [g p].
    destruct o; simpl; try discriminate; try (intros _; split; reflexivity).
    + intros ->. destruct (Hw eq_refl) as [H1 H2]. simpl in H1, H2.
      destruct (Session.queryClientInitialized p); simpl; auto.
    + intros ->. destruct (Hw eq_refl) as [H1 H2]. simpl in H1, H2.
      unfold Session.markHydrationEnd. rewrite H1. auto.
    + intros ->. exact (Hw eq_refl).
Qed.

(** C9.  On a session where no [markHydrationStart] is in effect (none was
    called since construction, or none since the last [clear()]),
    [markHydrationEnd] returns with the session unchanged, the hydration
    record stays absent, and the next snapshot has no hydration. *)
Theorem hydration_end_without_start
    (env : Session.Env) (now nowEnd : Q) (componentCount : option Q)
    (g0 : Session.Globals) (id : string) (t0 : Q) (fw : Session.Framework)
    (ops : list Session.op)
    (Hno : Session.start_in_effect false ops = false) :
  let w := Session.run ops (g0, Session.constructor id t0 fw) in
  let p' := Session.markHydrationEnd nowEnd componentCount (fst w) (snd w) in
  p' = snd w /\
  Session.hydrationMetric p' = None /\
  Session.hydration (Session.getPerformanceSession env now (fst w) p') = None.
Proof.
  intros w p'.
  destruct (no_start_no_hydration ops false (g0, Session.constructor id t0 fw))
    as [H1 H2]; [intros _; split; reflexivity|exact Hno|].
  fold w in H1, H2.
  assert (E : p' = snd w).
  { unfold p', Session.markHydrationEnd. rewrite H1. reflexivity. }
  split; [exact E|]. rewrite E. split; [exact H2|]. exact H2.
Qed.

Lemma hydration_end_without_start_witness :
  Session.start_in_effect false
    [Session.MarkHydrationStart 5; Session.MarkHydrationEnd 9 None;
     Session.Clear; Session.InitializeQueryClient []] = false /\
  let w :=
    Session.run
      [Session.MarkHydrationStart 5; Session.MarkHydrationEnd 9 None;
       Session.Clear; Session.InitializeQueryClient []]
      (Session.globals_init,
       Session.constructor "session_1" 1000 Session.react) in
  let p' := Session.markHydrationEnd 20 (Some 3) (fst w) (snd w) in
  p' = snd w /\
  Session.hydrationMetric p' = None /\
  Session.hydration
    (Session.getPerformanceSession Scenario.page 30 (fst w) p') = None.
Proof.
  split; [reflexivity|].
  apply (hydration_end_without_start Scenario.page 30 20 (Some 3)
           Session.globals_init "session_1" 1000 Session.react
           [Session.MarkHydrationStart 5; Session.MarkHydrationEnd 9 None;
            Session.Clear; Session.InitializeQueryClient []]).
  reflexivity.
Defined.

(** * Further properties of the monitors *)

(** ** The correlation pass, cell by cell *)

Section PassFacts.
Context {A : Type} (f : A -> A).
Hypothesis f_idem : forall x, f (f x) = f x.

(** After the pass a cell holds [f] of what it held if the array
    references it, and what it held otherwise. *)
Lemma for_each_lookup (refs : list nat) (heap : list A) (i : nat) :
  Store.for_each f refs heap !! i =
  (if bool_decide (i ∈ refs) then f else id) <$> heap !! i.
Proof.
  revert heap. induction refs as [|r refs IH]; intros heap.
  - simpl. destruct (heap !! i); reflexivity.
  - unfold Store.for_each in *. simpl. rewrite IH.
    destruct (decide (r = i)) as [->|Hne].
    + rewrite list_lookup_alter_eq.
      rewrite (bool_decide_eq_true_2 (i ∈ i :: refs)) by (left).
      destruct (heap !! i) as [x|]; simpl; [|reflexivity].
      destruct (bool_decide (i ∈ refs)); simpl; [rewrite f_idem|];
        reflexivity.
    + rewrite list_lookup_alter_ne by assumption.
      destruct (bool_decide (i ∈ refs)) eqn:E.
      * apply bool_decide_eq_true in E.
        rewrite (bool_decide_eq_true_2 (i ∈ r :: refs)) by (right; exact E).
        reflexivity.
      * apply bool_decide_eq_false in E.
        rewrite (bool_decide_eq_false_2 (i ∈ r :: refs)); [reflexivity|].
        intros H. apply elem_of_cons in H as [->|H]; [congruence|auto].
Qed.

Lemma for_each_idem (refs : list nat) (heap : list A) :
  Store.for_each f refs (Store.for_each f refs heap) =
  Store.for_each f refs heap.
Proof.
  apply list_eq. intros i. rewrite !for_each_lookup.
  destruct (heap !! i) as [x|]; simpl; [|reflexivity].
  destruct (bool_decide (i ∈ refs)); simpl; [rewrite f_idem|]; reflexivity.
Qed.
End PassFacts.

Lemma for_each_comm {A : Type} (f g : A -> A) (refs : list nat)
    (heap : list A) :
  (forall x, f (f x) = f x) -> (forall x, g (g x) = g x) ->
  (forall x, f (g x) = g (f x)) ->
  Store.for_each f refs (Store.for_each g refs heap) =
  Store.for_each g refs (Store.for_each f refs heap).
Proof.
  intros Hf Hg Hfg. apply list_eq. intros i.
  rewrite !for_each_lookup by assumption.
  destruct (heap !! i) as [x|]; simpl; [|reflexivity].
  destruct (bool_decide (i ∈ refs)); simpl; [rewrite Hfg|]; reflexivity.
Qed.

Lemma for_each_app_l {A : Type} (f : A -> A) (refs : list nat)
    (heap tail : list A) :
  (forall r, In r refs -> r < length heap)%nat ->
  Store.for_each f refs (heap ++ tail) = Store.for_each f refs heap ++ tail.
Proof.
  revert heap. induction refs as [|r refs IH]; intros heap Hb.
  - reflexivity.
  - unfold Store.for_each in *. simpl.
    rewrite alter_app_l by (apply Hb; left; reflexivity).
    apply IH. intros r' Hr'. rewrite length_alter. apply Hb. right. exact Hr'.
Qed.

Lemma for_each_snoc {A : Type} (f : A -> A) (refs : list nat)
    (heap : list A) (r : nat) :
  Store.for_each f (refs ++ [r]) heap =
  alter f r (Store.for_each f refs heap).
Proof. unfold Store.for_each. rewrite foldl_app. reflexivity. Qed.

Lemma lcp_body_idem (t : Q) (x : API.APICallMetric) :
  Pass.lcp_body t (Pass.lcp_body t x) = Pass.lcp_body t x.
Proof.
  unfold Pass.lcp_body. destruct x as [u m st du tt sta sz [|] bi]; simpl.
  - reflexivity.
  - destruct (JS.ltb st t && JS.ltb t (st + du)); reflexivity.
Qed.

Lemma inp_body_idem (inp : list Q) (x : API.APICallMetric) :
  Pass.inp_body inp (Pass.inp_body inp x) = Pass.inp_body inp x.
Proof.
  unfold Pass.inp_body. destruct x as [u m st du tt sta sz bl [|]]; simpl.
  - reflexivity.
  - destruct (existsb _ inp); reflexivity.
Qed.

Lemma lcp_inp_body_comm (t : Q) (inp : list Q) (x : API.APICallMetric) :
  Pass.lcp_body t (Pass.inp_body inp x) =
  Pass.inp_body inp (Pass.lcp_body t x).
Proof.
  unfold Pass.lcp_body, Pass.inp_body.
  destruct x as [u m st du tt sta sz [|] [|]]; reflexivity.
Qed.

Lemma api_setLCPTime_unfold (t : Q) (s : API.state) :
  API.setLCPTime t s =
  {| API.heap := Store.for_each (Pass.lcp_body t) (API.apiCalls s) (API.heap s);
     API.apiCalls := API.apiCalls s;
     API.pendingRequests := API.pendingRequests s;
     API.initialized := API.initialized s;
     API.lcpTime := Some t;
     API.inpEvents := API.inpEvents s |}.
Proof. reflexivity. Qed.

Lemma api_recordINPEvent_unfold (t : Q) (s : API.state) :
  API.recordINPEvent t s =
  {| API.heap :=
       Store.for_each (Pass.inp_body (JS.map_set_key t (API.inpEvents s)))
                      (API.apiCalls s) (API.heap s);
     API.apiCalls := API.apiCalls s;
     API.pendingRequests := API.pendingRequests s;
     API.initialized := API.initialized s;
     API.lcpTime := API.lcpTime s;
     API.inpEvents := JS.map_set_key t (API.inpEvents s) |}.
Proof. reflexivity. Qed.

Lemma map_set_key_idem (k : Q) (keys : list Q) :
  JS.map_set_key k (JS.map_set_key k keys) = JS.map_set_key k keys.
Proof.
  unfold JS.map_set_key.
  destruct (existsb (Qeq_bool k) keys) eqn:E.
  - rewrite E. reflexivity.
  - rewrite existsb_app. simpl.
    rewrite (proj2 (Qeq_bool_iff k k)) by reflexivity.
    rewrite orb_true_r. reflexivity.
Qed.

(** ** Re-reporting an instant, and the order of instants *)

(** X1.  On the API-call monitor, reporting the same paint instant twice
    in a row, or the same interaction instant twice in a row, leaves the
    monitor exactly as the first report left it; and a paint instant and
    an interaction instant can be reported in either order with the same
    resulting monitor. *)
Theorem api_instants_idempotent_and_commute
    (s : API.state) (t u : Q) :
  API.setLCPTime t (API.setLCPTime t s) = API.setLCPTime t s /\
  API.recordINPEvent u (API.recordINPEvent u s) = API.recordINPEvent u s /\
  API.setLCPTime t (API.recordINPEvent u s) =
  API.recordINPEvent u (API.setLCPTime t s).
Proof.
  rewrite !api_setLCPTime_unfold, !api_recordINPEvent_unfold. simpl.
  split; [|split].
  - rewrite for_each_idem by apply lcp_body_idem. reflexivity.
  - rewrite map_set_key_idem.
    rewrite for_each_idem by apply inp_body_idem. reflexivity.
  - rewrite for_each_comm; [reflexivity| | |].
    + apply lcp_body_idem.
    + apply inp_body_idem.
    + apply lcp_inp_body_comm.
Qed.

(** ** The API-call log is append-only between two [clear()] *)

Lemma api_wf_init : Pass.api_wf API.init.
Proof. intros r []. Qed.

Lemma api_wf_recordAPICall (d : API.CallData) (s : API.state) :
  Pass.api_wf s -> Pass.api_wf (API.recordAPICall d s).
Proof.
  intros Hw r Hin. simpl in *. rewrite length_app. simpl.
  apply in_app_or in Hin as [Hin|[<-|[]]]; [|lia].
  specialize (Hw r Hin). lia.
Qed.

Lemma api_wf_step (s : API.state) (o : API.op) :
  Pass.api_wf s -> Pass.api_wf (API.step s o).
Proof.
  intros Hw. destruct o; simpl.
  - unfold API.initialize. destruct (API.initialized s); exact Hw.
  - rewrite api_setLCPTime_unfold. intros r Hin. simpl in *.
    rewrite for_each_length. auto.
  - rewrite api_recordINPEvent_unfold. intros r Hin. simpl in *.
    rewrite for_each_length. auto.
  - intros r [].
  - exact Hw.
  - apply (api_wf_recordAPICall _ s Hw).
  - apply (api_wf_recordAPICall _ s Hw).
  - apply (api_wf_recordAPICall _ s Hw).
Qed.

Lemma api_wf_run (ops : list API.op) (s : API.state) :
  Pass.api_wf s -> Pass.api_wf (API.run ops s).
Proof.
  revert s. induction ops as [|o ops IH]; intros s Hw; [exact Hw|].
  apply IH, api_wf_step, Hw.
Qed.



(** ** Verdicts do not depend on the order of arrival *)

Lemma existsb_map_set_key_mono (k : Q) (keys : list Q) (p : Q -> bool) :
  existsb p keys = true -> existsb p (JS.map_set_key k keys) = true.
Proof.
  intros H. unfold JS.map_set_key. destruct (existsb (Qeq_bool k) keys).
  - exact H.
  - rewrite existsb_app, H. reflexivity.
Qed.

(** X3.  On a monitor driven from its initial state, it makes no
    difference whether a call completes just before or just after an
    interaction instant is reported: both orders leave the same monitor.
    The same holds for the paint instant as long as none was known
    before. *)
Theorem api_call_and_instant_commute
    (ops : list API.op) (d : API.CallData) (t : Q) :
  let s := API.run ops API.init in
  API.recordINPEvent t (API.recordAPICall d s)
  = API.recordAPICall d (API.recordINPEvent t s) /\
  (API.lcpTime s = None ->
   API.setLCPTime t (API.recordAPICall d s)
   = API.recordAPICall d (API.setLCPTime t s)).
Proof.
  intros s.
  assert (Hw : Pass.api_wf s) by apply api_wf_run, api_wf_init.
  split.
  - rewrite !api_recordINPEvent_unfold. unfold API.recordAPICall. simpl.
    rewrite for_each_length.
    rewrite for_each_snoc, (for_each_app_l _ _ _ _ Hw).
    rewrite alter_app_r_alt by (rewrite for_each_length; lia).
    rewrite for_each_length, Nat.sub_diag. simpl.
    f_equal. f_equal. f_equal.
    unfold Pass.inp_body, API.mk_metric, API.checkINPBlocking. simpl.
    destruct (existsb _ (API.inpEvents s)) eqn:E; simpl; [|reflexivity].
    rewrite (existsb_map_set_key_mono _ _ _ E). reflexivity.
  - intros Hnone.
    rewrite !api_setLCPTime_unfold. unfold API.recordAPICall. simpl.
    rewrite for_each_length.
    rewrite for_each_snoc, (for_each_app_l _ _ _ _ Hw).
    rewrite alter_app_r_alt by (rewrite for_each_length; lia).
    rewrite for_each_length, Nat.sub_diag. simpl.
    f_equal. f_equal. f_equal.
    unfold Pass.lcp_body, API.mk_metric, API.checkLCPBlocking. simpl.
    rewrite Hnone. reflexivity.
Qed.

Lemma api_call_and_instant_commute_witness :
  API.lcpTime (API.run [API.RecordINPEvent 7] API.init) = None /\
  API.setLCPTime 250
    (API.recordAPICall
       {| API.c_url := "/api/items"; API.c_method := "GET";
          API.c_startTime := 100; API.c_duration := 300; API.c_ttfb := 300;
          API.c_status := 200; API.c_size := 0 |}
       (API.run [API.RecordINPEvent 7] API.init))
  = API.recordAPICall
      {| API.c_url := "/api/items"; API.c_method := "GET";
         API.c_startTime := 100; API.c_duration := 300; API.c_ttfb := 300;
         API.c_status := 200; API.c_size := 0 |}
      (API.setLCPTime 250 (API.run [API.RecordINPEvent 7] API.init)).
Proof.
  split; [reflexivity|].
  apply (api_call_and_instant_commute [API.RecordINPEvent 7]
           {| API.c_url := "/api/items"; API.c_method := "GET";
              API.c_startTime := 100; API.c_duration := 300;
              API.c_ttfb := 300; API.c_status := 200; API.c_size := 0 |}
           250).
  reflexivity.
Defined.

(** ** What a raised flag means *)

Lemma in_deref {A : Type} (heap : list A) (refs : list nat) (x : A) :
  In x (Store.deref heap refs) <->
  exists r, In r refs /\ heap !! r = Some x.
Proof.
  unfold Store.deref. rewrite <- list_elem_of_In, list_elem_of_omap.
  split; intros (r & H1 & H2); exists r; split; try assumption;
    apply list_elem_of_In; assumption.
Qed.

Lemma in_map_set_key_old (k t : Q) (keys : list Q) :
  In t keys -> In t (JS.map_set_key k keys).
Proof. apply map_set_key_incl. Qed.

(** A raised interaction flag always has a stored interaction instant
    inside the call's interval; this holds of every record object, also
    of those a [clear()] dropped from the log. *)
Lemma api_inp_sound_step (s : API.state) (o : API.op) :
  (forall r c, API.heap s !! r = Some c -> API.blockedINP c = true ->
     exists t, In t (API.inpEvents s) /\ API.overlaps c t) ->
  forall r c, API.heap (API.step s o) !! r = Some c ->
    API.blockedINP c = true ->
    exists t, In t (API.inpEvents (API.step s o)) /\ API.overlaps c t.
Proof.
  intros Hs r c.
  assert (Hrec : forall d, API.heap (API.recordAPICall d s) !! r = Some c ->
            API.blockedINP c = true ->
            exists t, In t (API.inpEvents s) /\ API.overlaps c t).
  { intros d Hl Hb. simpl in Hl.
    apply lookup_app_Some in Hl as [Hl|[_ Hl]]; [eauto|].
    apply list_lookup_singleton_Some in Hl as [_ <-].
    simpl in Hb. apply api_checkINPBlocking_true in Hb.
    destruct Hb as (t & Hin & H). exists t. split; [exact Hin|exact H]. }
  destruct o; cbn [API.step].
  1: { unfold API.initialize. destruct (API.initialized s); simpl; eauto. }
  3: { exact (Hs r c). }
  3: { exact (Hs r c). }
  3: { exact (Hrec _). }
  3: { exact (Hrec _). }
  3: { exact (Hrec _). }
  - rewrite api_setLCPTime_unfold. simpl.
    rewrite for_each_lookup by apply lcp_body_idem.
    destruct (API.heap s !! r) as [x|] eqn:E; simpl; [|discriminate].
    intros [= <-] Hb.
    assert (Hx : API.blockedINP x = true /\
                 forall u, API.overlaps x u ->
                   API.overlaps
                     ((if bool_decide (r ∈ API.apiCalls s)
                       then Pass.lcp_body time else id) x) u).
    { destruct (bool_decide _); simpl in *; [|auto].
      unfold Pass.lcp_body in *.
      destruct (API.blockedLCP x); simpl in *; auto. }
    destruct Hx as [Hbx Hov].
    destruct (Hs r x E Hbx) as (u & Hu & Hou). exists u. auto.
  - rewrite api_recordINPEvent_unfold. simpl.
    rewrite for_each_lookup by apply inp_body_idem.
    destruct (API.heap s !! r) as [x|] eqn:E; simpl; [|discriminate].
    intros [= <-] Hb.
    destruct (bool_decide _); simpl in *.
    + unfold Pass.inp_body in *.
      destruct (API.blockedINP x) eqn:Ex; simpl in *.
      * destruct (Hs r x E Ex) as (u & Hu & Hou).
        exists u. split; [apply map_set_key_incl, Hu|exact Hou].
      * apply existsb_exists in Hb as (u & Hu & Hb).
        apply andb_true_iff in Hb. rewrite !ltb_lt in Hb.
        exists u. split; [exact Hu|exact Hb].
    + destruct (Hs r x E Hb) as (u & Hu & Hou).
      exists u. split; [apply map_set_key_incl, Hu|exact Hou].
Qed.

Lemma api_inp_sound_run (ops : list API.op) (s : API.state) :
  (forall r c, API.heap s !! r = Some c -> API.blockedINP c = true ->
     exists t, In t (API.inpEvents s) /\ API.overlaps c t) ->
  forall r c, API.heap (API.run ops s) !! r = Some c ->
    API.blockedINP c = true ->
    exists t, In t (API.inpEvents (API.run ops s)) /\ API.overlaps c t.
Proof.
  revert s. induction ops as [|o ops IH]; intros s Hs; [exact Hs|].
  apply IH, api_inp_sound_step, Hs.
Qed.

(** X4.  On a monitor driven from its initial state,
    [getINPBlockingCalls()] is exactly the stored calls whose open
    interval contains one of the stored interaction instants: none is
    missing and none is there without cause. *)
Theorem api_inp_blocking_calls_exact
    (ops : list API.op) (c : API.APICallMetric) :
  let s := API.run ops API.init in
  In c (API.getINPBlockingCalls s) <->
  In c (API.getAPICalls s) /\
  exists t, In t (API.inpEvents s) /\ API.overlaps c t.
Proof.
  intros s. unfold API.getINPBlockingCalls, API.getAPICalls.
  rewrite <- list_elem_of_In, list_elem_of_filter, list_elem_of_In.
  split.
  - intros [Hb Hin]. split; [exact Hin|].
    unfold API.calls in Hin. apply in_deref in Hin as (r & _ & Hl).
    apply (api_inp_sound_run ops API.init) with (r := r); try assumption.
    intros r' c' Hl'. simpl in Hl'. rewrite lookup_nil in Hl'. discriminate.
  - intros [Hin (t & Ht & Hov)]. split; [|exact Hin].
    unfold API.calls in Hin. apply in_deref in Hin as (r & Hr & Hl).
    destruct (api_correlated_run ops API.init api_correlated_init r Hr)
      as (c' & Hl' & _ & Hinp).
    fold s in Hl'. rewrite Hl in Hl'. injection Hl' as <-.
    apply (Hinp t Ht Hov).
Qed.

(** The paint instant is overwritten by each report, so a raised paint
    flag is explained by the history of reports. *)
Lemma api_lcp_sound_step (T : list Q) (s : API.state) (o : API.op) :
  (forall t, API.lcpTime s = Some t -> In t T) ->
  (forall r c, API.heap s !! r = Some c -> API.blockedLCP c = true ->
     exists t, In t T /\ API.overlaps c t) ->
  (forall t, API.lcpTime (API.step s o) = Some t ->
     In t (T ++ Pass.reported_lcp [o])) /\
  (forall r c, API.heap (API.step s o) !! r = Some c ->
     API.blockedLCP c = true ->
     exists t, In t (T ++ Pass.reported_lcp [o]) /\ API.overlaps c t).
Proof.
  intros Ht Hs.
  assert (Hrec : forall d r c,
            API.heap (API.recordAPICall d s) !! r = Some c ->
            API.blockedLCP c = true ->
            exists t, In t (T ++ []) /\ API.overlaps c t).
  { intros d r c Hl Hb. rewrite app_nil_r. simpl in Hl.
    apply lookup_app_Some in Hl as [Hl|[_ Hl]]; [eauto|].
    apply list_lookup_singleton_Some in Hl as [_ <-].
    simpl in Hb. apply api_checkLCPBlocking_true in Hb.
    destruct Hb as (t & Hin & H). exists t. split; [auto|exact H]. }
  destruct o; cbn [API.step].
  1: { unfold Pass.reported_lcp. simpl. rewrite app_nil_r.
       unfold API.initialize. destruct (API.initialized s); simpl; eauto. }
  3: { unfold Pass.reported_lcp. simpl. rewrite app_nil_r. split; eauto. }
  3: { unfold Pass.reported_lcp. simpl. rewrite app_nil_r. split; eauto. }
  - rewrite api_setLCPTime_unfold. simpl. split.
    + intros t [= <-]. apply in_or_app. right. left. reflexivity.
    + intros r c. rewrite for_each_lookup by apply lcp_body_idem.
      destruct (API.heap s !! r) as [x|] eqn:E; simpl; [|discriminate].
      intros [= <-] Hb.
      destruct (bool_decide _); simpl in *.
      * unfold Pass.lcp_body in *.
        destruct (API.blockedLCP x) eqn:Ex; simpl in *.
        -- destruct (Hs r x E Ex) as (u & Hu & Hou).
           exists u. split; [apply in_or_app; left; exact Hu|exact Hou].
        -- apply andb_true_iff in Hb. rewrite !ltb_lt in Hb.
           exists time. split; [apply in_or_app; right; left; reflexivity|].
           exact Hb.
      * destruct (Hs r x E Hb) as (u & Hu & Hou).
        exists u. split; [apply in_or_app; left; exact Hu|exact Hou].
  - rewrite api_recordINPEvent_unfold. unfold Pass.reported_lcp. simpl.
    rewrite app_nil_r. split; [exact Ht|].
    intros r c. rewrite for_each_lookup by apply inp_body_idem.
    destruct (API.heap s !! r) as [x|] eqn:E; simpl; [|discriminate].
    intros [= <-] Hb.
    assert (Hx : API.blockedLCP x = true /\
                 forall u, API.overlaps x u ->
                   API.overlaps
                     ((if bool_decide (r ∈ API.apiCalls s)
                       then Pass.inp_body
                              (JS.map_set_key time (API.inpEvents s))
                       else id) x) u).
    { destruct (bool_decide _); simpl in *; [|auto].
      unfold Pass.inp_body in *.
      destruct (API.blockedINP x); simpl in *; auto. }
    destruct Hx as [Hbx Hov].
    destruct (Hs r x E Hbx) as (u & Hu & Hou). exists u. auto.
  - split; [unfold Pass.reported_lcp; simpl; rewrite app_nil_r; exact Ht|].
    intros r c Hl Hb.
    unfold API.fetch_then, API.fetch_catch, API.xhr_loadend in Hl.
    cbv zeta in Hl. cbn [API.heap API.with_pending] in Hl.
    exact (Hrec _ r c Hl Hb).
  - split; [unfold Pass.reported_lcp; simpl; rewrite app_nil_r; exact Ht|].
    intros r c Hl Hb.
    unfold API.fetch_then, API.fetch_catch, API.xhr_loadend in Hl.
    cbv zeta in Hl. cbn [API.heap API.with_pending] in Hl.
    exact (Hrec _ r c Hl Hb).
  - split; [unfold Pass.reported_lcp; simpl; rewrite app_nil_r; exact Ht|].
    intros r c Hl Hb.
    unfold API.fetch_then, API.fetch_catch, API.xhr_loadend in Hl.
    cbv zeta in Hl. cbn [API.heap API.with_pending] in Hl.
    exact (Hrec _ r c Hl Hb).
Qed.

Lemma api_lcp_sound_run (ops : list API.op) (T : list Q) (s : API.state) :
  (forall t, API.lcpTime s = Some t -> In t T) ->
  (forall r c, API.heap s !! r = Some c -> API.blockedLCP c = true ->
     exists t, In t T /\ API.overlaps c t) ->
  (forall t, API.lcpTime (API.run ops s) = Some t ->
     In t (T ++ Pass.reported_lcp ops)) /\
  (forall r c, API.heap (API.run ops s) !! r = Some c ->
     API.blockedLCP c = true ->
     exists t, In t (T ++ Pass.reported_lcp ops) /\ API.overlaps c t).
Proof.
  revert T s. induction ops as [|o ops IH]; intros T s Ht Hs.
  - unfold Pass.reported_lcp. simpl. rewrite app_nil_r. split; assumption.
  - destruct (api_lcp_sound_step T s o Ht Hs) as [Ht' Hs'].
    destruct (IH _ _ Ht' Hs') as [H1 H2].
    assert (E : (T ++ Pass.reported_lcp [o]) ++ Pass.reported_lcp ops
                = T ++ Pass.reported_lcp (o :: ops)).
    { rewrite <- app_assoc. f_equal.
      unfold Pass.reported_lcp. cbn [omap list_omap].
      destruct o; reflexivity. }
    rewrite E in H1, H2. split; assumption.
Qed.

(** X5.  On a monitor driven from its initial state, a stored call
    whose open interval contains the current paint instant is flagged,
    and a flagged stored call has some paint instant that was reported
    at some point inside its interval: the paint flag is never raised
    without an overlap. *)
Theorem api_lcp_flag_has_cause
    (ops : list API.op) (c : API.APICallMetric)
    (Hin : In c (API.getAPICalls (API.run ops API.init))) :
  (forall t, API.lcpTime (API.run ops API.init) = Some t ->
             API.overlaps c t -> In c (API.getLCPBlockingCalls
                                         (API.run ops API.init))) /\
  (In c (API.getLCPBlockingCalls (API.run ops API.init)) ->
   exists t, In t (Pass.reported_lcp ops) /\ API.overlaps c t).
Proof.
  unfold API.getAPICalls, API.calls in Hin.
  apply in_deref in Hin as (r & Hr & Hl).
  split.
  - intros t Ht Hov. unfold API.getLCPBlockingCalls.
    apply list_elem_of_In, list_elem_of_filter. split.
    + destruct (api_correlated_run ops API.init api_correlated_init r Hr)
        as (c' & Hl' & Hlcp & _).
      rewrite Hl in Hl'. injection Hl' as <-. apply (Hlcp t Ht Hov).
    + apply list_elem_of_In, in_deref. eauto.
  - unfold API.getLCPBlockingCalls.
    rewrite <- list_elem_of_In, list_elem_of_filter.
    intros [Hb _].
    destruct (api_lcp_sound_run ops [] API.init) as [_ H].
    + intros t [=].
    + intros r' c' Hl'. simpl in Hl'. rewrite lookup_nil in Hl'.
      discriminate.
    + apply (H r c Hl Hb).
Qed.

Lemma api_lcp_flag_has_cause_witness :
  In Scenario.stored_call_100
     (API.getAPICalls
        (API.run [API.XhrLoadEnd Scenario.call_100 None 400 200 0;
                  API.SetLCPTime 250; API.SetLCPTime 900]
                 API.init)) /\
  In Scenario.stored_call_100
     (API.getLCPBlockingCalls
        (API.run [API.XhrLoadEnd Scenario.call_100 None 400 200 0;
                  API.SetLCPTime 250; API.SetLCPTime 900]
                 API.init)) /\
  exists t,
    In t (Pass.reported_lcp
            [API.XhrLoadEnd Scenario.call_100 None 400 200 0;
             API.SetLCPTime 250; API.SetLCPTime 900]) /\
    API.overlaps Scenario.stored_call_100 t.
Proof.
  assert (Hin : In Scenario.stored_call_100
                   (API.getAPICalls
                      (API.run
                         [API.XhrLoadEnd Scenario.call_100 None 400 200 0;
                          API.SetLCPTime 250; API.SetLCPTime 900]
                         API.init))) by (left; reflexivity).
  assert (Hb : In Scenario.stored_call_100
                  (API.getLCPBlockingCalls
                     (API.run
                        [API.XhrLoadEnd Scenario.call_100 None 400 200 0;
                         API.SetLCPTime 250; API.SetLCPTime 900]
                        API.init))) by (left; reflexivity).
  split; [exact Hin|]. split; [exact Hb|].
  exact (proj2 (api_lcp_flag_has_cause _ _ Hin) Hb).
Defined.

(** ** Pending requests *)

(** X6.  A [fetch] that is begun and then settles (resolved or rejected)
    under the same request id leaves that id not pending and every other
    pending request untouched; when the id was not pending before, the
    pending map is back to what it was. *)
Theorem fetch_settles_pending
    (s : API.state) (id : string) (p : API.PendingRequest) (endTime : Q)
    (status size : Z) :
  let s1 := API.fetch_then id p endTime status size (API.fetch_begin id p s) in
  let s2 := API.fetch_catch id p endTime (API.fetch_begin id p s) in
  API.pendingRequests (API.fetch_begin id p s) !! id = Some p /\
  API.pendingRequests s1 !! id = None /\
  API.pendingRequests s2 !! id = None /\
  API.pendingRequests s1 = delete id (API.pendingRequests s) /\
  API.pendingRequests s2 = delete id (API.pendingRequests s) /\
  (forall id', id' <> id ->
     API.pendingRequests s1 !! id' = API.pendingRequests s !! id') /\
  (API.pendingRequests s !! id = None ->
   API.pendingRequests s1 = API.pendingRequests s).
Proof.
  simpl. repeat split.
  - apply lookup_insert_eq.
  - apply lookup_delete_eq.
  - apply lookup_delete_eq.
  - apply delete_insert_eq.
  - apply delete_insert_eq.
  - intros id' Hne. rewrite lookup_delete_ne by congruence.
    apply lookup_insert_ne. congruence.
  - intros Hnone. apply delete_insert_id. exact Hnone.
Qed.

Lemma fetch_settles_pending_witness :
  API.pendingRequests Scenario.api_after_call !! "req_1" = None /\
  API.pendingRequests
    (API.fetch_then "req_1" Scenario.call_500 550 200 12
       (API.fetch_begin "req_1" Scenario.call_500 Scenario.api_after_call))
  = API.pendingRequests Scenario.api_after_call.
Proof.
  split; [reflexivity|].
  apply (fetch_settles_pending Scenario.api_after_call "req_1"
           Scenario.call_500 550 200 12).
  reflexivity.
Defined.

(** ** TanStackQueryMonitor: passes, log and statistics *)

Lemma query_setLCPTime_unfold (t : Q) (s : Query.state) :
  Query.setLCPTime t s =
  {| Query.heap :=
       Store.for_each (QueryPass.lcp_body t) (Query.queryMetrics s)
                      (Query.heap s);
     Query.queryMetrics := Query.queryMetrics s;
     Query.queryExecutions := Query.queryExecutions s;
     Query.initialized := Query.initialized s;
     Query.lcpTime := Some t;
     Query.inpEvents := Query.inpEvents s |}.
Proof. reflexivity. Qed.

Lemma query_recordINPEvent_unfold (t : Q) (s : Query.state) :
  Query.recordINPEvent t s =
  {| Query.heap :=
       Store.for_each
         (QueryPass.inp_body (JS.map_set_key t (Query.inpEvents s)))
         (Query.queryMetrics s) (Query.heap s);
     Query.queryMetrics := Query.queryMetrics s;
     Query.queryExecutions := Query.queryExecutions s;
     Query.initialized := Query.initialized s;
     Query.lcpTime := Query.lcpTime s;
     Query.inpEvents := JS.map_set_key t (Query.inpEvents s) |}.
Proof. reflexivity. Qed.

Lemma query_lcp_body_idem (t : Q) (x : Query.QueryCacheMetric) :
  QueryPass.lcp_body t (QueryPass.lcp_body t x) = QueryPass.lcp_body t x.
Proof.
  unfold QueryPass.lcp_body.
  destruct x as [k st fs du eu [d|] ct stl bl bi]; simpl; [|reflexivity].
  destruct (JS.truthy d) eqn:Ed; simpl; [|rewrite Ed; reflexivity].
  destruct bl as [[|]|]; simpl; rewrite Ed; simpl; try reflexivity;
    destruct (JS.ltb (du - d) t && JS.ltb t (du - d + d)); reflexivity.
Qed.

Lemma query_inp_body_idem (inp : list Q) (x : Query.QueryCacheMetric) :
  QueryPass.inp_body inp (QueryPass.inp_body inp x) = QueryPass.inp_body inp x.
Proof.
  unfold QueryPass.inp_body.
  destruct x as [k st fs du eu [d|] ct stl bl bi]; simpl; [|reflexivity].
  destruct (JS.truthy d) eqn:Ed; simpl; [|rewrite Ed; reflexivity].
  destruct bi as [[|]|]; simpl; rewrite Ed; simpl; try reflexivity;
    destruct (existsb _ inp); reflexivity.
Qed.

Lemma query_lcp_inp_body_comm (t : Q) (inp : list Q)
    (x : Query.QueryCacheMetric) :
  QueryPass.lcp_body t (QueryPass.inp_body inp x) =
  QueryPass.inp_body inp (QueryPass.lcp_body t x).
Proof.
  unfold QueryPass.lcp_body, QueryPass.inp_body.
  destruct x as [k st fs du eu [d|] ct stl bl bi]; simpl; [|reflexivity].
  destruct (JS.truthy d) eqn:Ed; simpl; [|rewrite Ed; reflexivity].
  destruct bl as [[|]|], bi as [[|]|]; simpl; rewrite ?Ed; reflexivity.
Qed.

(** X7.  On the query monitor too, reporting the same paint instant or
    the same interaction instant twice in a row changes nothing the
    second time, and a paint instant and an interaction instant can be
    reported in either order. *)
Theorem query_instants_idempotent_and_commute
    (s : Query.state) (t u : Q) :
  Query.setLCPTime t (Query.setLCPTime t s) = Query.setLCPTime t s /\
  Query.recordINPEvent u (Query.recordINPEvent u s)
  = Query.recordINPEvent u s /\
  Query.setLCPTime t (Query.recordINPEvent u s) =
  Query.recordINPEvent u (Query.setLCPTime t s).
Proof.
  rewrite !query_setLCPTime_unfold, !query_recordINPEvent_unfold. simpl.
  split; [|split].
  - rewrite for_each_idem by apply query_lcp_body_idem. reflexivity.
  - rewrite map_set_key_idem.
    rewrite for_each_idem by apply query_inp_body_idem. reflexivity.
  - rewrite for_each_comm; [reflexivity| | |].
    + apply query_lcp_body_idem.
    + apply query_inp_body_idem.
    + apply query_lcp_inp_body_comm.
Qed.

(** X8.  A query record without a fetch duration, or with fetch duration
    0, is never touched again: whatever is reported or recorded
    afterwards, the record object stays exactly as it is.  In particular
    the records taken by the initial snapshot of the cache keep their
    blocking flags undefined. *)
Theorem query_record_without_duration_is_frozen
    (ops : list Query.op) (s : Query.state) (r : nat)
    (m : Query.QueryCacheMetric)
    (Hl : Query.heap s !! r = Some m)
    (Hd : JS.truthy_opt (Query.fetchDuration m) = false) :
  Query.heap (Query.run ops s) !! r = Some m.
Proof.
  revert s Hl. induction ops as [|o ops IH]; intros s Hl; [exact Hl|].
  apply IH.
  assert (Hlt : (r < length (Query.heap s))%nat)
    by (eapply lookup_lt_Some; eassumption).
  assert (Hf1 : forall t, QueryPass.lcp_body t m = m).
  { intros t. unfold QueryPass.lcp_body.
    destruct (Query.fetchDuration m) as [d|]; [|reflexivity].
    simpl in Hd. rewrite Hd. reflexivity. }
  assert (Hf2 : forall inp, QueryPass.inp_body inp m = m).
  { intros inp. unfold QueryPass.inp_body.
    destruct (Query.fetchDuration m) as [d|]; [|reflexivity].
    simpl in Hd. rewrite Hd. reflexivity. }
  destruct o; cbn [Query.step].
  - unfold Query.initialize. destruct (Query.initialized s); simpl.
    + exact Hl.
    + rewrite lookup_app_l by assumption. exact Hl.
  - exact Hl.
  - rewrite query_setLCPTime_unfold. simpl.
    rewrite for_each_lookup by apply query_lcp_body_idem.
    rewrite Hl. simpl. destruct (bool_decide _); [rewrite Hf1|]; reflexivity.
  - rewrite query_recordINPEvent_unfold. simpl.
    rewrite for_each_lookup by apply query_inp_body_idem.
    rewrite Hl. simpl. destruct (bool_decide _); [rewrite Hf2|]; reflexivity.
  - exact Hl.
  - unfold Query.handleQueryEvent.
    destruct (negb _); [exact Hl|].
    destruct (Query.e_query event); simpl; [|exact Hl].
    rewrite lookup_app_l by assumption. exact Hl.
Qed.

Lemma query_record_without_duration_is_frozen_witness :
  Query.heap
    (Query.initialize
       [ {| Query.q_key := "todos"; Query.q_fetchStartTime := None;
            Query.q_status := Query.success;
            Query.q_fetchStatus := Query.idle;
            Query.q_dataUpdatedAt := 400; Query.q_errorUpdatedAt := 0;
            Query.q_cacheTime := None; Query.q_staleTime := None |} ]
       Query.init) !! 0%nat
  = Some (Query.snapshot_metric
            {| Query.q_key := "todos"; Query.q_fetchStartTime := None;
               Query.q_status := Query.success;
               Query.q_fetchStatus := Query.idle;
               Query.q_dataUpdatedAt := 400; Query.q_errorUpdatedAt := 0;
               Query.q_cacheTime := None; Query.q_staleTime := None |}) /\
  Query.heap
    (Query.run [Query.SetLCPTime 300; Query.RecordINPEvent 350]
       (Query.initialize
          [ {| Query.q_key := "todos"; Query.q_fetchStartTime := None;
               Query.q_status := Query.success;
               Query.q_fetchStatus := Query.idle;
               Query.q_dataUpdatedAt := 400; Query.q_errorUpdatedAt := 0;
               Query.q_cacheTime := None; Query.q_staleTime := None |} ]
          Query.init)) !! 0%nat
  = Some (Query.snapshot_metric
            {| Query.q_key := "todos"; Query.q_fetchStartTime := None;
               Query.q_status := Query.success;
               Query.q_fetchStatus := Query.idle;
               Query.q_dataUpdatedAt := 400; Query.q_errorUpdatedAt := 0;
               Query.q_cacheTime := None; Query.q_staleTime := None |}).
Proof.
  split; [reflexivity|].
  apply (query_record_without_duration_is_frozen
           [Query.SetLCPTime 300; Query.RecordINPEvent 350]);
    reflexivity.
Defined.

Lemma deref_length {A : Type} (heap : list A) (refs : list nat) :
  (forall r, In r refs -> r < length heap)%nat ->
  length (Store.deref heap refs) = length refs.
Proof.
  unfold Store.deref. induction refs as [|r refs IH]; intros Hb.
  - reflexivity.
  - cbn [omap list_omap].
    destruct (lookup_lt_is_Some_2 heap r (Hb r (or_introl eq_refl)))
      as [x Hx].
    rewrite Hx. simpl. f_equal. apply IH.
    intros r' Hr'. apply Hb. right. exact Hr'.
Qed.

Lemma deref_seq {A : Type} (heap tail : list A) :
  Store.deref (heap ++ tail) (seq (length heap) (length tail)) = tail.
Proof.
  unfold Store.deref. revert heap.
  induction tail as [|x tail IH]; intros heap; [reflexivity|].
  cbn [length seq omap list_omap].
  rewrite list_lookup_middle by reflexivity. f_equal.
  specialize (IH (heap ++ [x])).
  rewrite length_app, <- app_assoc in IH. simpl in IH.
  rewrite Nat.add_1_r in IH. exact IH.
Qed.

Lemma deref_weaken_app {A : Type} (heap tail : list A) (refs : list nat) :
  (forall r, In r refs -> r < length heap)%nat ->
  Store.deref (heap ++ tail) refs = Store.deref heap refs.
Proof.
  intros Hb. unfold Store.deref.
  induction refs as [|r refs IH]; [reflexivity|].
  cbn [omap list_omap].
  rewrite lookup_app_l by (apply Hb; left; reflexivity).
  rewrite IH by (intros r' Hr'; apply Hb; right; assumption).
  reflexivity.
Qed.

Lemma deref_app {A : Type} (heap : list A) (r1 r2 : list nat) :
  Store.deref heap (r1 ++ r2) = Store.deref heap r1 ++ Store.deref heap r2.
Proof. unfold Store.deref. apply omap_app. Qed.

Lemma query_wf_init : Pass.query_wf Query.init.
Proof. intros r []. Qed.

Lemma query_wf_step (s : Query.state) (o : Query.op) :
  Pass.query_wf s -> Pass.query_wf (Query.step s o).
Proof.
  intros Hw. destruct o; cbn [Query.step].
  - unfold Query.initialize. destruct (Query.initialized s); [exact Hw|].
    intros r Hin. simpl in *. rewrite length_app, length_map.
    apply in_app_or in Hin as [Hin|Hin].
    + specialize (Hw r Hin). lia.
    + apply in_seq in Hin. lia.
  - exact Hw.
  - rewrite query_setLCPTime_unfold. intros r Hin. simpl in *.
    rewrite for_each_length. auto.
  - rewrite query_recordINPEvent_unfold. intros r Hin. simpl in *.
    rewrite for_each_length. auto.
  - intros r [].
  - unfold Query.handleQueryEvent. destruct (negb _); [exact Hw|].
    destruct (Query.e_query event) as [q|]; [|exact Hw].
    intros r Hin. simpl in *. rewrite length_app. simpl.
    apply in_app_or in Hin as [Hin|[<-|[]]]; [|lia].
    specialize (Hw r Hin). lia.
Qed.

Lemma query_wf_run (ops : list Query.op) (s : Query.state) :
  Pass.query_wf s -> Pass.query_wf (Query.run ops s).
Proof.
  revert s. induction ops as [|o ops IH]; intros s Hw; [exact Hw|].
  apply IH, query_wf_step, Hw.
Qed.

Lemma query_initialize_metrics (queries : list Query.RawQuery)
    (s : Query.state) :
  Pass.query_wf s ->
  Query.getQueryMetrics (Query.initialize queries s)
  = if Query.initialized s then Query.getQueryMetrics s
    else Query.getQueryMetrics s ++ map Query.snapshot_metric queries.
Proof.
  intros Hw. unfold Query.getQueryMetrics, Query.metrics, Query.initialize.
  destruct (Query.initialized s); [reflexivity|]. simpl.
  rewrite deref_app, deref_weaken_app by exact Hw.
  f_equal. rewrite <- (length_map Query.snapshot_metric queries).
  apply deref_seq.
Qed.

(** X9.  On a query monitor driven from its initial state: a first
    [initialize] appends one record per entry of the client's cache, in
    cache order, without fetch duration and without flags, and a further
    [initialize] is a no-op; an 'updated' notification that carries a
    query appends exactly one record; any other notification, or one
    without a query, leaves the monitor as it is. *)
Theorem query_log_appends (ops : list Query.op) :
  let s := Query.run ops Query.init in
  (forall queries,
     Query.getQueryMetrics (Query.initialize queries s)
     = if Query.initialized s then Query.getQueryMetrics s
       else Query.getQueryMetrics s ++ map Query.snapshot_metric queries) /\
  (forall queries queries',
     Query.initialize queries' (Query.initialize queries s)
     = Query.initialize queries s) /\
  (forall now1 now2 q,
     Query.getQueryMetrics
       (Query.handleQueryEvent now1 now2
          {| Query.e_type := "updated"; Query.e_query := Some q |} s)
     = Query.getQueryMetrics s ++ [Query.mk_metric now1 now2 s q]) /\
  (forall now1 now2 ty,
     Query.handleQueryEvent now1 now2
       {| Query.e_type := ty; Query.e_query := None |} s = s) /\
  (forall now1 now2 ty q,
     String.eqb ty "updated" = false ->
     Query.handleQueryEvent now1 now2
       {| Query.e_type := ty; Query.e_query := q |} s = s).
Proof.
  intros s.
  assert (Hw : Pass.query_wf s) by apply query_wf_run, query_wf_init.
  split; [|split; [|split; [|split]]].
  - intros queries. apply query_initialize_metrics, Hw.
  - intros queries queries'. unfold Query.initialize.
    destruct (Query.initialized s) eqn:E; [rewrite E|]; reflexivity.
  - intros now1 now2 q. unfold Query.getQueryMetrics, Query.metrics.
    simpl. apply deref_snoc. exact Hw.
  - intros now1 now2 ty. unfold Query.handleQueryEvent. simpl.
    destruct (negb _); reflexivity.
  - intros now1 now2 ty q E. unfold Query.handleQueryEvent. simpl.
    rewrite E. reflexivity.
Qed.

Lemma query_log_appends_witness :
  String.eqb "removed" "updated" = false /\
  Query.handleQueryEvent 10 10
    {| Query.e_type := "removed";
       Query.e_query := Query.e_query Scenario.refetch_event |}
    (Query.run [Query.SetLCPTime 250] Query.init)
  = Query.run [Query.SetLCPTime 250] Query.init.
Proof.
  split; [reflexivity|].
  destruct (query_log_appends [Query.SetLCPTime 250])
    as (_ & _ & _ & _ & H).
  apply H. reflexivity.
Defined.

(** ** The cache-hit rate is never positive *)

Lemma query_executions_le_step (s : Query.state) (o : Query.op) :
  (Ref.executions s <= length (Query.queryMetrics s))%nat ->
  (Ref.executions (Query.step s o)
   <= length (Query.queryMetrics (Query.step s o)))%nat.
Proof.
  intros H. destruct o; cbn [Query.step].
  - unfold Query.initialize. destruct (Query.initialized s); [exact H|].
    unfold Ref.executions in *. simpl. rewrite length_app. lia.
  - exact H.
  - exact H.
  - exact H.
  - unfold Ref.executions. simpl. lia.
  - unfold Query.handleQueryEvent. destruct (negb _); [exact H|].
    destruct (Query.e_query event) as [q|]; [|exact H].
    unfold Ref.executions in *. simpl. rewrite length_app. simpl.
    match goal with
    | |- context [Query.exec_set ?k ?v ?m] =>
        pose proof (exec_set_sum k v m) as Hs
    end.
    destruct (Query.exec_get (Query.q_key q) (Query.queryExecutions s));
      simpl in Hs |- *; lia.
Qed.

Lemma query_executions_le_run (ops : list Query.op) (s : Query.state) :
  (Ref.executions s <= length (Query.queryMetrics s))%nat ->
  (Ref.executions (Query.run ops s)
   <= length (Query.queryMetrics (Query.run ops s)))%nat.
Proof.
  revert s. induction ops as [|o ops IH]; intros s H; [exact H|].
  apply IH, query_executions_le_step, H.
Qed.

(** X10.  On a query monitor driven from its initial state the total of
    the execution counters never exceeds the number of stored records,
    so the reported cache-hit rate is never positive: it is 0 or
    negative, whatever the cache did. *)
Theorem cache_hit_rate_never_positive (ops : list Query.op) (now : Q) :
  let s := Query.run ops Query.init in
  (Ref.executions s <= Query.totalQueries (Query.getQueryCacheStats now s))%nat
  /\ Query.cacheHitRate (Query.getQueryCacheStats now s) <= 0.
Proof.
  intros s.
  assert (Hw : Pass.query_wf s) by apply query_wf_run, query_wf_init.
  assert (Hle : (Ref.executions s <= length (Query.queryMetrics s))%nat).
  { apply query_executions_le_run. unfold Ref.executions. simpl. lia. }
  assert (Hlen : length (Query.metrics s) = length (Query.queryMetrics s))
    by (apply deref_length, Hw).
  assert (HE : Query.totalExecutions s = Ref.executions s).
  { unfold Query.totalExecutions, Ref.executions.
    rewrite fold_left_count_acc. reflexivity. }
  split.
  - simpl. rewrite Hlen. exact Hle.
  - unfold Query.getQueryCacheStats. simpl. rewrite HE, Hlen.
    destruct (0 <? Ref.executions s)%nat eqn:E; [|apply Qle_refl].
    apply Nat.ltb_lt in E.
    apply Qle_shift_div_r.
    + unfold Query.nat_to_Q. rewrite <- (Zlt_Qlt 0). lia.
    + rewrite Qmult_0_l. unfold Query.nat_to_Q.
      assert (H : inject_Z (Z.of_nat (Ref.executions s))
                  <= inject_Z (Z.of_nat (length (Query.queryMetrics s)))).
      { rewrite <- Zle_Qle. lia. }
      lra.
Qed.

(** X11.  [slowestQueries] and [mostFrequentQueries] are top-10
    selections: the first is taken from the stored records that have a
    fetch duration, by descending duration; the second from the
    per-key execution counters, by descending count; equal keys stay in
    log (respectively insertion) order and neither list has more than
    ten entries. *)
Theorem query_top_lists (now : Q) (s : Query.state) :
  let stats := Query.getQueryCacheStats now s in
  Ref.top_k (fun q => JS.or_default (Query.fetchDuration q) 0) 10
    (List.filter Query.has_duration (Query.getQueryMetrics s))
    (Query.slowestQueries stats) /\
  Forall (fun q => Query.fetchDuration q <> None)
         (Query.slowestQueries stats) /\
  (length (Query.slowestQueries stats) <= 10)%nat /\
  Ref.top_k (fun kc => Query.nat_to_Q (snd kc)) 10
    (map (fun kv => (fst kv, Query.count (snd kv))) (Query.queryExecutions s))
    (Query.mostFrequentQueries stats) /\
  (length (Query.mostFrequentQueries stats) <= 10)%nat.
Proof.
  intros stats.
  pose proof (slice_sort_top_k
                (fun q => JS.or_default (Query.fetchDuration q) 0) 10
                (List.filter Query.has_duration (Query.getQueryMetrics s)))
    as H1.
  pose proof (slice_sort_top_k
                (fun kc : string * nat => Query.nat_to_Q (snd kc)) 10
                (map (fun kv => (fst kv, Query.count (snd kv)))
                     (Query.queryExecutions s))) as H2.
  split; [exact H1|]. split; [|split; [|split; [exact H2|]]].
  - destruct H1 as (sorted & Hp & _ & _ & Hout & _).
    change (Forall (fun q => Query.fetchDuration q <> None)
              (JS.slice0 10
                 (JS.sort
                    (fun a b => JS.or_default (Query.fetchDuration b) 0
                                - JS.or_default (Query.fetchDuration a) 0)
                    (List.filter Query.has_duration
                                 (Query.getQueryMetrics s))))).
    rewrite Hout. apply Forall_take.
    apply Forall_forall. intros q Hq.
    apply list_elem_of_In in Hq.
    apply (Permutation_in _ Hp) in Hq.
    apply filter_In in Hq as [_ Hq]. unfold Query.has_duration in Hq.
    destruct (Query.fetchDuration q); [discriminate|discriminate Hq].
  - unfold stats, Query.getQueryCacheStats, JS.slice0. simpl.
    apply firstn_le_length.
  - unfold stats, Query.getQueryCacheStats, JS.slice0. simpl.
    apply firstn_le_length.
Qed.

(** ** LoAFMonitor *)

Lemma max0_nonneg (x : Q) : 0 <= JS.max0 x.
Proof. unfold JS.max0. apply Q.le_max_l. Qed.

Lemma max0_below (x : Q) : x <= 0 -> JS.max0 x == 0.
Proof. intros H. unfold JS.max0. apply Q.max_l. exact H. Qed.

Lemma Qsum_nonneg (l : list Q) : Forall (fun x => 0 <= x) l -> 0 <= Ref.Qsum l.
Proof.
  induction 1 as [|x l Hx _ IH]; simpl; [apply Qle_refl|]. lra.
Qed.

Lemma tbt_as_sum (s : LoAF.state) :
  LoAF.getTotalBlockingTime s ==
  Ref.Qsum (map (fun f => JS.max0 (LoAF.duration f - 50)) (LoAF.frames s)).
Proof.
  unfold LoAF.getTotalBlockingTime.
  rewrite (fold_left_Qplus_acc
             (fun f => JS.max0 (LoAF.duration f - 50)) (LoAF.frames s) 0).
  lra.
Qed.

Lemma tbt_nonneg (s : LoAF.state) : 0 <= LoAF.getTotalBlockingTime s.
Proof.
  rewrite tbt_as_sum. apply Qsum_nonneg. apply Forall_forall. intros x Hx.
  apply list_elem_of_In, in_map_iff in Hx as (f & <- & _).
  apply max0_nonneg.
Qed.

(** X12.  The total blocking time is never negative, and frames shorter
    than 50ms contribute nothing to it: it is the same as the total over
    [getFramesAboveThreshold(50)]. *)
Theorem total_blocking_time_above_threshold (s : LoAF.state) :
  0 <= LoAF.getTotalBlockingTime s /\
  LoAF.getTotalBlockingTime s ==
  LoAF.getTotalBlockingTime
    {| LoAF.frames := LoAF.getFramesAboveThreshold 50 s;
       LoAF.initialized := LoAF.initialized s |}.
Proof.
  split; [apply tbt_nonneg|]. rewrite !tbt_as_sum.
  - unfold LoAF.getFramesAboveThreshold. simpl.
    induction (LoAF.frames s) as [|f fs IH]; [reflexivity|].
    cbn [map List.filter Ref.Qsum].
    destruct (Qle_bool 50 (LoAF.duration f)) eqn:E.
    + cbn [map Ref.Qsum]. rewrite IH. reflexivity.
    + rewrite <- IH.
      assert (H : LoAF.duration f - 50 <= 0).
      { destruct (Qlt_le_dec (LoAF.duration f) 50) as [Hlt|Hge]; [lra|].
        apply Qle_bool_iff in Hge. congruence. }
      rewrite (max0_below _ H). lra.
Qed.

(** X13.  When every frame came through the long-task fallback, the
    stored blocking durations add up to the total blocking time, each
    frame carries exactly one synthetic script spanning the whole frame,
    and there is one frame per entry, in arrival order. *)
Theorem long_task_path_blocking_durations (entries : list LoAF.RawLongTask) :
  let s := foldl (fun s e => LoAF.handleLongTaskEntry e s) LoAF.init entries in
  map LoAF.duration (LoAF.getFrames s) = map LoAF.t_duration entries /\
  Ref.Qsum (map LoAF.blockingDuration (LoAF.getFrames s))
  == LoAF.getTotalBlockingTime s /\
  Forall (fun f => exists sc, LoAF.scripts f = [sc] /\
                    LoAF.s_duration sc = LoAF.duration f /\
                    LoAF.executionStart sc = LoAF.startTime f)
         (LoAF.getFrames s).
Proof.
  intros s.
  assert (HA : forall es s0,
            map LoAF.duration
              (LoAF.frames
                 (foldl (fun s e => LoAF.handleLongTaskEntry e s) s0 es))
            = map LoAF.duration (LoAF.frames s0) ++ map LoAF.t_duration es).
  { induction es as [|e es IH]; intros s0; simpl.
    - rewrite app_nil_r. reflexivity.
    - rewrite IH. simpl. rewrite map_app, <- app_assoc. reflexivity. }
  assert (HB : forall (P : LoAF.LongAnimationFrameEntry -> Prop),
            (forall e s0, Forall P (LoAF.frames s0) ->
                          Forall P (LoAF.frames
                                      (LoAF.handleLongTaskEntry e s0))) ->
            forall es s0, Forall P (LoAF.frames s0) ->
              Forall P (LoAF.frames
                          (foldl (fun s e => LoAF.handleLongTaskEntry e s)
                                 s0 es))).
  { intros P HP. induction es as [|e es IH]; intros s0 H0; simpl; auto. }
  unfold LoAF.getFrames. split; [|split].
  - apply (HA entries LoAF.init).
  - rewrite tbt_as_sum. fold s.
    assert (HF : Forall (fun f => LoAF.blockingDuration f
                                  = JS.max0 (LoAF.duration f - 50))
                        (LoAF.frames s)).
    { apply HB; [|constructor]. intros e s0 H0. simpl.
      apply Forall_app. split; [exact H0|]. constructor; [reflexivity|].
      constructor. }
    induction HF as [|f fs Hf _ IH]; simpl; [reflexivity|].
    rewrite Hf, IH. reflexivity.
  - apply HB; [|constructor]. intros e s0 H0. simpl.
    apply Forall_app. split; [exact H0|]. constructor; [|constructor].
    eexists. repeat split; reflexivity.
Qed.

(** *** The worst-scripts ranking *)







(** ** WebVitalsMonitor *)

Lemma getLatestMetric_last (n : WebVitals.MetricName) (s : WebVitals.state) :
  WebVitals.getLatestMetric n s =
  last (List.filter (fun m => WebVitals.MetricName_eqb (WebVitals.name m) n)
                    (WebVitals.metrics s)).
Proof.
  unfold WebVitals.getLatestMetric.
  generalize (List.filter
                (fun m => WebVitals.MetricName_eqb (WebVitals.name m) n)
                (WebVitals.metrics s)).
  intros l. destruct l as [|x l] using rev_ind; [reflexivity|].
  rewrite length_app, last_snoc. simpl.
  replace (0 <? length l + 1)%nat with true
    by (symmetry; apply Nat.ltb_lt; lia).
  replace (length l + 1 - 1)%nat with (length l) by lia.
  apply list_lookup_middle. reflexivity.
Qed.

(** X15.  [getLatestMetric(name)] answers the revision stored last under
    that name: right after [storeMetric(m)] it is [m] for [m]'s own name
    and unchanged for every other name; it is [null] on a monitor that
    holds no revision of the name, in particular after [clear()]; and
    what it returns always carries the requested name. *)
Theorem latest_metric_is_last_stored
    (s : WebVitals.state) (m : WebVitals.EnhancedWebVitalsMetric)
    (n : WebVitals.MetricName) :
  WebVitals.getLatestMetric n (WebVitals.storeMetric m s)
  = (if WebVitals.MetricName_eqb (WebVitals.name m) n
     then Some m else WebVitals.getLatestMetric n s) /\
  WebVitals.getLatestMetric n (WebVitals.clear s) = None /\
  (forall x, WebVitals.getLatestMetric n s = Some x ->
             WebVitals.name x = n /\ In x (WebVitals.getMetrics s)) /\
  (WebVitals.getLatestMetric n s = None <->
   forall x, In x (WebVitals.getMetrics s) -> WebVitals.name x <> n).
Proof.
  assert (Heqb : forall a b, WebVitals.MetricName_eqb a b = true <-> a = b).
  { intros a b. destruct a, b; simpl; split; congruence. }
  rewrite !getLatestMetric_last. split; [|split; [reflexivity|split]].
  - simpl. rewrite List.filter_app. simpl.
    destruct (WebVitals.MetricName_eqb (WebVitals.name m) n).
    + apply last_snoc.
    + rewrite app_nil_r. reflexivity.
  - intros x Hx. apply last_Some in Hx as (l' & Hl').
    assert (Hin : In x (List.filter
                          (fun m => WebVitals.MetricName_eqb
                                      (WebVitals.name m) n)
                          (WebVitals.metrics s))).
    { rewrite Hl'. apply in_or_app. right. left. reflexivity. }
    apply filter_In in Hin as [Hin Hn]. split; [|exact Hin].
    apply Heqb. exact Hn.
  - split.
    + intros Hnone x Hin Hn.
      assert (Hf : In x (List.filter
                           (fun m => WebVitals.MetricName_eqb
                                       (WebVitals.name m) n)
                           (WebVitals.metrics s))).
      { apply filter_In. split; [exact Hin|]. apply Heqb. exact Hn. }
      destruct (List.filter _ (WebVitals.metrics s)) as [|y l] eqn:E;
        [destruct Hf|].
      assert (Hne : y :: l <> []) by discriminate.
      apply exists_last in Hne as (l' & z & Hz). rewrite Hz in Hnone.
      rewrite last_snoc in Hnone. discriminate.
    + intros Hall.
      destruct (List.filter _ (WebVitals.metrics s)) as [|y l] eqn:E;
        [reflexivity|].
      assert (Hy : In y (List.filter
                           (fun m => WebVitals.MetricName_eqb
                                       (WebVitals.name m) n)
                           (WebVitals.metrics s)))
        by (rewrite E; left; reflexivity).
      apply filter_In in Hy as [Hy Hn]. apply Heqb in Hn.
      exfalso. exact (Hall y Hy Hn).
Qed.

(** ** The hydration markers *)

(** X16.  With a hydration start in effect, [markHydrationEnd] records
    the interval from that start to the clock reading and keeps the start
    (a later [markHydrationEnd] measures from the same start again); the
    latest paint metric, when there is one, is filed under exactly one
    of "before hydration" (it arrived strictly before the end) and
    "after hydration" (it arrived at or after the end), and under
    neither when there is none. *)
Theorem hydration_end_records_interval
    (now : Q) (componentCount : option Q) (g : Session.Globals)
    (p : Session.PerformanceMonitor) (start : Q)
    (Hs : Session.hydrationStartTime p = Some start) :
  let p' := Session.markHydrationEnd now componentCount g p in
  Session.hydrationStartTime p' = Some start /\
  exists h,
    Session.hydrationMetric p' = Some h /\
    Session.startTime h = start /\ Session.endTime h = now /\
    Session.duration h = now - start /\
    Session.h_framework h = Session.framework p /\
    match WebVitals.getLatestMetric WebVitals.LCP (Session.webVitalsMonitor g)
    with
    | None =>
        Session.lcpBeforeHydration h = None /\
        Session.lcpAfterHydration h = None
    | Some m =>
        (WebVitals.timestamp m < now /\
         Session.lcpBeforeHydration h = Some (WebVitals.value m) /\
         Session.lcpAfterHydration h = None) \/
        (now <= WebVitals.timestamp m /\
         Session.lcpBeforeHydration h = None /\
         Session.lcpAfterHydration h = Some (WebVitals.value m))
    end.
Proof.
  intros p'. subst p'. unfold Session.markHydrationEnd. rewrite Hs. simpl.
  split; [reflexivity|]. eexists. split; [reflexivity|].
  simpl. repeat split.
  destruct (WebVitals.getLatestMetric WebVitals.LCP
              (Session.webVitalsMonitor g)) as [m|]; [|split; reflexivity].
  destruct (JS.ltb (WebVitals.timestamp m) now) eqn:E.
  - left. split; [apply ltb_lt, E|]. split; [reflexivity|].
    destruct (Qle_bool now (WebVitals.timestamp m)) eqn:E'; [|reflexivity].
    apply Qle_bool_iff in E'. apply ltb_lt in E. lra.
  - right. apply ltb_ge in E. split; [exact E|]. split; [reflexivity|].
    apply Qle_bool_iff in E. rewrite E. reflexivity.
Qed.

Lemma hydration_end_records_interval_witness :
  Session.hydrationStartTime
    (Session.markHydrationStart 5
       (Session.constructor "session_1" 1000 Session.react)) = Some 5 /\
  Session.hydrationStartTime
    (Session.markHydrationEnd 9 (Some 3) Session.globals_init
       (Session.markHydrationStart 5
          (Session.constructor "session_1" 1000 Session.react))) = Some 5.
Proof.
  split; [reflexivity|].
  apply (hydration_end_records_interval 9 (Some 3) Session.globals_init
           (Session.markHydrationStart 5
              (Session.constructor "session_1" 1000 Session.react))
           5 eq_refl).
Defined.

(** ** The session snapshot *)

Lemma filter_length_le {A : Type} (f : A -> bool) (l : list A) :
  (length (List.filter f l) <= length l)%nat.
Proof.
  induction l as [|x l IH]; simpl; [lia|].
  destruct (f x); simpl; lia.
Qed.

(** X17.  In every snapshot the summary is consistent with the logs it
    comes with: the blocking-resource count does not exceed the resource
    count, the total blocking time is not negative, the query figures of
    the summary are present exactly when the query-cache section is, and
    then repeat its figures; the section itself never reports more
    active, stale or errored queries than queries. *)
Theorem snapshot_summary_consistent
    (env : Session.Env) (now : Q) (g : Session.Globals)
    (p : Session.PerformanceMonitor) :
  let snap := Session.getPerformanceSession env now g p in
  let sm := Session.summary snap in
  Session.totalResources sm = length (Session.resources snap) /\
  (Session.blockingResources sm <= Session.totalResources sm)%nat /\
  Session.apiCallCount sm = length (Session.apiCalls snap) /\
  Session.longFrameCount sm = length (Session.longFrames snap) /\
  0 <= Session.totalBlockingTime sm /\
  match Session.queryCache snap with
  | None =>
      Session.queryClientInitialized p = false /\
      Session.queryCount sm = None /\
      Session.queryCacheHitRate sm = None /\
      Session.averageQueryDuration sm = None
  | Some q =>
      Session.queryClientInitialized p = true /\
      Session.queryCount sm = Some (Query.totalQueries q) /\
      Session.queryCacheHitRate sm = Some (Query.cacheHitRate q) /\
      Session.averageQueryDuration sm = Some (Query.averageFetchDuration q) /\
      (Query.activeQueries q <= Query.totalQueries q)%nat /\
      (Query.staleQueries q <= Query.totalQueries q)%nat /\
      (Query.erroredQueries q <= Query.totalQueries q)%nat
  end.
Proof.
  simpl. split; [reflexivity|]. split; [apply filter_length_le|].
  split; [reflexivity|]. split; [reflexivity|].
  split; [apply tbt_nonneg|].
  destruct (Session.queryClientInitialized p); simpl.
  - repeat split; apply filter_length_le.
  - repeat split.
Qed.

(** X18.  The monitors are shared by all facade instances: after
    [clear()] on one instance, the snapshot of any other instance has
    empty logs and all log-derived figures at 0 as well, while that other
    instance keeps its own hydration record, identifier and start
    time. *)
Theorem clear_empties_every_instance
    (env : Session.Env) (now : Q) (g : Session.Globals)
    (p other : Session.PerformanceMonitor) :
  let g' := fst (Session.clear (g, p)) in
  let snap := Session.getPerformanceSession env now g' other in
  Session.webVitals snap = [] /\
  Session.resources snap = [] /\
  Session.longFrames snap = [] /\
  Session.apiCalls snap = [] /\
  Session.totalResources (Session.summary snap) = 0%nat /\
  Session.blockingResources (Session.summary snap) = 0%nat /\
  Session.totalTransferSize (Session.summary snap) = 0 /\
  Session.averageCompressionRatio (Session.summary snap) = 0 /\
  Session.apiCallCount (Session.summary snap) = 0%nat /\
  Session.averageApiLatency (Session.summary snap) = 0 /\
  Session.longFrameCount (Session.summary snap) = 0%nat /\
  Session.totalBlockingTime (Session.summary snap) = 0 /\
  Session.hydration snap = Session.hydrationMetric other /\
  Session.s_sessionId snap = Session.sessionId other /\
  Session.s_timestamp snap = Session.sessionStartTime other.
Proof. simpl. repeat split. Qed.

(** ** The registry *)

(** X19.  [getPerformanceMonitor] creates the instance of a framework on
    first use and hands out that same instance ever after, without
    touching the registry again; asking for one framework never changes
    what is registered for another, and no entry is ever removed. *)
Theorem registry_is_lazy_and_stable
    (id id' : string) (now now' : Q) (fw fw' : Session.Framework)
    (instances : gmap string Session.PerformanceMonitor) :
  let r1 := Registry.getPerformanceMonitor id now fw instances in
  let r2 := Registry.getPerformanceMonitor id' now' fw (fst r1) in
  fst r1 !! Registry.key fw = Some (snd r1) /\
  r2 = r1 /\
  (instances !! Registry.key fw = None ->
   snd r1 = Session.constructor id now fw) /\
  (fw' <> fw ->
   fst r1 !! Registry.key fw' = instances !! Registry.key fw') /\
  (forall k, is_Some (instances !! k) -> is_Some (fst r1 !! k)).
Proof.
  intros r1 r2.
  assert (Hkey : forall a b, Registry.key a = Registry.key b -> a = b).
  { intros [] []; simpl; congruence. }
  assert (H1 : fst r1 !! Registry.key fw = Some (snd r1)).
  { subst r1. unfold Registry.getPerformanceMonitor.
    destruct (instances !! Registry.key fw) eqn:E; simpl.
    - exact E.
    - apply lookup_insert_eq. }
  split; [exact H1|]. split; [|split; [|split]].
  - subst r2. unfold Registry.getPerformanceMonitor at 1. rewrite H1.
    destruct r1; reflexivity.
  - intros Hnone. subst r1. unfold Registry.getPerformanceMonitor.
    rewrite Hnone. reflexivity.
  - intros Hne. subst r1. unfold Registry.getPerformanceMonitor.
    destruct (instances !! Registry.key fw) eqn:E; simpl; [reflexivity|].
    apply lookup_insert_ne. intros Hk. apply Hne. symmetry.
    apply Hkey. exact Hk.
  - intros k Hk. subst r1. unfold Registry.getPerformanceMonitor.
    destruct (instances !! Registry.key fw) eqn:E; simpl; [exact Hk|].
    destruct (decide (Registry.key fw = k)) as [<-|Hne].
    + rewrite lookup_insert_eq. eauto.
    + rewrite lookup_insert_ne by exact Hne. exact Hk.
Qed.

Lemma registry_is_lazy_and_stable_witness :
  (∅ : gmap string Session.PerformanceMonitor)
    !! Registry.key Session.react = None /\
  Session.vue <> Session.react /\
  snd (Registry.getPerformanceMonitor "session_1" 1000 Session.react ∅)
  = Session.constructor "session_1" 1000 Session.react /\
  fst (Registry.getPerformanceMonitor "session_1" 1000 Session.react ∅)
    !! Registry.key Session.vue = None.
Proof.
  split; [reflexivity|]. split; [discriminate|].
  destruct (registry_is_lazy_and_stable "session_1" "session_2" 1000 2000
              Session.react Session.vue ∅) as (_ & _ & H3 & H4 & _).
  split.
  - apply H3. reflexivity.
  - rewrite H4 by discriminate. reflexivity.
Defined.

(** ** MarkdownReporter *)

Lemma merge_include_all (options : option Reporter.ReportOptions) :
  Reporter.maxResources (Reporter.merge (Reporter.include_all options))
  = Reporter.maxResources (Reporter.merge options) /\
  Reporter.maxLongFrames (Reporter.merge (Reporter.include_all options))
  = Reporter.maxLongFrames (Reporter.merge options) /\
  Reporter.maxApiCalls (Reporter.merge (Reporter.include_all options))
  = Reporter.maxApiCalls (Reporter.merge options) /\
  Reporter.customTitle (Reporter.merge (Reporter.include_all options))
  = Reporter.customTitle (Reporter.merge options).
Proof.
  destruct options as [[r l a q [mr|] [ml|] [ma|] [t|]]|]; simpl;
    repeat split; reflexivity.
Qed.

Lemma sublist_guard {A : Type} (a b : bool) (x : A) :
  (if a && b then [x] else []) `sublist_of` (if b then [x] else []).
Proof. destruct a, b; simpl; try reflexivity. apply sublist_nil_l. Qed.

(** X20.  A report always starts with the header, the summary and the
    vitals section and ends with the footer, with at most six sections in
    between; the options can only leave sections out: what is rendered
    is what would be rendered with every optional section switched on,
    possibly with some sections missing, in the same order; and for a
    session without navigation entry, hydration record, log entries or
    query cache the report has exactly those four sections whatever the
    options. *)
Theorem report_sections_keep_their_order
    (G : Reporter.Generators) (session : Session.PerformanceSession)
    (options : option Reporter.ReportOptions) :
  (exists middle,
     Reporter.sections G session options
     = Reporter.generateHeader G session
         (Reporter.customTitle (Reporter.merge options))
       :: Reporter.generateSummary G session
       :: Reporter.generateWebVitals G (Session.webVitals session)
       :: middle ++ [Reporter.generateFooter G] /\
     (length middle <= 6)%nat) /\
  Reporter.sections G session options
    `sublist_of` Reporter.sections G session (Reporter.include_all options) /\
  (Session.navigation session = None ->
   Session.hydration session = None ->
   Session.resources session = [] ->
   Session.longFrames session = [] ->
   Session.apiCalls session = [] ->
   Session.queryCache session = None ->
   Reporter.sections G session options
   = [Reporter.generateHeader G session
        (Reporter.customTitle (Reporter.merge options));
      Reporter.generateSummary G session;
      Reporter.generateWebVitals G (Session.webVitals session);
      Reporter.generateFooter G]).
Proof.
  split; [|split].
  - unfold Reporter.sections. cbv zeta. simpl.
    eexists. split.
    + do 3 f_equal. rewrite !app_assoc. reflexivity.
    + rewrite !length_app.
      destruct (Session.navigation session), (Session.hydration session),
        (Session.queryCache session);
        repeat match goal with
               | |- context [if ?b then _ else _] => destruct b
               end; simpl; lia.
  - destruct (merge_include_all options) as (E1 & E2 & E3 & E4).
    unfold Reporter.sections. cbv zeta. rewrite E1, E2, E3, E4.
    change (Reporter.is_true
              (Reporter.includeResources
                 (Reporter.merge (Reporter.include_all options))))
      with true.
    change (Reporter.is_true
              (Reporter.includeLongFrames
                 (Reporter.merge (Reporter.include_all options))))
      with true.
    change (Reporter.is_true
              (Reporter.includeApiCalls
                 (Reporter.merge (Reporter.include_all options))))
      with true.
    change (Reporter.is_true
              (Reporter.includeQueryCache
                 (Reporter.merge (Reporter.include_all options))))
      with true.
    cbn [andb].
    repeat (apply sublist_app;
            [first [reflexivity | apply sublist_guard | idtac]|]);
      try reflexivity.
    destruct (Session.queryCache session); [|reflexivity].
    destruct (Reporter.is_true _); [reflexivity|apply sublist_nil_l].
  - intros H1 H2 H3 H4 H5 H6. unfold Reporter.sections. cbv zeta.
    rewrite H1, H2, H3, H4, H5, H6. simpl.
    rewrite !andb_false_r. reflexivity.
Qed.

Lemma report_sections_keep_their_order_witness :
  Session.navigation ReportScenario.empty_snapshot = None /\
  Session.hydration ReportScenario.empty_snapshot = None /\
  Session.resources ReportScenario.empty_snapshot = [] /\
  Session.longFrames ReportScenario.empty_snapshot = [] /\
  Session.apiCalls ReportScenario.empty_snapshot = [] /\
  Session.queryCache ReportScenario.empty_snapshot = None /\
  Reporter.sections ReportScenario.titles ReportScenario.empty_snapshot None
  = ["# Performance Report"; "## Summary"; "## Core Web Vitals"; "---"].
Proof.
  repeat (split; [reflexivity|]).
  destruct (report_sections_keep_their_order ReportScenario.titles
              ReportScenario.empty_snapshot None) as (_ & _ & H).
  exact (H eq_refl eq_refl eq_refl eq_refl eq_refl eq_refl).
Defined.

Lemma substring_prefix_length (n : nat) (s : string) :
  String.length (String.substring 0 n s) = Nat.min n (String.length s).
Proof.
  revert s. induction n as [|n IH]; intros s.
  - destruct s; reflexivity.
  - destruct s as [|c s]; simpl; [reflexivity|]. rewrite IH. reflexivity.
Qed.

Lemma append_length (a b : string) :
  String.length (String.append a b) = (String.length a + String.length b)%nat.
Proof. induction a as [|c a IH]; simpl; [reflexivity|]. rewrite IH. reflexivity. Qed.

(** X21.  [truncateUrl] returns a short enough string unchanged, and
    otherwise a string of at most [maxLength] characters, provided
    [maxLength] is at least 3 (the length of the ellipsis); whatever
    [maxLength], the result is never longer than the larger of
    [maxLength] and 3. *)
Theorem truncateUrl_fits
    (parseUrl : string -> option (string * string)) (url : string)
    (maxLength : Z) :
  ((Z.of_nat (String.length url) <= maxLength)%Z ->
   Reporter.truncateUrl parseUrl url maxLength = url) /\
  (Z.of_nat (String.length (Reporter.truncateUrl parseUrl url maxLength))
   <= Z.max maxLength 3)%Z /\
  ((3 <= maxLength)%Z ->
   (Z.of_nat (String.length (Reporter.truncateUrl parseUrl url maxLength))
    <= maxLength)%Z).
Proof.
  assert (Hgen : (Z.of_nat (String.length
                              (Reporter.truncateUrl parseUrl url maxLength))
                  <= Z.max maxLength 3)%Z).
  { unfold Reporter.truncateUrl.
    destruct (Z.of_nat (String.length url) <=? maxLength)%Z eqn:E.
    - apply Z.leb_le in E. lia.
    - destruct (parseUrl url) as [[pathname search]|].
      + destruct (Z.of_nat (String.length
                              (String.append pathname search))
                  <=? maxLength)%Z eqn:E'.
        * apply Z.leb_le in E'. lia.
        * rewrite append_length, substring_prefix_length. simpl. lia.
      + rewrite append_length, substring_prefix_length. simpl. lia. }
  split; [|split].
  - intros H. unfold Reporter.truncateUrl.
    apply Z.leb_le in H. rewrite H. reflexivity.
  - exact Hgen.
  - intros H. lia.
Qed.

Lemma truncateUrl_fits_witness :
  (3 <= 20)%Z /\
  Reporter.truncateUrl ReportScenario.parse_example
    "https://cdn.example.com/assets/app.js?v=1" 20 = "/assets/app.js?v=1" /\
  Reporter.truncateUrl ReportScenario.parse_example
    "https://cdn.example.com/assets/app.js?v=1" 10 = "/assets..." /\
  (Z.of_nat
     (String.length
        (Reporter.truncateUrl ReportScenario.parse_example
           "https://cdn.example.com/assets/app.js?v=1" 20)) <= 20)%Z.
Proof.
  split; [lia|]. split; [reflexivity|]. split; [reflexivity|].
  destruct (truncateUrl_fits ReportScenario.parse_example
              "https://cdn.example.com/assets/app.js?v=1" 20)
    as (_ & _ & H).
  apply H. lia.
Defined.

Lemma latest_get_set (k k' : WebVitals.MetricName)
    (v : WebVitals.EnhancedWebVitalsMetric)
    (m : list (WebVitals.MetricName * WebVitals.EnhancedWebVitalsMetric)) :
  Reporter.latest_get k' (Reporter.latest_set k v m) =
  if WebVitals.MetricName_eqb k' k then Some v else Reporter.latest_get k' m.
Proof.
  assert (Heqb : forall a b, WebVitals.MetricName_eqb a b = true <-> a = b).
  { intros a b. destruct a, b; simpl; split; congruence. }
  induction m as [|[k0 v0] m IH]; simpl.
  - destruct (WebVitals.MetricName_eqb k' k); reflexivity.
  - destruct (WebVitals.MetricName_eqb k k0) eqn:E; simpl.
    + apply Heqb in E. subst k0.
      destruct (WebVitals.MetricName_eqb k' k); reflexivity.
    + destruct (WebVitals.MetricName_eqb k' k0) eqn:E'.
      * apply Heqb in E'. subst k0.
        destruct (WebVitals.MetricName_eqb k' k) eqn:E''; [|reflexivity].
        apply Heqb in E''. subst k'.
        destruct k; discriminate.
      * exact IH.
Qed.

(** X22.  The vitals table of the report shows, for each metric name,
    the revision [getLatestMetric] returns for it: the reporter's
    [latest] map and the monitor agree on every name. *)
Theorem report_latest_agrees_with_monitor
    (s : WebVitals.state) (n : WebVitals.MetricName) :
  Reporter.latest_get n (Reporter.latest (WebVitals.getMetrics s))
  = WebVitals.getLatestMetric n s.
Proof.
  rewrite getLatestMetric_last. unfold Reporter.latest, WebVitals.getMetrics.
  assert (H : forall ms m0,
            Reporter.latest_get n
              (fold_left (fun m x => Reporter.latest_set (WebVitals.name x) x m)
                         ms m0)
            = match last (List.filter
                            (fun m => WebVitals.MetricName_eqb
                                        (WebVitals.name m) n) ms) with
              | Some x => Some x
              | None => Reporter.latest_get n m0
              end).
  { induction ms as [|x ms IH]; intros m0; [reflexivity|].
    cbn [fold_left List.filter]. rewrite IH, latest_get_set.
    assert (Esym : WebVitals.MetricName_eqb n (WebVitals.name x)
                   = WebVitals.MetricName_eqb (WebVitals.name x) n)
      by (destruct n, (WebVitals.name x); reflexivity).
    rewrite Esym.
    destruct (WebVitals.MetricName_eqb (WebVitals.name x) n).
    - destruct (List.filter _ ms) as [|y l] eqn:E; [reflexivity|].
      change (last (x :: y :: l)) with (last (y :: l)).
      destruct (last (y :: l)) eqn:El; [reflexivity|].
      apply last_None in El. discriminate.
    - reflexivity. }
  rewrite H. simpl. destruct (last _); reflexivity.
Qed.

(** ** Averages, initialization and reconnection *)






(** X25.  [disconnect()] keeps the log, and a later [initialize] takes a
    new snapshot on top of it: after initialize, disconnect, initialize
    on a fresh monitor the log holds the first snapshot followed by the
    second, so an entry that is in the cache both times is there
    twice. *)
Theorem reconnect_appends_second_snapshot
    (queries queries' : list Query.RawQuery) :
  Query.getQueryMetrics (Query.disconnect (Query.initialize queries Query.init))
  = map Query.snapshot_metric queries /\
  Query.getQueryMetrics
    (Query.initialize queries'
       (Query.disconnect (Query.initialize queries Query.init)))
  = map Query.snapshot_metric queries ++ map Query.snapshot_metric queries'.
Proof.
  assert (H0 : Query.getQueryMetrics (Query.initialize queries Query.init)
               = map Query.snapshot_metric queries).
  { rewrite query_initialize_metrics by apply query_wf_init. reflexivity. }
  split; [exact H0|].
  rewrite query_initialize_metrics.
  - simpl. f_equal. exact H0.
  - apply (query_wf_run [Query.Initialize queries; Query.Disconnect]
             Query.init query_wf_init).
Qed.

(** ** Further concrete checks *)

Lemma api_inp_blocking_calls_exact_witness :
  In ReportScenario.call_100_after_interaction
     (API.getAPICalls
        (API.run [API.XhrLoadEnd Scenario.call_100 None 400 200 0;
                  API.RecordINPEvent 250] API.init)) /\
  (exists t,
     In t (API.inpEvents
             (API.run [API.XhrLoadEnd Scenario.call_100 None 400 200 0;
                       API.RecordINPEvent 250] API.init)) /\
     API.overlaps ReportScenario.call_100_after_interaction t) /\
  In ReportScenario.call_100_after_interaction
     (API.getINPBlockingCalls
        (API.run [API.XhrLoadEnd Scenario.call_100 None 400 200 0;
                  API.RecordINPEvent 250] API.init)).
Proof.
  assert (H1 : In ReportScenario.call_100_after_interaction
                  (API.getAPICalls
                     (API.run
                        [API.XhrLoadEnd Scenario.call_100 None 400 200 0;
                         API.RecordINPEvent 250] API.init)))
    by (left; reflexivity).
  assert (H2 : exists t,
             In t (API.inpEvents
                     (API.run
                        [API.XhrLoadEnd Scenario.call_100 None 400 200 0;
                         API.RecordINPEvent 250] API.init)) /\
             API.overlaps ReportScenario.call_100_after_interaction t).
  { exists 250. split; [left; reflexivity|]. split; reflexivity. }
  split; [exact H1|]. split; [exact H2|].
  exact (proj2 (api_inp_blocking_calls_exact
                  [API.XhrLoadEnd Scenario.call_100 None 400 200 0;
                   API.RecordINPEvent 250]
                  ReportScenario.call_100_after_interaction)
               (conj H1 H2)).
Defined.

Lemma latest_metric_is_last_stored_witness :
  WebVitals.getLatestMetric WebVitals.LCP
    (WebVitals.storeMetric ReportScenario.lcp_metric WebVitals.init)
  = Some ReportScenario.lcp_metric /\
  WebVitals.name ReportScenario.lcp_metric = WebVitals.LCP /\
  In ReportScenario.lcp_metric
     (WebVitals.getMetrics
        (WebVitals.storeMetric ReportScenario.lcp_metric WebVitals.init)).
Proof.
  split; [reflexivity|].
  destruct (latest_metric_is_last_stored
              (WebVitals.storeMetric ReportScenario.lcp_metric WebVitals.init)
              ReportScenario.lcp_metric WebVitals.LCP) as (_ & _ & H & _).
  exact (H ReportScenario.lcp_metric eq_refl).
Defined.
